(** * Tensor ICP registration (open3d/t/pipelines/registration/Registration.cpp)

    A shallow embedding of the three functions of Registration.cpp:
    [GetRegistrationResultAndCorrespondences], [EvaluateRegistration] and
    [RegistrationICP].

    - C++ [double] is IEEE binary64: Rocq's primitive [float].
    - [utility::LogError] and the tensor assertions throw: an [Outcome].
    - Point clouds live in a store indexed by locations, because
      [PointCloud::Transform] updates its receiver in place and the entry
      points work on a [Clone] of the caller's cloud.
    - Calls into the collaborators (nearest-neighbour search, estimator,
      logger) are recorded in an event list. *)

From Stdlib Require Import Floats ZArith.
From stdpp Require Import gmap list strings.

(** ** Devices, dtypes, tensors *)

Inductive DeviceType := CPU | CUDA.

Record Device := { device_type_ : DeviceType; device_id_ : Z }.

Inductive Dtype := Undefined | Float32 | Float64 | Int32 | Int64 | UInt8 | Bool.

#[global] Instance DeviceType_eq_dec : EqDecision DeviceType.
Proof. solve_decision. Defined.
#[global] Instance Device_eq_dec : EqDecision Device.
Proof. solve_decision. Defined.
#[global] Instance Dtype_eq_dec : EqDecision Dtype.
Proof. solve_decision. Defined.

(** Modelled from the spec: core::Tensor (Tensor.h is not part of the
    sources).  The spec treats a tensor as an opaque numeric container bound
    to a compute device; the registration code only looks at its shape, its
    dtype and its device.  The elements are kept as binary64 values, which
    represent every Float32 exactly. *)
Record Tensor := {
  shape_ : list Z;
  dtype_ : Dtype;
  tdevice_ : Device;
  data_ : list float
}.

(** Modelled from the spec: the default-constructed tensor, the empty half
    of an empty CorrespondenceSet. *)
Definition Tensor_default : Tensor :=
  {| shape_ := [0%Z]; dtype_ := Undefined;
     tdevice_ := {| device_type_ := CPU; device_id_ := 0 |}; data_ := [] |}.

(** Modelled from the spec: Tensor::To(device), the same contents bound to
    another device. *)
Definition To (t : Tensor) (d : Device) : Tensor :=
  {| shape_ := shape_ t; dtype_ := dtype_ t; tdevice_ := d; data_ := data_ t |}.

(** Modelled from the spec: Tensor::GetLength(), the size of the first
    dimension (the library throws on a 0-dimensional tensor; the model
    answers 0 there). *)
Definition GetLength (t : Tensor) : Z :=
  match shape_ t with
  | [] => 0
  | n :: _ => n
  end.

(** ** Exceptions *)

Inductive Exception :=
| DtypeError (actual expected : Dtype)
| ShapeError (actual expected : list Z)
| RuntimeError (msg : string)
| DanglingReference.

Inductive Outcome (A : Type) :=
| Ok (a : A)
| Throw (e : Exception).
Arguments Ok {A} a.
Arguments Throw {A} e.

(** ** Point clouds, correspondences, results *)

(** Modelled from the spec: t::geometry::PointCloud (PointCloud.h is not
    part of the sources): point positions residing on one compute device. *)
Record PointCloud := {
  device_ : Device;
  points_ : Tensor
}.

Definition GetDevice (pc : PointCloud) : Device := device_ pc.
Definition GetPoints (pc : PointCloud) : Tensor := points_ pc.

(** CorrespondenceSet: std::pair of index tensors (source, target). *)
Definition CorrespondenceSet : Type := Tensor * Tensor.

Record RegistrationResult := {
  transformation_ : Tensor;
  correspondence_set_ : CorrespondenceSet;
  inlier_rmse_ : float;
  fitness_ : float
}.

(** Modelled from the spec: the constructor RegistrationResult(transformation)
    (Registration.h is not part of the sources).  The spec gives the
    short-circuit result an empty correspondence set, fitness 0 and
    inlier_rmse 0, which is what the constructor leaves behind. *)
Definition RegistrationResult_init (transformation : Tensor) : RegistrationResult :=
  {| transformation_ := transformation;
     correspondence_set_ := (Tensor_default, Tensor_default);
     inlier_rmse_ := 0%float;
     fitness_ := 0%float |}.

Definition set_correspondence_set (r : RegistrationResult) (c : CorrespondenceSet) :=
  {| transformation_ := transformation_ r; correspondence_set_ := c;
     inlier_rmse_ := inlier_rmse_ r; fitness_ := fitness_ r |}.
Definition set_fitness (r : RegistrationResult) (f : float) :=
  {| transformation_ := transformation_ r;
     correspondence_set_ := correspondence_set_ r;
     inlier_rmse_ := inlier_rmse_ r; fitness_ := f |}.
Definition set_inlier_rmse (r : RegistrationResult) (e : float) :=
  {| transformation_ := transformation_ r;
     correspondence_set_ := correspondence_set_ r;
     inlier_rmse_ := e; fitness_ := fitness_ r |}.
Definition set_transformation (r : RegistrationResult) (t : Tensor) :=
  {| transformation_ := t; correspondence_set_ := correspondence_set_ r;
     inlier_rmse_ := inlier_rmse_ r; fitness_ := fitness_ r |}.

(** Modelled from the spec: ICPConvergenceCriteria (Registration.h is not
    part of the sources), with the three fields RegistrationICP reads. *)
Record ICPConvergenceCriteria := {
  relative_fitness_ : float;
  relative_rmse_ : float;
  max_iteration_ : Z
}.

(** ** Integer conversions *)

(** [int n = <int64_t>]: narrowing to 32 bits, two's complement. *)
Definition int_of_int64 (z : Z) : Z :=
  ((z + 2147483648) mod 4294967296 - 2147483648)%Z.

(** [static_cast<double>] of a signed integer. *)
Definition double_of_Z (z : Z) : float :=
  if (z <? 0)%Z then (- PrimFloat.of_uint63 (Uint63.of_Z (- z)))%float
  else PrimFloat.of_uint63 (Uint63.of_Z z).

(** ** Effects: the store of point clouds, the call trace, exceptions *)

Definition loc := positive.

Inductive Event :=
| NNSConstruct (dataset : Tensor)
| HybridIndexCall (dataset : Tensor) (radius : float) (ok : bool)
| Hybrid1NNSearchCall (dataset query : Tensor) (radius : float)
| CloneCall (from to : loc)
| TransformCall (l : loc) (transformation : Tensor)
| ComputeTransformationCall (update : Tensor)
| LogDebug (i : Z) (fitness rmse : float).

Definition M (A : Type) : Type :=
  gmap loc PointCloud -> Outcome A * gmap loc PointCloud * list Event.

Definition ret {A} (a : A) : M A := fun s => (Ok a, s, []).

Definition throw {A} (e : Exception) : M A := fun s => (Throw e, s, []).

Definition bind {A B} (m : M A) (f : A -> M B) : M B := fun s =>
  match m s with
  | (Ok a, s1, ev1) =>
      match f a s1 with
      | (r, s2, ev2) => (r, s2, ev1 ++ ev2)
      end
  | (Throw e, s1, ev1) => (Throw e, s1, ev1)
  end.

Notation "'let*' p := c1 'in' c2" := (bind c1 (fun p => c2))
  (at level 10, p pattern, c1 at level 100, c2 at level 200,
   format "'[v' 'let*'  p  :=  c1  'in' '/' c2 ']'").

Definition emit (e : Event) : M unit := fun s => (Ok tt, s, [e]).

Definition lift {A} (o : Outcome A) : M A := fun s => (o, s, []).

(** Reading through a [const PointCloud &]. *)
Definition deref (l : loc) : M PointCloud := fun s =>
  match s !! l with
  | Some pc => (Ok pc, s, [])
  | None => (Throw DanglingReference, s, [])
  end.

(** Modelled from the spec: utility::LogError reports the failure to the
    caller by throwing. *)
Definition LogError {A} (msg : string) : M A := throw (RuntimeError msg).

(** Modelled from the spec: Tensor::AssertDtype and Tensor::AssertShape
    throw unless the tensor has the given dtype, the given shape. *)
Definition AssertDtype (t : Tensor) (d : Dtype) : M unit :=
  if decide (dtype_ t = d) then ret tt else throw (DtypeError (dtype_ t) d).

Definition AssertShape (t : Tensor) (s : list Z) : M unit :=
  if decide (shape_ t = s) then ret tt else throw (ShapeError (shape_ t) s).

(** Modelled from the spec: Tensor::Item<float>(), the value of a
    one-element tensor. *)
Definition Item (t : Tensor) : M float :=
  match data_ t with
  | [x] => ret x
  | _ => throw (RuntimeError "Tensor::Item() only works for Tensor with exactly one element.")
  end.

(** ** Collaborators

    The tensor kernels, PointCloud::Transform and the nearest-neighbour index
    are outside Registration.cpp; the registration code is parametric in them.
    The interface of the index follows the spec: a build that may fail and a
    radius-bounded search returning (source indices, target indices,
    distances). *)
Class Collaborators := {
  Index : Type;
  BuildIndex : Tensor -> float -> option Index;
  SearchIndex : Index -> Tensor -> float -> Tensor * Tensor * Tensor;
  Matmul : Tensor -> Tensor -> Outcome Tensor;
  Sum : Tensor -> Tensor;
  TransformPoints : Tensor -> Tensor -> Outcome Tensor
}.

(** Modelled from the spec: the TransformationEstimation capability, one
    method from two clouds and their correspondences to a transform. *)
Record TransformationEstimation := {
  compute_ : PointCloud -> PointCloud -> CorrespondenceSet -> Outcome Tensor
}.

Section Registration.

Context `{Collaborators}.

(** Modelled from the spec: core::nns::NearestNeighborSearch, the dataset
    and, once built, an index. *)
Record NearestNeighborSearch := {
  dataset_points_ : Tensor;
  index_ : option Index
}.

Definition NearestNeighborSearch_new (dataset : Tensor) : M NearestNeighborSearch :=
  let* _ := emit (NNSConstruct dataset) in
  ret {| dataset_points_ := dataset; index_ := None |}.

(** Modelled from the spec: NearestNeighborSearch::HybridIndex(radius)
    builds the index of the receiver and reports whether that worked. *)
Definition HybridIndex (nns : NearestNeighborSearch) (radius : float)
  : M (bool * NearestNeighborSearch) :=
  match BuildIndex (dataset_points_ nns) radius with
  | Some ix =>
      let* _ := emit (HybridIndexCall (dataset_points_ nns) radius true) in
      ret (true, {| dataset_points_ := dataset_points_ nns; index_ := Some ix |})
  | None =>
      let* _ := emit (HybridIndexCall (dataset_points_ nns) radius false) in
      ret (false, {| dataset_points_ := dataset_points_ nns; index_ := None |})
  end.

(** Modelled from the spec: NearestNeighborSearch::Hybrid1NNSearch(query,
    radius) fails when the index was never built. *)
Definition Hybrid1NNSearch (nns : NearestNeighborSearch) (query : Tensor)
    (radius : float) : M (Tensor * Tensor * Tensor) :=
  match index_ nns with
  | Some ix =>
      let* _ := emit (Hybrid1NNSearchCall (dataset_points_ nns) query radius) in
      ret (SearchIndex ix query radius)
  | None => LogError "Index is not set."
  end.

(** Modelled from the spec: PointCloud::Transform, in place, on the cloud
    at [l]. *)
Definition Transform (l : loc) (transformation : Tensor) : M unit := fun s =>
  match s !! l with
  | Some pc =>
      match TransformPoints (GetPoints pc) transformation with
      | Ok pts =>
          (Ok tt, <[l := {| device_ := device_ pc; points_ := pts |}]> s,
           [TransformCall l transformation])
      | Throw e => (Throw e, s, [])
      end
  | None => (Throw DanglingReference, s, [])
  end.

(** Modelled from the spec: [geometry::PointCloud c = source.Clone(); body],
    a deep copy at a fresh location, which lives until the enclosing function
    returns or throws. *)
Definition with_Clone {A} (source : loc) (body : loc -> M A) : M A := fun s =>
  match s !! source with
  | Some pc =>
      let l := fresh (dom s) in
      match body l (<[l := pc]> s) with
      | (r, s', ev) => (r, delete l s', CloneCall source l :: ev)
      end
  | None => (Throw DanglingReference, s, [])
  end.

(** The call [estimation.ComputeTransformation(source, target, corres)] on
    two clouds of the store. *)
Definition ComputeTransformation (estimation : TransformationEstimation)
    (source target : loc) (corres : CorrespondenceSet) : M Tensor :=
  let* src := deref source in
  let* tgt := deref target in
  let* update := lift (compute_ estimation src tgt corres) in
  let* _ := emit (ComputeTransformationCall update) in
  ret update.

(** Lines 46-58, 99-110 and 127-138: the three functions open with the same
    checks, and each ends them with [transformation.To(device)]. *)
Definition check_inputs (source target : loc) (transformation : Tensor) : M Tensor :=
  let* src := deref source in
  let device := GetDevice src in
  let dtype := Float32 in
  let* _ := AssertDtype (GetPoints src) dtype in
  let* tgt := deref target in
  let* _ := AssertDtype (GetPoints tgt) dtype in
  let* _ := (if decide (GetDevice tgt <> device)
             then LogError "Target Pointcloud device {} != Source Pointcloud's device {}."
             else ret tt) in
  let* _ := AssertShape transformation [4%Z; 4%Z] in
  let* _ := AssertDtype transformation dtype in
  ret (To transformation device).

(** Lines 40-93.  [target_nns] is passed by reference and HybridIndex
    changes it, so the function also returns it. *)
Definition GetRegistrationResultAndCorrespondences (source target : loc)
    (target_nns : NearestNeighborSearch) (max_correspondence_distance : float)
    (transformation : Tensor) : M (RegistrationResult * NearestNeighborSearch) :=
  let* transformation_device := check_inputs source target transformation in
  let result := RegistrationResult_init transformation_device in
  if (max_correspondence_distance <=? 0)%float then ret (result, target_nns)
  else
    let* (check, target_nns) := HybridIndex target_nns max_correspondence_distance in
    let* _ := (if negb check
               then LogError "[Tensor: EvaluateRegistration: GetRegistrationResultAndCorrespondences: NearestNeighborSearch::HybridSearch] Index is not set."
               else ret tt) in
    let* src := deref source in
    let* (cs, distances) :=
      Hybrid1NNSearch target_nns (GetPoints src) max_correspondence_distance in
    let result := set_correspondence_set result cs in
    let num_correspondences := int_of_int64 (GetLength (fst (correspondence_set_ result))) in
    let* squared_error := Item (Sum distances) in
    let result :=
      set_fitness result
        (double_of_Z num_correspondences / double_of_Z (GetLength (GetPoints src)))%float in
    let result :=
      set_inlier_rmse result
        (PrimFloat.sqrt (squared_error / double_of_Z num_correspondences))%float in
    let result := set_transformation result transformation in
    ret (result, target_nns).

(** Lines 95-119. *)
Definition EvaluateRegistration (source target : loc)
    (max_correspondence_distance : float) (transformation : Tensor)
  : M RegistrationResult :=
  let* transformation_device := check_inputs source target transformation in
  let* tgt := deref target in
  let* target_nns := NearestNeighborSearch_new (GetPoints tgt) in
  with_Clone source (fun source_transformed =>
    let* _ := Transform source_transformed transformation_device in
    let* (result, _) :=
      GetRegistrationResultAndCorrespondences source_transformed target target_nns
        max_correspondence_distance transformation_device in
    ret result).

(** The variables the loop of RegistrationICP carries from one iteration to
    the next. *)
Record ICPState := {
  transformation_device_ : Tensor;
  result_ : RegistrationResult;
  corres_ : CorrespondenceSet;
  target_nns_ : NearestNeighborSearch
}.

(** Lines 153-172: the body of the loop, up to the convergence test. *)
Definition icp_iteration (source_transformed target : loc)
    (max_correspondence_distance : float) (estimation : TransformationEstimation)
    (i : Z) (st : ICPState) : M ICPState :=
  let* _ := emit (LogDebug i (fitness_ (result_ st)) (inlier_rmse_ (result_ st))) in
  let* update :=
    ComputeTransformation estimation source_transformed target (corres_ st) in
  let* transformation_device := lift (Matmul update (transformation_device_ st)) in
  let* _ := Transform source_transformed update in
  let* (result, target_nns) :=
    GetRegistrationResultAndCorrespondences source_transformed target
      (target_nns_ st) max_correspondence_distance transformation_device in
  let corres := correspondence_set_ result in
  ret {| transformation_device_ := transformation_device; result_ := result;
         corres_ := corres; target_nns_ := target_nns |}.

(** Lines 175-178: the test that guards [break], on the scores before and
    after the iteration. *)
Definition converged (criteria : ICPConvergenceCriteria)
    (prev_fitness_ prev_inliner_rmse_ fitness rmse : float) : bool :=
  (abs (prev_fitness_ - fitness) <? relative_fitness_ criteria)%float
  && (abs (prev_inliner_rmse_ - rmse) <? relative_rmse_ criteria)%float.

(** Lines 152-181: [for (int i = 0; i < criteria.max_iteration_; i++)].
    [n] is the number of iterations the loop header still allows,
    [max_iteration_ - i]. *)
Fixpoint icp_loop (source_transformed target : loc)
    (max_correspondence_distance : float) (estimation : TransformationEstimation)
    (criteria : ICPConvergenceCriteria) (n : nat) (i : Z) (st : ICPState)
  : M ICPState :=
  match n with
  | O => ret st
  | S n' =>
      let prev_fitness_ := fitness_ (result_ st) in
      let prev_inliner_rmse_ := inlier_rmse_ (result_ st) in
      let* st' := icp_iteration source_transformed target
                    max_correspondence_distance estimation i st in
      if converged criteria prev_fitness_ prev_inliner_rmse_
           (fitness_ (result_ st')) (inlier_rmse_ (result_ st'))
      then ret st'
      else icp_loop source_transformed target max_correspondence_distance
             estimation criteria n' (i + 1)%Z st'
  end.

(** Lines 121-184. *)
Definition RegistrationICP (source target : loc)
    (max_correspondence_distance : float) (init : Tensor)
    (estimation : TransformationEstimation) (criteria : ICPConvergenceCriteria)
  : M RegistrationResult :=
  let* transformation_device := check_inputs source target init in
  let* tgt := deref target in
  let* target_nns := NearestNeighborSearch_new (GetPoints tgt) in
  with_Clone source (fun source_transformed =>
    let* _ := Transform source_transformed transformation_device in
    let result := RegistrationResult_init transformation_device in
    let* (result, target_nns) :=
      GetRegistrationResultAndCorrespondences source_transformed target target_nns
        max_correspondence_distance transformation_device in
    let corres := correspondence_set_ result in
    let* st :=
      icp_loop source_transformed target max_correspondence_distance estimation
        criteria (Z.to_nat (max_iteration_ criteria)) 0%Z
        {| transformation_device_ := transformation_device; result_ := result;
           corres_ := corres; target_nns_ := target_nns |} in
    ret (result_ st)).

End Registration.

(** ** Reference collaborators

    A brute-force nearest-neighbour search, a 4x4 matrix product, the rigid
    action of a 4x4 matrix on points and a translation estimator, all in
    binary64.  They make the registration functions run on concrete clouds. *)
Module Reference.

Local Open Scope float_scope.

Definition point : Type := float * float * float.

Fixpoint rows3 (l : list float) : list point :=
  match l with
  | x :: y :: z :: r => (x, y, z) :: rows3 r
  | _ => []
  end.

Definition apply_matrix (T : list float) (p : point) : list float :=
  match T, p with
  | [a; b; c; d; e; f; g; h; i; j; k; l; _; _; _; _], (x, y, z) =>
      [a * x + b * y + c * z + d; e * x + f * y + g * z + h;
       i * x + j * y + k * z + l]
  | _, _ => []
  end.

Definition TransformPoints (pts T : Tensor) : Outcome Tensor :=
  if decide (shape_ T = [4%Z; 4%Z])
  then Ok {| shape_ := shape_ pts; dtype_ := dtype_ pts; tdevice_ := tdevice_ pts;
             data_ := flat_map (apply_matrix (data_ T)) (rows3 (data_ pts)) |}
  else Throw (ShapeError (shape_ T) [4%Z; 4%Z]).

Definition entry (A B : list float) (i j : nat) : float :=
  fold_left (fun acc k => acc + nth (4 * i + k) A 0 * nth (4 * k + j) B 0)
    [0%nat; 1%nat; 2%nat; 3%nat] 0.

Definition Matmul (A B : Tensor) : Outcome Tensor :=
  if decide (shape_ A = [4%Z; 4%Z] /\ shape_ B = [4%Z; 4%Z])
  then Ok {| shape_ := [4%Z; 4%Z]; dtype_ := dtype_ A; tdevice_ := tdevice_ A;
             data_ := flat_map (fun i => map (entry (data_ A) (data_ B) i)
                                           [0%nat; 1%nat; 2%nat; 3%nat])
                        [0%nat; 1%nat; 2%nat; 3%nat] |}
  else Throw (ShapeError (shape_ B) [4%Z; 4%Z]).

Definition Sum (t : Tensor) : Tensor :=
  {| shape_ := []; dtype_ := dtype_ t; tdevice_ := tdevice_ t;
     data_ := [fold_left PrimFloat.add (data_ t) 0] |}.

Definition sqdist (p q : point) : float :=
  match p, q with
  | (x, y, z), (x', y', z') =>
      (x - x') * (x - x') + (y - y') * (y - y') + (z - z') * (z - z')
  end.

Fixpoint nearest (q : point) (ds : list point) (j : Z) (best : option (Z * float))
  : option (Z * float) :=
  match ds with
  | [] => best
  | p :: ds' =>
      let d := sqdist q p in
      nearest q ds' (j + 1)%Z
        match best with
        | Some (_, bd) => if d <? bd then Some (j, d) else best
        | None => Some (j, d)
        end
  end.

Fixpoint search (qs ds : list point) (i : Z) (radius : float) : list (Z * Z * float) :=
  match qs with
  | [] => []
  | q :: qs' =>
      match nearest q ds 0%Z None with
      | Some (j, d) =>
          if d <=? radius * radius
          then (i, j, d) :: search qs' ds (i + 1)%Z radius
          else search qs' ds (i + 1)%Z radius
      | None => search qs' ds (i + 1)%Z radius
      end
  end.

Definition index_tensor (dev : Device) (l : list Z) : Tensor :=
  {| shape_ := [Z.of_nat (length l)]; dtype_ := Int64; tdevice_ := dev;
     data_ := map double_of_Z l |}.

Definition SearchIndex (dataset query : Tensor) (radius : float)
  : Tensor * Tensor * Tensor :=
  let ms := search (rows3 (data_ query)) (rows3 (data_ dataset)) 0%Z radius in
  (index_tensor (tdevice_ query) (map (fun m => fst (fst m)) ms),
   index_tensor (tdevice_ query) (map (fun m => snd (fst m)) ms),
   {| shape_ := [Z.of_nat (length ms)]; dtype_ := Float32;
      tdevice_ := tdevice_ query; data_ := map snd ms |}).

Definition BuildIndex (dataset : Tensor) (radius : float) : option Tensor :=
  match data_ dataset with
  | [] => None
  | _ => Some dataset
  end.

#[export] Instance collaborators : Collaborators :=
  Build_Collaborators Tensor BuildIndex SearchIndex Matmul Sum TransformPoints.

(** The integer a binary64 index stands for. *)
Definition Z_of_double (f : float) : Z :=
  match Prim2SF f with
  | S754_finite s m e =>
      let v := match e with
               | Zneg k => (Zpos m / 2 ^ Zpos k)%Z
               | _ => (Zpos m * 2 ^ e)%Z
               end in
      if s then (- v)%Z else v
  | _ => 0%Z
  end.

Definition matrix (dev : Device) (l : list float) : Tensor :=
  {| shape_ := [4%Z; 4%Z]; dtype_ := Float32; tdevice_ := dev; data_ := l |}.

Definition translation (dev : Device) (tx ty tz : float) : Tensor :=
  matrix dev [1; 0; 0; tx;  0; 1; 0; ty;  0; 0; 1; tz;  0; 0; 0; 1].

Definition Eye (dev : Device) : Tensor := translation dev 0 0 0.

(** The mean displacement from the matched source points to their targets;
    the identity when nothing is matched. *)
Definition mean_shift (source target : PointCloud) (corres : CorrespondenceSet)
  : Outcome Tensor :=
  let ps := rows3 (data_ (GetPoints source)) in
  let qs := rows3 (data_ (GetPoints target)) in
  let pairs := zip (map Z_of_double (data_ (fst corres)))
                   (map Z_of_double (data_ (snd corres))) in
  let diffs := omap (fun ij =>
                 match ps !! Z.to_nat (fst ij), qs !! Z.to_nat (snd ij) with
                 | Some (x, y, z), Some (x', y', z') => Some (x' - x, y' - y, z' - z)
                 | _, _ => None
                 end) pairs in
  match diffs with
  | [] => Ok (Eye (GetDevice source))
  | _ =>
      let n := double_of_Z (Z.of_nat (length diffs)) in
      let sx := fold_left (fun acc d => acc + fst (fst d)) diffs 0 in
      let sy := fold_left (fun acc d => acc + snd (fst d)) diffs 0 in
      let sz := fold_left (fun acc d => acc + snd d) diffs 0 in
      Ok (translation (GetDevice source) (sx / n) (sy / n) (sz / n))
  end.

Definition estimation : TransformationEstimation := {| compute_ := mean_shift |}.

Definition cpu : Device := {| device_type_ := CPU; device_id_ := 0 |}.

Definition cloud (dt : Dtype) (dev : Device) (l : list float) : PointCloud :=
  {| device_ := dev;
     points_ := {| shape_ := [Z.of_nat (length l / 3); 3%Z]; dtype_ := dt;
                   tdevice_ := dev; data_ := l |} |}.

(** A store with the caller's source at location 1 and target at location 2. *)
Definition store (source target : PointCloud) : gmap loc PointCloud :=
  <[2%positive := target]> (<[1%positive := source]> ∅).

End Reference.

(** ** Concrete scenes *)
Module Scene.

Import Reference.
Local Open Scope float_scope.

(** Two source points, each one unit away from its target point. *)
Definition shifted : gmap loc PointCloud :=
  store (cloud Float32 cpu [1; 0; 0; 11; 0; 0]) (cloud Float32 cpu [0; 0; 0; 10; 0; 0]).

(** One source point ten units away from the only target point. *)
Definition far : gmap loc PointCloud :=
  store (cloud Float32 cpu [10; 0; 0]) (cloud Float32 cpu [0; 0; 0]).

(** The shifted scene with Float64 positions. *)
Definition shifted64 : gmap loc PointCloud :=
  store (cloud Float64 cpu [1; 0; 0; 11; 0; 0]) (cloud Float64 cpu [0; 0; 0; 10; 0; 0]).

(** The shifted scene with the target on a GPU. *)
Definition cross_device : gmap loc PointCloud :=
  store (cloud Float32 cpu [1; 0; 0; 11; 0; 0])
        (cloud Float32 {| device_type_ := CUDA; device_id_ := 0 |}
           [0; 0; 0; 10; 0; 0]).

(** Source and target are the same two points. *)
Definition aligned : gmap loc PointCloud :=
  store (cloud Float32 cpu [0; 0; 0; 10; 0; 0]) (cloud Float32 cpu [0; 0; 0; 10; 0; 0]).

Definition Eye64 : Tensor :=
  {| shape_ := [4%Z; 4%Z]; dtype_ := Float64; tdevice_ := cpu;
     data_ := data_ (Eye cpu) |}.

Definition source : loc := 1%positive.
Definition target : loc := 2%positive.

Definition thirty : ICPConvergenceCriteria :=
  {| relative_fitness_ := 0.25; relative_rmse_ := 0.25; max_iteration_ := 30 |}.

Definition once : ICPConvergenceCriteria :=
  {| relative_fitness_ := 0; relative_rmse_ := 0; max_iteration_ := 1 |}.

Definition evaluate (d : float) (t : Tensor) (s : gmap loc PointCloud) :=
  @EvaluateRegistration collaborators source target d t s.

Definition icp (d : float) (c : ICPConvergenceCriteria) (s : gmap loc PointCloud) :=
  @RegistrationICP collaborators source target d (Eye cpu) estimation c s.

(** The shifted scene as the loop of RegistrationICP finds it, with init the
    identity and distance 2: the clone of the source sits at location 3, and
    the loop starts from the result of the initial evaluation. *)
Definition working : loc := 3%positive.

Definition cloned : gmap loc PointCloud :=
  <[working := cloud Float32 cpu [1; 0; 0; 11; 0; 0]]> shifted.

Definition first_state : option (@ICPState collaborators) :=
  match
    @GetRegistrationResultAndCorrespondences collaborators working target
      {| dataset_points_ := points_ (cloud Float32 cpu [0; 0; 0; 10; 0; 0]);
         index_ := None |} 2 (Eye cpu) cloned
  with
  | (Ok (result, target_nns), _, _) =>
      Some {| transformation_device_ := Eye cpu; result_ := result;
              corres_ := correspondence_set_ result; target_nns_ := target_nns |}
  | _ => None
  end.

End Scene.

(** ** More scenes *)
Module Cases.

Import Reference.
Local Open Scope float_scope.

(** One source point and a target cloud without points. *)
Definition no_target : gmap loc PointCloud :=
  store (cloud Float32 cpu [1; 0; 0]) (cloud Float32 cpu []).

(** A fitness threshold of 0: no difference is below it. *)
Definition strict : ICPConvergenceCriteria :=
  {| relative_fitness_ := 0; relative_rmse_ := 0.25; max_iteration_ := 3 |}.

(** A negative iteration bound. *)
Definition negative : ICPConvergenceCriteria :=
  {| relative_fitness_ := 0.25; relative_rmse_ := 0.25; max_iteration_ := -3 |}.

End Cases.

(** ** The slot allocator of the hash map (InternalKvPairManager)

    The device functions of InternalKvPairManagerContext, the reset kernel and
    the constructor.  A device function is modelled as it runs when called by
    one thread at a time: atomicAdd and atomicSub return the old counter and
    store the new one.  The assertions are those of a build that keeps them. *)
Module KvPair.

(** How a device function ends: with a value, on a failed assertion, or with
    an access outside the heap array. *)
Inductive Device (A : Type) :=
| Done (a : A)
| AssertFailed
| OutOfBounds.
Arguments Done {A} a.
Arguments AssertFailed {A}.
Arguments OutOfBounds {A}.

(** The fields of the context the allocator works on: the heap of slot
    addresses and its counter (the key and value arrays are not touched by
    the allocator). *)
Record InternalKvPairManagerContext := {
  heap_ : list Z;
  heap_counter_ : Z;
  dsize_key_ : Z;
  dsize_value_ : Z;
  max_capacity_ : Z
}.

Definition set_heap_counter (ctx : InternalKvPairManagerContext) (c : Z) :=
  {| heap_ := heap_ ctx; heap_counter_ := c; dsize_key_ := dsize_key_ ctx;
     dsize_value_ := dsize_value_ ctx; max_capacity_ := max_capacity_ ctx |}.

Definition set_heap (ctx : InternalKvPairManagerContext) (h : list Z) :=
  {| heap_ := h; heap_counter_ := heap_counter_ ctx; dsize_key_ := dsize_key_ ctx;
     dsize_value_ := dsize_value_ ctx; max_capacity_ := max_capacity_ ctx |}.

(** [atomicAdd(heap_counter_, v)] and [atomicSub(heap_counter_, v)] on an
    [int]: the old value, and the counter moved with 32-bit wrap-around. *)
Definition atomicAdd (ctx : InternalKvPairManagerContext) (v : Z)
  : Z * InternalKvPairManagerContext :=
  (heap_counter_ ctx, set_heap_counter ctx (int_of_int64 (heap_counter_ ctx + v))).

Definition atomicSub (ctx : InternalKvPairManagerContext) (v : Z)
  : Z * InternalKvPairManagerContext :=
  (heap_counter_ ctx, set_heap_counter ctx (int_of_int64 (heap_counter_ ctx - v))).

(** [heap_[index]] as an rvalue. *)
Definition heap_at (ctx : InternalKvPairManagerContext) (index : Z) : option Z :=
  if (index <? 0)%Z then None else heap_ ctx !! Z.to_nat index.

(** [heap_[index] = ptr]. *)
Definition heap_store (ctx : InternalKvPairManagerContext) (index ptr : Z)
  : Device unit * InternalKvPairManagerContext :=
  if ((0 <=? index) && (index <? Z.of_nat (length (heap_ ctx))))%Z
  then (Done tt, set_heap ctx (<[Z.to_nat index := ptr]> (heap_ ctx)))
  else (OutOfBounds, ctx).

(** Lines 73-76. *)
Definition Allocate (ctx : InternalKvPairManagerContext)
  : Device Z * InternalKvPairManagerContext :=
  let '(index, ctx) := atomicAdd ctx 1 in
  match heap_at ctx index with
  | Some ptr => (Done ptr, ctx)
  | None => (OutOfBounds, ctx)
  end.

(** Lines 78-82. *)
Definition SafeAllocate (ctx : InternalKvPairManagerContext)
  : Device Z * InternalKvPairManagerContext :=
  let '(index, ctx) := atomicAdd ctx 1 in
  if negb (index <? max_capacity_ ctx)%Z then (AssertFailed, ctx)
  else
    match heap_at ctx index with
    | Some ptr => (Done ptr, ctx)
    | None => (OutOfBounds, ctx)
    end.

(** Lines 84-87. *)
Definition Free (ptr : Z) (ctx : InternalKvPairManagerContext)
  : Device unit * InternalKvPairManagerContext :=
  let '(index, ctx) := atomicSub ctx 1 in
  heap_store ctx (index - 1) ptr.

(** Lines 89-93. *)
Definition SafeFree (ptr : Z) (ctx : InternalKvPairManagerContext)
  : Device unit * InternalKvPairManagerContext :=
  let '(index, ctx) := atomicSub ctx 1 in
  if negb (1 <=? index)%Z then (AssertFailed, ctx)
  else heap_store ctx (index - 1) ptr.

(** Lines 115-123: the kernel, run by the thread [threadIdx] of the block
    [blockIdx]. *)
Definition ResetInternalKvPairManagerKernel (blockIdx blockDim threadIdx : Z)
    (ctx : InternalKvPairManagerContext) : InternalKvPairManagerContext :=
  let i := (blockIdx * blockDim + threadIdx)%Z in
  if (i <? max_capacity_ ctx)%Z
  then set_heap ctx (<[Z.to_nat i := i]> (heap_ ctx))
  else ctx.

(** The threads of a launch [<<<blocks, threads>>>]. *)
Definition grid (blocks threads : Z) : list (Z * Z) :=
  flat_map (fun b => map (pair b) (seqZ 0 threads)) (seqZ 0 blocks).

(** A launch of the reset kernel: every thread of the grid runs it.  The
    threads write to different cells, so the order does not matter. *)
Definition launch_Reset (blocks threads : Z) (ctx : InternalKvPairManagerContext)
  : InternalKvPairManagerContext :=
  foldl (fun ctx bt => ResetInternalKvPairManagerKernel (fst bt) threads (snd bt) ctx)
    ctx (grid blocks threads).

(** Lines 134-167: the constructor.  [memory] is what the freshly allocated
    heap array of [max_capacity] cells holds. *)
Definition InternalKvPairManager_new (max_capacity dsize_key dsize_value : Z)
    (memory : list Z) : InternalKvPairManagerContext :=
  let gpu_context_ :=
    {| heap_ := memory; heap_counter_ := 0; dsize_key_ := dsize_key;
       dsize_value_ := dsize_value; max_capacity_ := max_capacity |} in
  let blocks := ((max_capacity + 128 - 1) `quot` 128)%Z in
  let threads := 128%Z in
  let gpu_context_ := launch_Reset blocks threads gpu_context_ in
  let heap_counter := 0%Z in
  set_heap_counter gpu_context_ heap_counter.

(** The states a client reaches from a new manager of capacity [N] when its
    calls do not overlap (every call has returned before the next one
    starts), it allocates only while fewer than [N] slots are live and frees
    only live slots; [live] is the set of slots it holds. *)
Inductive reachable (N : Z) : InternalKvPairManagerContext -> gset Z -> Prop :=
| reach_new dsize_key dsize_value memory :
    length memory = Z.to_nat N ->
    reachable N (InternalKvPairManager_new N dsize_key dsize_value memory) ∅
| reach_Allocate ctx live ptr ctx' :
    reachable N ctx live -> (Z.of_nat (size live) < N)%Z ->
    SafeAllocate ctx = (Done ptr, ctx') ->
    reachable N ctx' (live ∪ {[ptr]})
| reach_Free ctx live ptr ctx' :
    reachable N ctx live -> ptr ∈ live ->
    SafeFree ptr ctx = (Done tt, ctx') ->
    reachable N ctx' (live ∖ {[ptr]}).

(** What every reachable state satisfies: the counter is the number of
    live slots, and the heap from the counter upwards lists, without
    repetition, slots in range that are not live. *)
Definition consistent (N : Z) (ctx : InternalKvPairManagerContext) (live : gset Z)
  : Prop :=
  (0 <= N < 2147483648)%Z /\
  max_capacity_ ctx = N /\
  length (heap_ ctx) = Z.to_nat N /\
  heap_counter_ ctx = Z.of_nat (size live) /\
  (Z.of_nat (size live) <= N)%Z /\
  NoDup (drop (size live) (heap_ ctx)) /\
  (forall ptr, ptr ∈ drop (size live) (heap_ ctx) ->
     (ptr ∉ live) /\ (0 <= ptr < N)%Z) /\
  (forall ptr, ptr ∈ live -> (0 <= ptr < N)%Z).

End KvPair.

(** ** Shapes of nested initializer lists (tensor_init)

    The templates that read the shape off a braced literal and copy its
    entries into a flat vector. *)
Module tensor_init.

(** NestedInitializerImpl<T, D>::type: [T] under [D] levels of
    std::initializer_list. *)
Fixpoint NestedInitializerList (T : Type) (D : nat) : Type :=
  match D with
  | O => T
  | S D' => list (NestedInitializerList T D')
  end.

(** The exception of InitializerShapeImpl. *)
Definition ragged : Exception :=
  RuntimeError "Input contains ragged nested sequences(nested lists with unequal sizes or shapes).".

(** Lines 70-76: the loop that compares every element with [dim]. *)
Fixpoint compare_dims {A} (value : A -> Outcome Z) (dim : Z) (t : list A)
  : Outcome unit :=
  match t with
  | [] => Ok tt
  | it :: rest =>
      match value it with
      | Ok v => if decide (dim <> v) then Throw ragged else compare_dims value dim rest
      | Throw e => Throw e
      end
  end.

(** Lines 62-87: InitializerShapeImpl<D>::value(t), for [t] of nesting depth
    [n].  The source instantiates it only with [D] below the depth of [t]: on
    a scalar there is no size() to call, and the first case stands for a
    program that does not compile. *)
Fixpoint InitializerShapeImpl {T} (D n : nat) {struct n}
  : NestedInitializerList T n -> Outcome Z :=
  match n with
  | O => fun _ => Throw (RuntimeError "InitializerShapeImpl on a scalar")
  | S n' => fun t =>
      match D with
      | O => Ok (Z.of_nat (length t))
      | S D' =>
          match t with
          | [] => Ok 0%Z
          | first :: _ =>
              match InitializerShapeImpl D' n' first with
              | Ok dim =>
                  match compare_dims (InitializerShapeImpl D' n') dim t with
                  | Ok _ => Ok dim
                  | Throw e => Throw e
                  end
              | Throw e => Throw e
              end
          end
      end
  end.

(** The elements of a braced list are evaluated from left to right; the
    first exception ends the evaluation. *)
Fixpoint in_order {A} (l : list (Outcome A)) : Outcome (list A) :=
  match l with
  | [] => Ok []
  | Ok a :: rest =>
      match in_order rest with
      | Ok r => Ok (a :: r)
      | Throw e => Throw e
      end
  | Throw e :: _ => Throw e
  end.

(** Lines 89-93: InitializerShape, over the indices 0 .. InitializerDim - 1. *)
Definition InitializerShape {T} (Dim : nat) (t : NestedInitializerList T Dim)
  : Outcome (list Z) :=
  in_order (map (fun D => InitializerShapeImpl D Dim t) (seq 0 Dim)).

(** Lines 113-116: the loop of InferShape.  It runs at most once per
    dimension, which is what [fuel] counts. *)
Fixpoint last_dim_loop (fuel : nat) (shape : list Z) (last_dim : nat) : nat :=
  match fuel with
  | O => last_dim
  | S fuel' =>
      if bool_decide (last_dim + 1 < length shape)%nat
         && bool_decide (shape !!! last_dim <> 0%Z)
      then last_dim_loop fuel' shape (last_dim + 1)
      else last_dim
  end.

(** Lines 107-120.  [shape.resize(n)] is stdpp's [resize n 0]. *)
Definition InferShape {T} (Dim : nat) (t : NestedInitializerList T Dim)
  : Outcome (list Z) :=
  match InitializerShape Dim t with
  | Ok shape =>
      let last_dim := last_dim_loop (length shape) shape 0 in
      Ok (resize (last_dim + 1) 0%Z shape)
  | Throw e => Throw e
  end.

(** SizeVector::NumElements (SizeVector.h is not part of the sources): the
    product of the dimensions. *)
Definition NumElements (shape : list Z) : Z := foldr Z.mul 1%Z shape.

(** The shapes whose product is an element count: no dimension is negative,
    and no product of some of the dimensions leaves int64, in whichever
    order they are multiplied. *)
Definition in_int64 (shape : list Z) : bool :=
  forallb (fun d => 0 <=? d)%Z shape
  && (NumElements (List.filter (fun d => negb (d =? 0)%Z) shape) <? 2 ^ 63)%Z.

(** Lines 95-105: NestedCopy, on the vector and the position the iterator
    has reached; [None] when it writes past the end of the vector. *)
Fixpoint NestedCopy {T} (D : nat)
  : NestedInitializerList T D -> list T * nat -> option (list T * nat) :=
  match D with
  | O => fun s st =>
      if decide (snd st < length (fst st))%nat
      then Some (<[snd st := s]> (fst st), S (snd st))
      else None
  | S D' => fun s st =>
      fold_left (fun acc it =>
                   match acc with
                   | Some st => NestedCopy D' it st
                   | None => None
                   end) s (Some st)
  end.

(** Lines 122-129; [T()] is what [std::vector<T> values(n)] fills the
    vector with. *)
Definition ToFlatVector {T} (T0 : T) (D : nat) (shape : list Z)
    (nested_list : NestedInitializerList T D) : option (list T) :=
  let values := replicate (Z.to_nat (NumElements shape)) T0 in
  match NestedCopy D nested_list (values, 0%nat) with
  | Some (values, _) => Some values
  | None => None
  end.

(** The shape of a literal read along its first elements; below an empty
    list every dimension is 0. *)
Fixpoint shape_of {T} (n : nat) : NestedInitializerList T n -> list Z :=
  match n with
  | O => fun _ => []
  | S n' => fun t =>
      Z.of_nat (length t)
      :: match t with
         | [] => replicate n' 0%Z
         | first :: _ => shape_of n' first
         end
  end.

(** A literal is rectangular when the elements of every list in it are
    rectangular and have the shape of the first one. *)
Fixpoint rectangular {T} (n : nat) : NestedInitializerList T n -> bool :=
  match n with
  | O => fun _ => true
  | S n' => fun t =>
      match t with
      | [] => true
      | first :: _ =>
          forallb (fun c => rectangular n' c
                            && bool_decide (shape_of n' c = shape_of n' first)) t
      end
  end.

(** A literal is uniform at the dimension [D] when it is rectangular as far
    as that dimension goes. *)
Fixpoint uniform {T} (D n : nat) {struct n} : NestedInitializerList T n -> bool :=
  match n with
  | O => fun _ => true
  | S n' => fun t =>
      match D with
      | O => true
      | S D' =>
          match t with
          | [] => true
          | first :: _ =>
              forallb (fun c => uniform D' n' c
                                && bool_decide (shape_of n' c !!! D'
                                                = shape_of n' first !!! D')) t
          end
      end
  end.

(** The scalars of a literal, in the order they are written. *)
Fixpoint leaves {T} (n : nat) : NestedInitializerList T n -> list T :=
  match n with
  | O => fun s => [s]
  | S n' => fun t => flat_map (leaves n') t
  end.

End tensor_init.

(** ** What a trace says *)

Definition constructions (ev : list Event) : list Tensor :=
  omap (fun e => match e with NNSConstruct t => Some t | _ => None end) ev.

Definition builds (ev : list Event) : list (float * bool) :=
  omap (fun e => match e with HybridIndexCall _ r ok => Some (r, ok) | _ => None end) ev.

Definition searches (ev : list Event) : list (Tensor * float) :=
  omap (fun e => match e with Hybrid1NNSearchCall _ q r => Some (q, r) | _ => None end) ev.

Definition clones (ev : list Event) : list (loc * loc) :=
  omap (fun e => match e with CloneCall a b => Some (a, b) | _ => None end) ev.

Definition transforms (ev : list Event) : list (loc * Tensor) :=
  omap (fun e => match e with TransformCall l t => Some (l, t) | _ => None end) ev.

Definition estimates (ev : list Event) : list Tensor :=
  omap (fun e => match e with ComputeTransformationCall u => Some u | _ => None end) ev.

Definition debug_log (ev : list Event) : list (Z * (float * float)) :=
  omap (fun e => match e with LogDebug i f r => Some (i, (f, r)) | _ => None end) ev.

(** The (fitness, inlier_rmse) pair of a result. *)
Definition score (r : RegistrationResult) : float * float :=
  (fitness_ r, inlier_rmse_ r).

(** The scores a run went through: what each iteration logged on entry,
    then the score of the returned result. *)
Definition history (ev : list Event) (r : RegistrationResult) : list (float * float) :=
  map snd (debug_log ev) ++ [score r].

(** The preconditions the three functions check. *)
Definition inputs_ok (src tgt : PointCloud) (transformation : Tensor) : Prop :=
  dtype_ (GetPoints src) = Float32 /\ dtype_ (GetPoints tgt) = Float32 /\
  GetDevice tgt = GetDevice src /\
  shape_ transformation = [4%Z; 4%Z] /\ dtype_ transformation = Float32.

#[global] Instance inputs_ok_dec src tgt t : Decision (inputs_ok src tgt t).
Proof. unfold inputs_ok. apply _. Defined.

(** ** Vocabulary of the statements *)

(** A computation that leaves the store alone and transforms no cloud. *)
Definition read_only {A} (m : M A) : Prop :=
  forall s r s' ev, m s = (r, s', ev) -> s' = s /\ transforms ev = [].

(** A computation that writes to the store, and applies Transform, at most
    at [l]. *)
Definition writes_only {A} (l : loc) (m : M A) : Prop :=
  forall s r s' ev, m s = (r, s', ev) ->
    (forall l', l' <> l -> s' !! l' = s !! l') /\
    (forall x, x ∈ transforms ev -> fst x = l).

(** A computation that hands the store back as it found it and applies
    Transform only at locations that store does not have. *)
Definition works_on_clones {A} (m : M A) : Prop :=
  forall s r s' ev, m s = (r, s', ev) ->
    s' = s /\ (forall x, x ∈ transforms ev -> s !! fst x = None).

(** What an evaluation that returns leaves in the trace: nothing when the
    distance is not positive, otherwise one build and one search, both on
    the search object it was handed, whose dataset is [dataset]. *)
Definition evaluation_events (dataset : Tensor) (d : float) (query : Tensor)
  : list Event :=
  if (d <=? 0)%float then []
  else [HybridIndexCall dataset d true; Hybrid1NNSearchCall dataset query d].

(** The events of one completed iteration of the loop when the distance is
    positive: the log entry with the scores on entry, the call of the
    estimator, the Transform of the clone by the update, then the
    evaluation, which calls HybridIndex on the search object over [dataset]
    and searches it once with the points [query] of the clone. *)
Definition iteration_events (l : loc) (dataset : Tensor) (d : float) (i : Z)
    (it : float * float * Tensor * Tensor) : list Event :=
  let '(fitness, rmse, update, query) := it in
  [LogDebug i fitness rmse; ComputeTransformationCall update;
   TransformCall l update;
   HybridIndexCall dataset d true; Hybrid1NNSearchCall dataset query d].

(** The events of consecutive completed iterations, numbered from [i]. *)
Fixpoint run_events (l : loc) (dataset : Tensor) (d : float) (i : Z)
    (its : list (float * float * Tensor * Tensor)) : list Event :=
  match its with
  | [] => []
  | it :: rest =>
      iteration_events l dataset d i it ++ run_events l dataset d (i + 1) rest
  end.

(** The criteria [c] with another iteration budget. *)
Definition with_max_iteration (c : ICPConvergenceCriteria) (n : Z)
  : ICPConvergenceCriteria :=
  {| relative_fitness_ := relative_fitness_ c;
     relative_rmse_ := relative_rmse_ c; max_iteration_ := n |}.

(** A computation that writes no LogDebug entry, whatever its outcome. *)
Definition logs_nothing {A} (m : M A) : Prop :=
  forall s r s' ev, m s = (r, s', ev) -> debug_log ev = [].

(** The cumulative transform after left-multiplying the updates in order. *)
Fixpoint compose `{Collaborators} (t : Tensor) (updates : list Tensor) : Outcome Tensor :=
  match updates with
  | [] => Ok t
  | u :: us =>
      match Matmul u t with
      | Ok t' => compose t' us
      | Throw e => Throw e
      end
  end.

(** The break test between two consecutive scores. *)
Definition stops (c : ICPConvergenceCriteria) (p q : float * float) : bool :=
  converged c (fst p) (snd p) (fst q) (snd q).

(** The histories a loop with a budget of [n] iterations can produce: it
    ends on the first pair of consecutive scores that passes the break test,
    or when the budget is used up. *)
Inductive run_shape (c : ICPConvergenceCriteria) : nat -> list (float * float) -> Prop :=
| run_exhausted p : run_shape c 0 [p]
| run_converged n p q : stops c p q = true -> run_shape c (S n) [p; q]
| run_continue n p q h :
    stops c p q = false -> run_shape c n (q :: h) -> run_shape c (S n) (p :: q :: h).

(** ** The monad *)

Lemma bind_Ok {A B} (m : M A) (f : A -> M B) s b s' ev :
  bind m f s = (Ok b, s', ev) ->
  exists a s1 ev1 ev2,
    m s = (Ok a, s1, ev1) /\ f a s1 = (Ok b, s', ev2) /\ ev = ev1 ++ ev2.
Proof.
  unfold bind. destruct (m s) as [[[a|e] s1] ev1]; [|discriminate].
  destruct (f a s1) as [[r s2] ev2] eqn:Hf. intros [= -> -> <-].
  by exists a, s1, ev1, ev2.
Qed.

Lemma bind_cases {A B} (m : M A) (f : A -> M B) s r s' ev :
  bind m f s = (r, s', ev) ->
  (exists e, m s = (Throw e, s', ev) /\ r = Throw e) \/
  (exists a s1 ev1 ev2,
    m s = (Ok a, s1, ev1) /\ f a s1 = (r, s', ev2) /\ ev = ev1 ++ ev2).
Proof.
  unfold bind. destruct (m s) as [[[a|e] s1] ev1].
  - destruct (f a s1) as [[r2 s2] ev2] eqn:Hf. intros [= <- <- <-].
    right. by exists a, s1, ev1, ev2.
  - intros [= <- <- <-]. left. by exists e.
Qed.

Lemma bind_ext {A B} (m : M A) (f g : A -> M B) s :
  (forall a s1, f a s1 = g a s1) -> bind m f s = bind m g s.
Proof.
  intros Hfg. unfold bind. destruct (m s) as [[[a|e] s1] ev1]; [|done].
  by rewrite Hfg.
Qed.

Lemma bind_ret_l {A B} (a : A) (f : A -> M B) s : bind (ret a) f s = f a s.
Proof. unfold bind, ret. by destruct (f a s) as [[r s2] ev2]. Qed.

Lemma transforms_app ev1 ev2 : transforms (ev1 ++ ev2) = transforms ev1 ++ transforms ev2.
Proof. apply omap_app. Qed.

Lemma read_only_writes_only {A} l (m : M A) : read_only m -> writes_only l m.
Proof.
  intros Hm s r s' ev Hrun. destruct (Hm _ _ _ _ Hrun) as [-> Ht].
  split; [done|]. rewrite Ht. intros x Hx. by apply elem_of_nil in Hx.
Qed.

Lemma read_only_bind {A B} (m : M A) (f : A -> M B) :
  read_only m -> (forall a, read_only (f a)) -> read_only (bind m f).
Proof.
  intros Hm Hf s r s' ev Hrun.
  destruct (bind_cases _ _ _ _ _ _ Hrun)
    as [(e & Hs & _)|(a & s1 & ev1 & ev2 & H1 & H2 & ->)].
  - eauto.
  - destruct (Hm _ _ _ _ H1) as [-> E1]. destruct (Hf _ _ _ _ _ H2) as [-> E2].
    by rewrite transforms_app, E1, E2.
Qed.

Lemma writes_only_bind {A B} l (m : M A) (f : A -> M B) :
  writes_only l m -> (forall a, writes_only l (f a)) -> writes_only l (bind m f).
Proof.
  intros Hm Hf s r s' ev Hrun.
  destruct (bind_cases _ _ _ _ _ _ Hrun)
    as [(e & Hs & _)|(a & s1 & ev1 & ev2 & H1 & H2 & ->)].
  - eauto.
  - destruct (Hm _ _ _ _ H1) as [S1 E1]. destruct (Hf _ _ _ _ _ H2) as [S2 E2].
    split.
    + intros l' Hne. rewrite (S2 _ Hne). auto.
    + intros x. rewrite transforms_app, elem_of_app. intros [Hx|Hx]; auto.
Qed.

Lemma works_on_clones_bind {A B} (m : M A) (f : A -> M B) :
  read_only m -> (forall a, works_on_clones (f a)) -> works_on_clones (bind m f).
Proof.
  intros Hm Hf s r s' ev Hrun.
  destruct (bind_cases _ _ _ _ _ _ Hrun)
    as [(e & Hs & _)|(a & s1 & ev1 & ev2 & H1 & H2 & ->)].
  - destruct (Hm _ _ _ _ Hs) as [-> E]. split; [done|]. rewrite E.
    intros x Hx. by apply elem_of_nil in Hx.
  - destruct (Hm _ _ _ _ H1) as [-> E1]. destruct (Hf _ _ _ _ _ H2) as [-> E2].
    split; [done|]. by rewrite transforms_app, E1.
Qed.

Lemma read_only_ret {A} (a : A) : read_only (ret a).
Proof. intros s r s' ev [= _ <- <-]. done. Qed.

Lemma read_only_throw {A} e : read_only (@throw A e).
Proof. intros s r s' ev [= _ <- <-]. done. Qed.

Lemma read_only_emit e : transforms [e] = [] -> read_only (emit e).
Proof. intros He s r s' ev [= _ <- <-]. done. Qed.

Lemma read_only_lift {A} (o : Outcome A) : read_only (lift o).
Proof. intros s r s' ev [= _ <- <-]. done. Qed.

Lemma read_only_deref l : read_only (deref l).
Proof. intros s r s' ev. unfold deref. destruct (s !! l); intros [= _ <- <-]; done. Qed.

Lemma read_only_AssertDtype t d : read_only (AssertDtype t d).
Proof. unfold AssertDtype. case_decide; [apply read_only_ret|apply read_only_throw]. Qed.

Lemma read_only_AssertShape t d : read_only (AssertShape t d).
Proof. unfold AssertShape. case_decide; [apply read_only_ret|apply read_only_throw]. Qed.

Lemma read_only_Item t : read_only (Item t).
Proof.
  unfold Item. destruct (data_ t) as [|x [|y l]];
    [apply read_only_throw|apply read_only_ret|apply read_only_throw].
Qed.

Create HintDb read_only.

#[global] Hint Resolve read_only_ret read_only_throw read_only_lift
  read_only_deref read_only_AssertDtype read_only_AssertShape read_only_Item
  : read_only.
Ltac read_only_steps :=
  repeat first
    [ apply read_only_bind; [|intros ?]
    | progress eauto with read_only
    | apply read_only_emit; reflexivity
    | match goal with
      | |- read_only (match ?x with _ => _ end) => destruct x
      | |- read_only (if ?b then _ else _) => destruct b
      | |- read_only (LogError _) => apply read_only_throw
      end ].

Section Theory.

Context `{Collaborators}.

(** *** The input checks *)

Lemma read_only_check_inputs source target t :
  read_only (check_inputs source target t).
Proof. unfold check_inputs. read_only_steps. Qed.

Lemma check_inputs_pass source target t s src tgt :
  s !! source = Some src -> s !! target = Some tgt -> inputs_ok src tgt t ->
  check_inputs source target t s = (Ok (To t (GetDevice src)), s, []).
Proof.
  intros Hs Ht (H1 & H2 & H3 & H4 & H5).
  unfold check_inputs, bind, deref, AssertDtype, AssertShape.
  rewrite Hs. cbn. rewrite decide_True by done. cbn. rewrite Ht. cbn.
  rewrite decide_True by done. cbn.
  rewrite (decide_False (P := GetDevice tgt <> GetDevice src)) by tauto. cbn.
  rewrite decide_True by done. cbn. rewrite decide_True by done. done.
Qed.

Lemma check_inputs_fail source target t s src tgt :
  s !! source = Some src -> s !! target = Some tgt -> ~ inputs_ok src tgt t ->
  exists e, check_inputs source target t s = (Throw e, s, []).
Proof.
  intros Hs Ht Hno.
  unfold check_inputs, bind, deref, AssertDtype, AssertShape, LogError, throw, ret.
  rewrite Hs. cbn. case_decide; cbn; [|by eauto]. rewrite Ht. cbn.
  case_decide; cbn; [|by eauto].
  destruct (decide (GetDevice tgt <> GetDevice src)); cbn; [by eauto|].
  case_decide; cbn; [|by eauto]. case_decide; cbn; [|by eauto].
  destruct Hno. unfold inputs_ok. destruct (decide (GetDevice tgt = GetDevice src)); tauto.
Qed.

Lemma check_inputs_Ok source target t s td s' ev :
  check_inputs source target t s = (Ok td, s', ev) ->
  exists src tgt,
    s !! source = Some src /\ s !! target = Some tgt /\ inputs_ok src tgt t /\
    td = To t (GetDevice src) /\ s' = s /\ ev = [].
Proof.
  intros Hrun.
  destruct (s !! source) as [src|] eqn:Hs;
    [|by unfold check_inputs, bind, deref in Hrun; rewrite Hs in Hrun].
  destruct (s !! target) as [tgt|] eqn:Ht.
  - destruct (decide (inputs_ok src tgt t)) as [Hok|Hno].
    + rewrite (check_inputs_pass _ _ _ _ _ _ Hs Ht Hok) in Hrun.
      injection Hrun as <- <- <-. by exists src, tgt.
    + destruct (check_inputs_fail _ _ _ _ _ _ Hs Ht Hno) as [e He]. congruence.
  - unfold check_inputs, bind, deref, AssertDtype, throw, ret in Hrun.
    rewrite Hs in Hrun. cbn in Hrun. case_decide; cbn in Hrun; [|done].
    by rewrite Ht in Hrun.
Qed.

(** *** Primitive steps that succeed *)

Lemma ret_Ok {A} (a b : A) s s' ev :
  ret a s = (Ok b, s', ev) -> b = a /\ s' = s /\ ev = [].
Proof. by intros [= <- <- <-]. Qed.

Lemma emit_Ok e u s s' ev : emit e s = (Ok u, s', ev) -> s' = s /\ ev = [e].
Proof. by intros [= _ <- <-]. Qed.

Lemma lift_Ok {A} (o : Outcome A) a s s' ev :
  lift o s = (Ok a, s', ev) -> o = Ok a /\ s' = s /\ ev = [].
Proof. by intros [= -> <- <-]. Qed.

Lemma deref_Ok l pc s s' ev :
  deref l s = (Ok pc, s', ev) -> s !! l = Some pc /\ s' = s /\ ev = [].
Proof. unfold deref. destruct (s !! l); [|done]. by intros [= <- <- <-]. Qed.

Lemma Item_Ok t x s s' ev : Item t s = (Ok x, s', ev) -> s' = s /\ ev = [].
Proof.
  unfold Item. destruct (data_ t) as [|y [|z l]]; [done| |done].
  by intros [= _ <- <-].
Qed.

Lemma HybridIndex_Ok nns radius check nns' s s' ev :
  HybridIndex nns radius s = (Ok (check, nns'), s', ev) ->
  s' = s /\ ev = [HybridIndexCall (dataset_points_ nns) radius check] /\
  dataset_points_ nns' = dataset_points_ nns.
Proof.
  unfold HybridIndex. destruct (BuildIndex _ _); by intros [= <- <- <- <-].
Qed.

Lemma Hybrid1NNSearch_Ok nns query radius res s s' ev :
  Hybrid1NNSearch nns query radius s = (Ok res, s', ev) ->
  s' = s /\ ev = [Hybrid1NNSearchCall (dataset_points_ nns) query radius].
Proof.
  unfold Hybrid1NNSearch. destruct (index_ nns); [|done]. by intros [= <- <- <-].
Qed.

Lemma Transform_Ok l t u s s' ev :
  Transform l t s = (Ok u, s', ev) ->
  exists pc pts,
    s !! l = Some pc /\ TransformPoints (GetPoints pc) t = Ok pts /\
    s' = <[l := {| device_ := device_ pc; points_ := pts |}]> s /\
    ev = [TransformCall l t].
Proof.
  unfold Transform. destruct (s !! l) as [pc|]; [|done].
  destruct (TransformPoints _ _) as [pts|] eqn:Hp; [|done].
  intros [= <- <-]. by exists pc, pts.
Qed.

Lemma ComputeTransformation_Ok estimation source target corres update s s' ev :
  ComputeTransformation estimation source target corres s = (Ok update, s', ev) ->
  exists src tgt,
    s !! source = Some src /\ s !! target = Some tgt /\
    compute_ estimation src tgt corres = Ok update /\
    s' = s /\ ev = [ComputeTransformationCall update].
Proof.
  unfold ComputeTransformation. intros Hrun.
  apply bind_Ok in Hrun as (src & s1 & ev1 & ev2 & H1 & Hrun & ->).
  apply deref_Ok in H1 as (Hs & -> & ->).
  apply bind_Ok in Hrun as (tgt & s1 & ev1 & ev3 & H1 & Hrun & ->).
  apply deref_Ok in H1 as (Ht & -> & ->).
  apply bind_Ok in Hrun as (u & s1 & ev1 & ev4 & H1 & Hrun & ->).
  apply lift_Ok in H1 as (Hu & -> & ->).
  apply bind_Ok in Hrun as ([] & s1 & ev1 & ev5 & H1 & Hrun & ->).
  apply emit_Ok in H1 as (-> & ->).
  apply ret_Ok in Hrun as (-> & -> & ->).
  by exists src, tgt.
Qed.

(** *** Store footprints *)

Lemma read_only_NearestNeighborSearch_new t : read_only (NearestNeighborSearch_new t).
Proof. unfold NearestNeighborSearch_new. read_only_steps. Qed.

Lemma read_only_HybridIndex nns r : read_only (HybridIndex nns r).
Proof. unfold HybridIndex. read_only_steps. Qed.

Lemma read_only_Hybrid1NNSearch nns q r : read_only (Hybrid1NNSearch nns q r).
Proof. unfold Hybrid1NNSearch. read_only_steps. Qed.

Lemma read_only_ComputeTransformation estimation source target corres :
  read_only (ComputeTransformation estimation source target corres).
Proof. unfold ComputeTransformation. read_only_steps. Qed.

Lemma read_only_GetRegistrationResultAndCorrespondences source target nns d t :
  read_only (GetRegistrationResultAndCorrespondences source target nns d t).
Proof.
  unfold GetRegistrationResultAndCorrespondences.
  apply read_only_bind; [apply read_only_check_inputs|intros td].
  destruct (_ <=? _)%float; [apply read_only_ret|].
  apply read_only_bind; [apply read_only_HybridIndex|intros [check nns']].
  apply read_only_bind; [destruct (negb check); read_only_steps|intros _].
  apply read_only_bind; [apply read_only_deref|intros src].
  apply read_only_bind; [apply read_only_Hybrid1NNSearch|intros [cs distances]].
  read_only_steps.
Qed.

Lemma writes_only_Transform l t : writes_only l (Transform l t).
Proof.
  intros s r s' ev. unfold Transform. destruct (s !! l) as [pc|].
  - destruct (TransformPoints _ _); intros [= _ <- <-]; split.
    + intros l' Hne. by rewrite lookup_insert_ne.
    + intros x Hx. apply list_elem_of_singleton in Hx. by subst x.
    + done.
    + intros x Hx. by apply elem_of_nil in Hx.
  - intros [= _ <- <-]. split; [done|]. intros x Hx. by apply elem_of_nil in Hx.
Qed.

Lemma writes_only_icp_iteration l target d estimation i st :
  writes_only l (icp_iteration l target d estimation i st).
Proof.
  unfold icp_iteration.
  apply writes_only_bind;
    [by apply read_only_writes_only, read_only_emit|intros _].
  apply writes_only_bind;
    [apply read_only_writes_only, read_only_ComputeTransformation|intros update].
  apply writes_only_bind;
    [apply read_only_writes_only, read_only_lift|intros td].
  apply writes_only_bind; [apply writes_only_Transform|intros _].
  apply writes_only_bind;
    [apply read_only_writes_only,
       read_only_GetRegistrationResultAndCorrespondences|intros [r nns]].
  apply read_only_writes_only, read_only_ret.
Qed.

Lemma writes_only_icp_loop l target d estimation criteria n :
  forall i st, writes_only l (icp_loop l target d estimation criteria n i st).
Proof.
  induction n as [|n IH]; intros i st; cbn [icp_loop].
  - apply read_only_writes_only, read_only_ret.
  - apply writes_only_bind; [apply writes_only_icp_iteration|intros st'].
    destruct (converged _ _ _ _ _);
      [apply read_only_writes_only, read_only_ret|apply IH].
Qed.

(** The clone is made at a fresh location and dies with the scope: whatever
    the body does to it, the caller's store comes back as it was. *)
Lemma works_on_clones_with_Clone {A} source (body : loc -> M A) :
  (forall l, writes_only l (body l)) -> works_on_clones (with_Clone source body).
Proof.
  intros Hbody s r s' ev. unfold with_Clone.
  destruct (s !! source) as [pc|].
  2:{ intros [= _ <- <-]. split; [done|]. intros x Hx. by apply elem_of_nil in Hx. }
  destruct (body _ _) as [[r1 s1] ev1] eqn:Hrun. intros [= _ <- <-].
  destruct (Hbody _ _ _ _ _ Hrun) as [Hstore Htr].
  assert (Hfresh : s !! fresh (dom s) = None) by apply not_elem_of_dom, is_fresh.
  split.
  - apply map_eq. intros l'.
    destruct (decide (l' = fresh (dom s))) as [->|Hne].
    + by rewrite lookup_delete_eq.
    + rewrite lookup_delete_ne by done.
      rewrite (Hstore _ Hne). by rewrite lookup_insert_ne.
  - intros x Hx. change (transforms (CloneCall source (fresh (dom s)) :: ev1))
      with (transforms ev1) in Hx. by rewrite (Htr _ Hx).
Qed.

Lemma with_Clone_ext {A} source (body1 body2 : loc -> M A) s :
  (forall l s1, body1 l s1 = body2 l s1) ->
  with_Clone source body1 s = with_Clone source body2 s.
Proof.
  intros Hb. unfold with_Clone. destruct (s !! source); [|done]. by rewrite Hb.
Qed.

Lemma works_on_clones_EvaluateRegistration source target d t :
  works_on_clones (EvaluateRegistration source target d t).
Proof.
  unfold EvaluateRegistration.
  apply works_on_clones_bind; [apply read_only_check_inputs|intros td].
  apply works_on_clones_bind; [apply read_only_deref|intros tgt].
  apply works_on_clones_bind; [apply read_only_NearestNeighborSearch_new|intros nns].
  apply works_on_clones_with_Clone. intros l.
  apply writes_only_bind; [apply writes_only_Transform|intros _].
  apply read_only_writes_only, read_only_bind;
    [apply read_only_GetRegistrationResultAndCorrespondences|intros [r nns']].
  apply read_only_ret.
Qed.

Lemma works_on_clones_RegistrationICP source target d init estimation criteria :
  works_on_clones (RegistrationICP source target d init estimation criteria).
Proof.
  unfold RegistrationICP.
  apply works_on_clones_bind; [apply read_only_check_inputs|intros td].
  apply works_on_clones_bind; [apply read_only_deref|intros tgt].
  apply works_on_clones_bind; [apply read_only_NearestNeighborSearch_new|intros nns].
  apply works_on_clones_with_Clone. intros l.
  apply writes_only_bind; [apply writes_only_Transform|intros _].
  apply writes_only_bind;
    [apply read_only_writes_only,
       read_only_GetRegistrationResultAndCorrespondences|intros [r nns']].
  apply writes_only_bind; [apply writes_only_icp_loop|intros st].
  apply read_only_writes_only, read_only_ret.
Qed.

(** *** One evaluation *)

Lemma GetRegistrationResultAndCorrespondences_Ok source target nns d t s r nns' s' ev :
  GetRegistrationResultAndCorrespondences source target nns d t s
    = (Ok (r, nns'), s', ev) ->
  exists src tgt,
    s !! source = Some src /\ s !! target = Some tgt /\ inputs_ok src tgt t /\
    s' = s /\ ev = evaluation_events (dataset_points_ nns) d (GetPoints src) /\
    transformation_ r = (if (d <=? 0)%float then To t (GetDevice src) else t) /\
    ((d <=? 0)%float = true ->
       r = RegistrationResult_init (To t (GetDevice src)) /\ nns' = nns) /\
    dataset_points_ nns' = dataset_points_ nns.
Proof.
  unfold GetRegistrationResultAndCorrespondences, evaluation_events. intros Hrun.
  apply bind_Ok in Hrun as (td & s1 & ev1 & ev2 & H1 & Hrun & ->).
  apply check_inputs_Ok in H1 as (src & tgt & Hs & Ht & Hok & -> & -> & ->).
  exists src, tgt. do 3 (split; [done|]).
  destruct (d <=? 0)%float.
  { apply ret_Ok in Hrun as ([= -> ->] & -> & ->). done. }
  apply bind_Ok in Hrun as ([check nns1] & s1 & ev1 & ev3 & H1 & Hrun & ->).
  apply HybridIndex_Ok in H1 as (-> & -> & Hds).
  apply bind_Ok in Hrun as ([] & s1 & ev1 & ev4 & H1 & Hrun & ->).
  destruct check; [|done]. apply ret_Ok in H1 as (_ & -> & ->).
  apply bind_Ok in Hrun as (src' & s1 & ev1 & ev5 & H1 & Hrun & ->).
  apply deref_Ok in H1 as (Hs' & -> & ->).
  assert (src' = src) as -> by congruence.
  apply bind_Ok in Hrun as ([cs distances] & s1 & ev1 & ev6 & H1 & Hrun & ->).
  apply Hybrid1NNSearch_Ok in H1 as (-> & ->).
  apply bind_Ok in Hrun as (sq & s1 & ev1 & ev7 & H1 & Hrun & ->).
  apply Item_Ok in H1 as (-> & ->).
  apply ret_Ok in Hrun as ([= -> ->] & -> & ->).
  rewrite Hds. done.
Qed.

(** On the search path the scores are the two quotients of lines 86-89,
    whatever the number of correspondences is. *)
Lemma GetRegistrationResultAndCorrespondences_scores source target nns d t s r nns' s' ev :
  (d <=? 0)%float = false ->
  GetRegistrationResultAndCorrespondences source target nns d t s
    = (Ok (r, nns'), s', ev) ->
  exists src ix squared_error,
    s !! source = Some src /\
    BuildIndex (dataset_points_ nns) d = Some ix /\
    let found := SearchIndex ix (GetPoints src) d in
    let num_correspondences := int_of_int64 (GetLength (fst (fst found))) in
    correspondence_set_ r = fst found /\
    data_ (Sum (snd found)) = [squared_error] /\
    fitness_ r
      = (double_of_Z num_correspondences
         / double_of_Z (GetLength (GetPoints src)))%float /\
    inlier_rmse_ r
      = PrimFloat.sqrt (squared_error / double_of_Z num_correspondences)%float.
Proof.
  unfold GetRegistrationResultAndCorrespondences. intros Hd Hrun.
  apply bind_Ok in Hrun as (td & s1 & ev1 & ev2 & H1 & Hrun & ->).
  apply check_inputs_Ok in H1 as (src & tgt & Hs & Ht & Hok & -> & -> & ->).
  rewrite Hd in Hrun.
  apply bind_Ok in Hrun as ([check nns1] & s1 & ev1 & ev3 & H1 & Hrun & ->).
  unfold HybridIndex in H1.
  destruct (BuildIndex (dataset_points_ nns) d) as [ix|] eqn:Hix.
  2:{ apply bind_Ok in H1 as ([] & s2 & ev4 & ev5 & _ & H1 & _).
      apply ret_Ok in H1 as ([= -> ->] & _).
      by apply bind_Ok in Hrun as ([] & s3 & ev6 & ev7 & Hno & _). }
  apply bind_Ok in H1 as ([] & s2 & ev4 & ev5 & H1 & H2 & ->).
  apply emit_Ok in H1 as (-> & ->). apply ret_Ok in H2 as ([= -> ->] & -> & ->).
  apply bind_Ok in Hrun as ([] & s1 & ev1 & ev4 & H1 & Hrun & ->).
  apply ret_Ok in H1 as (_ & -> & ->).
  apply bind_Ok in Hrun as (src' & s1 & ev1 & ev5 & H1 & Hrun & ->).
  apply deref_Ok in H1 as (Hs' & -> & ->).
  assert (src' = src) as -> by congruence.
  apply bind_Ok in Hrun as ([cs distances] & s1 & ev1 & ev6 & H1 & Hrun & ->).
  unfold Hybrid1NNSearch in H1. cbn [index_] in H1.
  apply bind_Ok in H1 as ([] & s2 & ev7 & ev8 & H1 & H2 & ->).
  apply emit_Ok in H1 as (-> & ->). apply ret_Ok in H2 as (Hfound & -> & ->).
  apply bind_Ok in Hrun as (sq & s1 & ev1 & ev7 & H1 & Hrun & ->).
  unfold Item in H1.
  destruct (data_ (Sum distances)) as [|x [|y rest]] eqn:Hsum; [done| |done].
  apply ret_Ok in H1 as (-> & -> & ->).
  apply ret_Ok in Hrun as ([= -> ->] & -> & ->).
  exists src, ix, x. rewrite <- Hfound. cbn. by rewrite Hsum.
Qed.

(** A quotient by zero has no square root equal to 0: it is NaN or infinite. *)
Lemma sqrt_div_zero_not_zero (x : float) :
  (PrimFloat.sqrt (x / 0) =? 0)%float = false.
Proof.
  rewrite FloatAxioms.eqb_spec, FloatAxioms.sqrt_spec, FloatAxioms.div_spec.
  replace (Prim2SF 0) with (S754_zero false) by reflexivity.
  by destruct (Prim2SF x) as [[|]|[|]| |[|] m e].
Qed.

(** So an evaluation that searches and finds nothing never reports an
    inlier_rmse of 0. *)
Lemma GetRegistrationResultAndCorrespondences_no_inliers source target nns d t s r nns' s' ev :
  (d <=? 0)%float = false ->
  GetRegistrationResultAndCorrespondences source target nns d t s
    = (Ok (r, nns'), s', ev) ->
  GetLength (fst (correspondence_set_ r)) = 0%Z ->
  (inlier_rmse_ r =? 0)%float = false.
Proof.
  intros Hd Hrun Hlen.
  destruct (GetRegistrationResultAndCorrespondences_scores _ _ _ _ _ _ _ _ _ _ Hd Hrun)
    as (src & ix & sq & _ & _ & Hcs & _ & _ & ->).
  rewrite Hcs in Hlen. rewrite Hlen. apply sqrt_div_zero_not_zero.
Qed.

(** With a distance that is not positive and inputs that pass the checks,
    the evaluation returns at once. *)
Lemma GetRegistrationResultAndCorrespondences_short source target nns d t s src tgt :
  s !! source = Some src -> s !! target = Some tgt -> inputs_ok src tgt t ->
  (d <=? 0)%float = true ->
  GetRegistrationResultAndCorrespondences source target nns d t s
    = (Ok (RegistrationResult_init (To t (GetDevice src)), nns), s, []).
Proof.
  intros Hs Ht Hok Hd. unfold GetRegistrationResultAndCorrespondences, bind.
  rewrite (check_inputs_pass _ _ _ _ _ _ Hs Ht Hok). by rewrite Hd.
Qed.

(** *** One iteration *)

Lemma icp_iteration_Ok l target d estimation i st s st' s' ev :
  icp_iteration l target d estimation i st s = (Ok st', s', ev) ->
  exists pc pts update,
    s !! l = Some pc /\
    s' = <[l := {| device_ := device_ pc; points_ := pts |}]> s /\
    TransformPoints (GetPoints pc) update = Ok pts /\
    Matmul update (transformation_device_ st) = Ok (transformation_device_ st') /\
    ev = LogDebug i (fitness_ (result_ st)) (inlier_rmse_ (result_ st))
         :: ComputeTransformationCall update :: TransformCall l update
         :: evaluation_events (dataset_points_ (target_nns_ st)) d pts /\
    transformation_ (result_ st') =
      (if (d <=? 0)%float then To (transformation_device_ st') (device_ pc)
       else transformation_device_ st') /\
    corres_ st' = correspondence_set_ (result_ st') /\
    dataset_points_ (target_nns_ st') = dataset_points_ (target_nns_ st) /\
    exists tgt,
      s !! target = Some tgt /\
      compute_ estimation pc tgt (corres_ st) = Ok update.
Proof.
  unfold icp_iteration. intros Hrun.
  apply bind_Ok in Hrun as ([] & s1 & ev1 & ev2 & H1 & Hrun & ->).
  apply emit_Ok in H1 as (-> & ->).
  apply bind_Ok in Hrun as (update & s1 & ev1 & ev3 & H1 & Hrun & ->).
  apply ComputeTransformation_Ok in H1 as (pc & tgt & Hl & Ht & Hu & -> & ->).
  apply bind_Ok in Hrun as (td & s1 & ev1 & ev4 & H1 & Hrun & ->).
  apply lift_Ok in H1 as (Hmm & -> & ->).
  apply bind_Ok in Hrun as ([] & s1 & ev1 & ev5 & H1 & Hrun & ->).
  apply Transform_Ok in H1 as (pc' & pts & Hl' & Hpts & -> & ->).
  assert (pc' = pc) as -> by congruence.
  apply bind_Ok in Hrun as ([r nns] & s1 & ev1 & ev6 & H1 & Hrun & ->).
  apply GetRegistrationResultAndCorrespondences_Ok in H1
    as (src & tgt' & Hs & _ & _ & -> & -> & Htr & _ & Hds).
  rewrite lookup_insert_eq in Hs. injection Hs as <-.
  apply ret_Ok in Hrun as (-> & -> & ->).
  exists pc, pts, update. cbn. rewrite app_nil_r.
  split_and!; try done. by exists tgt.
Qed.

(** *** The loop *)

Lemma run_shape_facts c n h :
  run_shape c n h ->
  (1 <= length h <= S n)%nat /\
  (length h = 1%nat -> n = 0%nat) /\
  (forall j p q, h !! j = Some p -> h !! S j = Some q ->
     stops c p q = true -> S (S j) = length h) /\
  (forall j p q, h !! j = Some p -> h !! S j = Some q ->
     stops c p q = false -> S (S j) = length h -> S j = n).
Proof.
  induction 1 as [p|n p q Hc|n p q h Hc Hrun (IHlen & IHone & IHtrue & IHfalse)].
  - cbn. repeat split; [lia | lia | | ]; intros j p' q' _ Hq; by destruct j.
  - cbn. repeat split; [lia | lia | lia | | ].
    + intros [|[|j]] p' q' Hp Hq; cbn in *; [done|done|done].
    + intros [|[|j]] p' q' Hp Hq; cbn in *; [|done|done].
      injection Hp as <-. injection Hq as <-. congruence.
  - cbn [length] in *. repeat split; [lia | lia | lia | | ].
    + intros [|j] p' q' Hp Hq Hs; cbn in Hp, Hq.
      * injection Hp as <-. injection Hq as <-. congruence.
      * f_equal. eapply IHtrue; eauto.
    + intros [|j] p' q' Hp Hq Hs Hlen; cbn in Hp, Hq.
      * f_equal. symmetry. apply IHone. lia.
      * f_equal. eapply IHfalse; eauto; lia.
Qed.

Lemma icp_loop_S_Ok l target d estimation c n i st s st' s' ev :
  icp_loop l target d estimation c (S n) i st s = (Ok st', s', ev) ->
  exists st1 s1 ev1 ev2,
    icp_iteration l target d estimation i st s = (Ok st1, s1, ev1) /\
    ev = ev1 ++ ev2 /\
    ((stops c (score (result_ st)) (score (result_ st1)) = true /\
      st' = st1 /\ s' = s1 /\ ev2 = []) \/
     (stops c (score (result_ st)) (score (result_ st1)) = false /\
      icp_loop l target d estimation c n (i + 1)%Z st1 s1 = (Ok st', s', ev2))).
Proof.
  cbn [icp_loop]. intros Hrun.
  apply bind_Ok in Hrun as (st1 & s1 & ev1 & ev2 & H1 & Hrun & ->).
  exists st1, s1, ev1, ev2. split; [done|]. split; [done|].
  unfold stops, score. cbn [fst snd].
  destruct (converged _ _ _ _ _).
  - left. apply ret_Ok in Hrun as (-> & -> & ->). done.
  - right. done.
Qed.

(** The events of one evaluation, seen through the projections. *)
Lemma evaluation_events_projections ds d q :
  constructions (evaluation_events ds d q) = [] /\
  clones (evaluation_events ds d q) = [] /\
  transforms (evaluation_events ds d q) = [] /\
  estimates (evaluation_events ds d q) = [] /\
  debug_log (evaluation_events ds d q) = [] /\
  builds (evaluation_events ds d q) = (if (d <=? 0)%float then [] else [(d, true)]) /\
  searches (evaluation_events ds d q) = (if (d <=? 0)%float then [] else [(q, d)]).
Proof. unfold evaluation_events. by destruct (d <=? 0)%float. Qed.

Lemma icp_loop_trace l target d estimation c n :
  forall i st s st' s' ev pc,
    icp_loop l target d estimation c n i st s = (Ok st', s', ev) ->
    s !! l = Some pc ->
    exists pc',
      s' !! l = Some pc' /\ device_ pc' = device_ pc /\
      (length (debug_log ev) <= n)%nat /\
      ((0 < n)%nat -> (0 < length (debug_log ev))%nat) /\
      (forall j x, debug_log ev !! j = Some x -> fst x = (i + Z.of_nat j)%Z) /\
      length (estimates ev) = length (debug_log ev) /\
      transforms ev = map (pair l) (estimates ev) /\
      constructions ev = [] /\ clones ev = [] /\
      builds ev = (if (d <=? 0)%float then []
                   else replicate (length (debug_log ev)) (d, true)) /\
      length (searches ev) = length (builds ev).
Proof.
  induction n as [|n IH]; intros i st s st' s' ev pc Hrun Hl.
  - apply ret_Ok in Hrun as (-> & -> & ->). exists pc. cbn.
    repeat split; try done; try lia. by destruct (d <=? 0)%float.
  - apply icp_loop_S_Ok in Hrun as (st1 & s1 & ev1 & ev2 & Hit & -> & Hrest).
    apply icp_iteration_Ok in Hit
      as (pc0 & pts & update & Hl0 & -> & _ & _ & -> & _ & _).
    assert (pc0 = pc) as -> by congruence.
    destruct (evaluation_events_projections (dataset_points_ (target_nns_ st)) d pts)
      as (Ec & Ecl & Et & Ee & Ed & Eb & Es).
    assert (Hl1 : <[l:={| device_ := device_ pc; points_ := pts |}]> s !! l
                  = Some {| device_ := device_ pc; points_ := pts |})
      by apply lookup_insert_eq.
    destruct Hrest as [(_ & -> & -> & ->)|(_ & Hrun)].
    + eexists. split; [exact Hl1|]. split; [done|].
      rewrite app_nil_r. unfold debug_log, estimates, transforms, constructions,
        clones, builds, searches in *. cbn. rewrite Ec, Ecl, Et, Ee, Ed, Eb, Es.
      cbn. split_and!; [lia | lia | | done | done | done | done | done | ].
      * intros [|j] x; cbn; [|done]. intros [= <-]. cbn. lia.
      * by destruct (d <=? 0)%float.
    + destruct (IH _ _ _ _ _ _ _ Hrun Hl1)
        as (pc' & Hl' & Hdev & Hlen & _ & Hidx & Hest & Htr & Hc & Hcl & Hb & Hs).
      exists pc'. split; [done|]. split; [done|].
      unfold debug_log, estimates, transforms, constructions,
        clones, builds, searches in *.
      cbn. rewrite !omap_app. rewrite Ec, Ecl, Et, Ee, Ed, Eb, Es.
      rewrite Hc, Hcl, Htr, Hb. cbn. split_and!.
      * lia.
      * lia.
      * intros [|j] x; cbn.
        -- intros [= <-]. cbn. lia.
        -- intros Hx. rewrite (Hidx _ _ Hx). lia.
      * lia.
      * done.
      * done.
      * done.
      * by destruct (d <=? 0)%float.
      * rewrite length_app, Hs, Hb. by destruct (d <=? 0)%float.
Qed.

Lemma icp_loop_compose l target d estimation c n :
  forall i st s st' s' ev pc,
    icp_loop l target d estimation c n i st s = (Ok st', s', ev) ->
    s !! l = Some pc ->
    transformation_ (result_ st) =
      (if (d <=? 0)%float then To (transformation_device_ st) (device_ pc)
       else transformation_device_ st) ->
    compose (transformation_device_ st) (estimates ev)
      = Ok (transformation_device_ st') /\
    transformation_ (result_ st') =
      (if (d <=? 0)%float then To (transformation_device_ st') (device_ pc)
       else transformation_device_ st').
Proof.
  induction n as [|n IH]; intros i st s st' s' ev pc Hrun Hl Hinv.
  - apply ret_Ok in Hrun as (-> & -> & ->). done.
  - apply icp_loop_S_Ok in Hrun as (st1 & s1 & ev1 & ev2 & Hit & -> & Hrest).
    apply icp_iteration_Ok in Hit
      as (pc0 & pts & update & Hl0 & -> & _ & Hmm & -> & Htr & _).
    assert (pc0 = pc) as -> by congruence.
    destruct (evaluation_events_projections (dataset_points_ (target_nns_ st)) d pts)
      as (_ & _ & _ & Ee & _).
    assert (Hest : forall ev2,
      estimates ((LogDebug i (fitness_ (result_ st)) (inlier_rmse_ (result_ st))
                  :: ComputeTransformationCall update :: TransformCall l update
                  :: evaluation_events (dataset_points_ (target_nns_ st)) d pts)
                 ++ ev2) = update :: estimates ev2).
    { intros ev'. unfold estimates in *. cbn. by rewrite omap_app, Ee. }
    rewrite Hest. cbn [compose]. rewrite Hmm.
    destruct Hrest as [(_ & -> & -> & ->)|(_ & Hrun)]; [done|].
    apply (IH _ _ _ _ _ _ {| device_ := device_ pc; points_ := pts |} Hrun);
      [apply lookup_insert_eq|exact Htr].
Qed.

Lemma icp_loop_history l target d estimation c n :
  forall i st s st' s' ev,
    icp_loop l target d estimation c n i st s = (Ok st', s', ev) ->
    exists h,
      history ev (result_ st') = score (result_ st) :: h /\
      run_shape c n (score (result_ st) :: h).
Proof.
  induction n as [|n IH]; intros i st s st' s' ev Hrun.
  - apply ret_Ok in Hrun as (-> & -> & ->). exists []. split; [done|constructor].
  - apply icp_loop_S_Ok in Hrun as (st1 & s1 & ev1 & ev2 & Hit & -> & Hrest).
    apply icp_iteration_Ok in Hit
      as (pc0 & pts & update & Hl0 & -> & _ & _ & -> & _ & _).
    destruct (evaluation_events_projections (dataset_points_ (target_nns_ st)) d pts)
      as (_ & _ & _ & _ & Ed & _).
    assert (Hlog : forall ev2 r,
      history ((LogDebug i (fitness_ (result_ st)) (inlier_rmse_ (result_ st))
                :: ComputeTransformationCall update :: TransformCall l update
                :: evaluation_events (dataset_points_ (target_nns_ st)) d pts)
               ++ ev2) r
      = score (result_ st) :: history ev2 r).
    { intros ev' r. unfold history, debug_log in *. cbn. by rewrite omap_app, Ed. }
    rewrite Hlog.
    destruct Hrest as [(Hc & -> & -> & ->)|(Hc & Hrun)].
    + exists [score (result_ st1)]. split; [done|]. by constructor.
    + destruct (IH _ _ _ _ _ _ Hrun) as (h & Hh & Hshape).
      exists (score (result_ st1) :: h). rewrite Hh. split; [done|].
      by constructor.
Qed.

(** *** The two entry points, when they return *)

Lemma EvaluateRegistration_Ok source target d t s r s' ev :
  EvaluateRegistration source target d t s = (Ok r, s', ev) ->
  exists src tgt l pts,
    s !! source = Some src /\ s !! target = Some tgt /\ inputs_ok src tgt t /\
    s !! l = None /\
    TransformPoints (GetPoints src) (To t (GetDevice src)) = Ok pts /\
    ev = NNSConstruct (GetPoints tgt) :: CloneCall source l
         :: TransformCall l (To t (GetDevice src))
         :: evaluation_events (GetPoints tgt) d pts /\
    transformation_ r =
      (if (d <=? 0)%float then To (To t (GetDevice src)) (GetDevice src)
       else To t (GetDevice src)) /\
    ((d <=? 0)%float = true ->
       r = RegistrationResult_init (To (To t (GetDevice src)) (GetDevice src))).
Proof.
  unfold EvaluateRegistration. intros Hrun.
  apply bind_Ok in Hrun as (td & s1 & ev1 & ev2 & H1 & Hrun & ->).
  apply check_inputs_Ok in H1 as (src & tgt & Hs & Ht & Hok & -> & -> & ->).
  apply bind_Ok in Hrun as (tgt' & s1 & ev1 & ev3 & H1 & Hrun & ->).
  apply deref_Ok in H1 as (Ht' & -> & ->).
  assert (tgt' = tgt) as -> by congruence.
  apply bind_Ok in Hrun as (nns & s1 & ev1 & ev4 & H1 & Hrun & ->).
  unfold NearestNeighborSearch_new in H1.
  apply bind_Ok in H1 as ([] & s2 & ev5 & ev6 & H1 & H2 & ->).
  apply emit_Ok in H1 as (-> & ->). apply ret_Ok in H2 as (-> & -> & ->).
  unfold with_Clone in Hrun. rewrite Hs in Hrun.
  set (l := fresh (dom s)) in *.
  assert (Hfresh : s !! l = None) by apply not_elem_of_dom, is_fresh.
  destruct (bind _ _ _) as [[r1 s2] ev2] eqn:Hbody.
  injection Hrun as -> <- <-.
  apply bind_Ok in Hbody as ([] & s3 & ev7 & ev8 & H1 & Hbody & ->).
  apply Transform_Ok in H1 as (pc & pts & Hl & Hpts & -> & ->).
  rewrite lookup_insert_eq in Hl. injection Hl as <-.
  apply bind_Ok in Hbody as ([r2 nns2] & s3 & ev7 & ev9 & H1 & Hbody & ->).
  apply GetRegistrationResultAndCorrespondences_Ok in H1
    as (src' & tgt' & Hs' & _ & _ & -> & -> & Htr & Hshort & Hds).
  rewrite lookup_insert_eq in Hs'. injection Hs' as <-.
  apply ret_Ok in Hbody as (-> & -> & ->).
  exists src, tgt, l, pts. cbn in *. rewrite app_nil_r.
  split_and!; try done. intros Hd. by destruct (Hshort Hd).
Qed.

Lemma RegistrationICP_run source target d init estimation c s r s' ev :
  RegistrationICP source target d init estimation c s = (Ok r, s', ev) ->
  exists src tgt l pts st0 st' s1 s2 ev_loop,
    s !! source = Some src /\ s !! target = Some tgt /\ inputs_ok src tgt init /\
    s !! l = None /\
    TransformPoints (GetPoints src) (To init (GetDevice src)) = Ok pts /\
    s1 !! l = Some {| device_ := device_ src; points_ := pts |} /\
    transformation_device_ st0 = To init (GetDevice src) /\
    transformation_ (result_ st0) =
      (if (d <=? 0)%float then To (To init (GetDevice src)) (GetDevice src)
       else To init (GetDevice src)) /\
    ((d <=? 0)%float = true ->
       result_ st0 = RegistrationResult_init (To (To init (GetDevice src)) (GetDevice src))) /\
    icp_loop l target d estimation c (Z.to_nat (max_iteration_ c)) 0%Z st0 s1
      = (Ok st', s2, ev_loop) /\
    r = result_ st' /\
    ev = NNSConstruct (GetPoints tgt) :: CloneCall source l
         :: TransformCall l (To init (GetDevice src))
         :: evaluation_events (GetPoints tgt) d pts ++ ev_loop /\
    dataset_points_ (target_nns_ st0) = GetPoints tgt.
Proof.
  unfold RegistrationICP. intros Hrun.
  apply bind_Ok in Hrun as (td & s1 & ev1 & ev2 & H1 & Hrun & ->).
  apply check_inputs_Ok in H1 as (src & tgt & Hs & Ht & Hok & -> & -> & ->).
  apply bind_Ok in Hrun as (tgt' & s1 & ev1 & ev3 & H1 & Hrun & ->).
  apply deref_Ok in H1 as (Ht' & -> & ->).
  assert (tgt' = tgt) as -> by congruence.
  apply bind_Ok in Hrun as (nns & s1 & ev1 & ev4 & H1 & Hrun & ->).
  unfold NearestNeighborSearch_new in H1.
  apply bind_Ok in H1 as ([] & s2 & ev5 & ev6 & H1 & H2 & ->).
  apply emit_Ok in H1 as (-> & ->). apply ret_Ok in H2 as (-> & -> & ->).
  unfold with_Clone in Hrun. rewrite Hs in Hrun.
  set (l := fresh (dom s)) in *.
  assert (Hfresh : s !! l = None) by apply not_elem_of_dom, is_fresh.
  destruct (bind _ _ _) as [[r1 s2] ev2] eqn:Hbody.
  injection Hrun as -> <- <-.
  apply bind_Ok in Hbody as ([] & s3 & ev7 & ev8 & H1 & Hbody & ->).
  apply Transform_Ok in H1 as (pc & pts & Hl & Hpts & -> & ->).
  rewrite lookup_insert_eq in Hl. injection Hl as <-.
  apply bind_Ok in Hbody as ([r2 nns2] & s3 & ev7 & ev9 & H1 & Hbody & ->).
  apply GetRegistrationResultAndCorrespondences_Ok in H1
    as (src' & tgt' & Hs' & _ & _ & -> & -> & Htr & Hshort & Hds).
  rewrite lookup_insert_eq in Hs'. injection Hs' as <-.
  apply bind_Ok in Hbody as (st' & s3 & ev7 & ev10 & Hloop & Hbody & ->).
  apply ret_Ok in Hbody as (-> & -> & ->).
  eexists src, tgt, l, pts, _, st', _, s3, ev7.
  split_and!; try done; try exact Hloop.
  - apply lookup_insert_eq.
  - done.
  - exact Htr.
  - intros Hd. by destruct (Hshort Hd).
  - cbn. by rewrite app_nil_r.
Qed.

Lemma RegistrationICP_Ok source target d init estimation c s r s' ev :
  RegistrationICP source target d init estimation c s = (Ok r, s', ev) ->
  exists src tgt l pts st0 st' s1 s2 ev_loop,
    s !! source = Some src /\ s !! target = Some tgt /\ inputs_ok src tgt init /\
    s !! l = None /\
    TransformPoints (GetPoints src) (To init (GetDevice src)) = Ok pts /\
    s1 !! l = Some {| device_ := device_ src; points_ := pts |} /\
    transformation_device_ st0 = To init (GetDevice src) /\
    transformation_ (result_ st0) =
      (if (d <=? 0)%float then To (To init (GetDevice src)) (GetDevice src)
       else To init (GetDevice src)) /\
    ((d <=? 0)%float = true ->
       result_ st0 = RegistrationResult_init (To (To init (GetDevice src)) (GetDevice src))) /\
    icp_loop l target d estimation c (Z.to_nat (max_iteration_ c)) 0%Z st0 s1
      = (Ok st', s2, ev_loop) /\
    r = result_ st' /\
    ev = NNSConstruct (GetPoints tgt) :: CloneCall source l
         :: TransformCall l (To init (GetDevice src))
         :: evaluation_events (GetPoints tgt) d pts ++ ev_loop.
Proof.
  intros Hrun. apply RegistrationICP_run in Hrun
    as (src & tgt & l & pts & st0 & st' & s1 & s2 & ev_loop & H1 & H2 & H3 & H4
        & H5 & H6 & H7 & H8 & H9 & H10 & H11 & H12 & _).
  by exists src, tgt, l, pts, st0, st', s1, s2, ev_loop.
Qed.

(** *** Forward runs *)

Lemma lt_zero_not_le (d : float) : (0 <? d)%float = true -> (d <=? 0)%float = false.
Proof.
  rewrite FloatAxioms.ltb_spec, FloatAxioms.leb_spec.
  replace (Prim2SF 0) with (S754_zero false) by reflexivity.
  destruct (Prim2SF d) as [[|]|[|]| |[|] m e]; cbn; congruence.
Qed.

Lemma EvaluateRegistration_short source target d t s src tgt pts :
  s !! source = Some src -> s !! target = Some tgt -> inputs_ok src tgt t ->
  (d <=? 0)%float = true ->
  TransformPoints (GetPoints src) (To t (GetDevice src)) = Ok pts ->
  dtype_ pts = Float32 ->
  EvaluateRegistration source target d t s
    = (Ok (RegistrationResult_init (To (To t (GetDevice src)) (GetDevice src))), s,
       [NNSConstruct (GetPoints tgt); CloneCall source (fresh (dom s));
        TransformCall (fresh (dom s)) (To t (GetDevice src))]).
Proof.
  intros Hs Ht Hok Hd Hpts Hdt.
  destruct (EvaluateRegistration source target d t s) as [[r s'] ev] eqn:Hrun.
  destruct (works_on_clones_EvaluateRegistration _ _ _ _ _ _ _ _ Hrun) as [-> _].
  revert Hrun. unfold EvaluateRegistration, bind at 1.
  rewrite (check_inputs_pass _ _ _ _ _ _ Hs Ht Hok).
  unfold bind at 1, deref. rewrite Ht.
  unfold bind at 1, NearestNeighborSearch_new, bind at 1, emit, ret, with_Clone.
  rewrite Hs. set (l := fresh (dom s)).
  assert (Hfresh : s !! l = None) by apply not_elem_of_dom, is_fresh.
  assert (Hne : l <> target) by congruence.
  unfold bind at 1, Transform. rewrite lookup_insert_eq, Hpts.
  unfold bind at 1.
  erewrite GetRegistrationResultAndCorrespondences_short;
    [ | apply lookup_insert_eq
      | rewrite !lookup_insert_ne by done; exact Ht
      | destruct Hok as (H1 & H2 & H3 & H4 & H5); by repeat split
      | exact Hd ].
  intros [= <- _ <-]. done.
Qed.

(** *** The events of a run with a positive distance *)

Lemma run_events_projections l ds d i its :
  constructions (run_events l ds d i its) = [] /\
  length (debug_log (run_events l ds d i its)) = length its /\
  builds (run_events l ds d i its) = replicate (length its) (d, true) /\
  length (searches (run_events l ds d i its)) = length its.
Proof.
  revert i. induction its as [|[[[f r] u] q] its IH]; intros i; [done|].
  destruct (IH (i + 1)%Z) as (Hc & Hd & Hb & Hs).
  unfold constructions, debug_log, builds, searches in *. cbn.
  rewrite Hc, Hd, Hb, Hs. done.
Qed.

Lemma icp_loop_events l target d estimation c n :
  (d <=? 0)%float = false ->
  forall i st s st' s' ev,
    icp_loop l target d estimation c n i st s = (Ok st', s', ev) ->
    exists its,
      ev = run_events l (dataset_points_ (target_nns_ st)) d i its /\
      (length its <= n)%nat.
Proof.
  intros Hd. induction n as [|n IH]; intros i st s st' s' ev Hrun.
  - apply ret_Ok in Hrun as (-> & -> & ->). by exists [].
  - apply icp_loop_S_Ok in Hrun as (st1 & s1 & ev1 & ev2 & Hit & -> & Hrest).
    apply icp_iteration_Ok in Hit
      as (pc & pts & update & _ & _ & _ & _ & -> & _ & _ & Hds & _).
    unfold evaluation_events. rewrite Hd.
    destruct Hrest as [(_ & -> & -> & ->)|(_ & Hrun)].
    + exists [(fitness_ (result_ st), inlier_rmse_ (result_ st), update, pts)].
      split; [done|cbn; lia].
    + destruct (IH _ _ _ _ _ _ Hrun) as (its & -> & Hlen). rewrite Hds.
      exists ((fitness_ (result_ st), inlier_rmse_ (result_ st), update, pts) :: its).
      split; [done|cbn; lia].
Qed.

(** *** What is logged, whatever the outcome *)

Lemma debug_log_app ev1 ev2 : debug_log (ev1 ++ ev2) = debug_log ev1 ++ debug_log ev2.
Proof. apply omap_app. Qed.

Lemma logs_nothing_bind {A B} (m : M A) (f : A -> M B) :
  logs_nothing m -> (forall a, logs_nothing (f a)) -> logs_nothing (bind m f).
Proof.
  intros Hm Hf s r s' ev Hrun.
  destruct (bind_cases _ _ _ _ _ _ Hrun)
    as [(e & Hs & _)|(a & s1 & ev1 & ev2 & H1 & H2 & ->)].
  - eauto.
  - by rewrite debug_log_app, (Hm _ _ _ _ H1), (Hf _ _ _ _ _ H2).
Qed.

Lemma logs_nothing_ret {A} (a : A) : logs_nothing (ret a).
Proof. by intros s r s' ev [= _ _ <-]. Qed.

Lemma logs_nothing_throw {A} e : logs_nothing (@throw A e).
Proof. by intros s r s' ev [= _ _ <-]. Qed.

Lemma logs_nothing_emit e : debug_log [e] = [] -> logs_nothing (emit e).
Proof. by intros He s r s' ev [= _ _ <-]. Qed.

Lemma logs_nothing_lift {A} (o : Outcome A) : logs_nothing (lift o).
Proof. by intros s r s' ev [= _ _ <-]. Qed.

Lemma logs_nothing_deref l : logs_nothing (deref l).
Proof. intros s r s' ev. unfold deref. by destruct (s !! l); intros [= _ _ <-]. Qed.

Lemma logs_nothing_AssertDtype t d : logs_nothing (AssertDtype t d).
Proof.
  unfold AssertDtype. case_decide; [apply logs_nothing_ret|apply logs_nothing_throw].
Qed.

Lemma logs_nothing_AssertShape t d : logs_nothing (AssertShape t d).
Proof.
  unfold AssertShape. case_decide; [apply logs_nothing_ret|apply logs_nothing_throw].
Qed.

Lemma logs_nothing_Item t : logs_nothing (Item t).
Proof.
  unfold Item. destruct (data_ t) as [|x [|y l]];
    [apply logs_nothing_throw|apply logs_nothing_ret|apply logs_nothing_throw].
Qed.

Lemma logs_nothing_Transform l t : logs_nothing (Transform l t).
Proof.
  intros s r s' ev. unfold Transform. destruct (s !! l) as [pc|].
  - by destruct (TransformPoints _ _); intros [= _ _ <-].
  - by intros [= _ _ <-].
Qed.

Ltac logs_nothing_steps :=
  repeat first
    [ apply logs_nothing_bind; [|intros ?]
    | apply logs_nothing_ret | apply logs_nothing_throw | apply logs_nothing_lift
    | apply logs_nothing_deref | apply logs_nothing_AssertDtype
    | apply logs_nothing_AssertShape | apply logs_nothing_Item
    | apply logs_nothing_Transform
    | apply logs_nothing_emit; reflexivity
    | match goal with
      | |- logs_nothing (match ?x with _ => _ end) => destruct x
      | |- logs_nothing (if ?b then _ else _) => destruct b
      | |- logs_nothing (LogError _) => apply logs_nothing_throw
      end ].

Lemma logs_nothing_check_inputs source target t :
  logs_nothing (check_inputs source target t).
Proof. unfold check_inputs. logs_nothing_steps. Qed.

Lemma logs_nothing_ComputeTransformation estimation source target corres :
  logs_nothing (ComputeTransformation estimation source target corres).
Proof. unfold ComputeTransformation. logs_nothing_steps. Qed.

Lemma logs_nothing_GetRegistrationResultAndCorrespondences source target nns d t :
  logs_nothing (GetRegistrationResultAndCorrespondences source target nns d t).
Proof.
  unfold GetRegistrationResultAndCorrespondences.
  apply logs_nothing_bind; [apply logs_nothing_check_inputs|intros td].
  destruct (_ <=? _)%float; [apply logs_nothing_ret|].
  apply logs_nothing_bind;
    [unfold HybridIndex; logs_nothing_steps|intros [check nns']].
  apply logs_nothing_bind; [destruct (negb check); logs_nothing_steps|intros _].
  apply logs_nothing_bind; [apply logs_nothing_deref|intros src].
  apply logs_nothing_bind;
    [unfold Hybrid1NNSearch; logs_nothing_steps|intros [cs distances]].
  logs_nothing_steps.
Qed.

(** An iteration writes its log entry first, and nothing else to the log,
    whether it completes or throws. *)
Lemma icp_iteration_log l target d estimation i st s o s' ev :
  icp_iteration l target d estimation i st s = (o, s', ev) ->
  debug_log ev = [(i, (fitness_ (result_ st), inlier_rmse_ (result_ st)))].
Proof.
  unfold icp_iteration. intros Hrun.
  apply bind_cases in Hrun as [(e & He & _)|(a & s1 & ev1 & ev2 & H1 & H2 & ->)];
    [discriminate He|].
  injection H1 as _ <- <-. rewrite debug_log_app.
  assert (Hrest : debug_log ev2 = []); [|by rewrite Hrest].
  revert H2. apply logs_nothing_bind;
    [apply logs_nothing_ComputeTransformation|intros update].
  apply logs_nothing_bind; [apply logs_nothing_lift|intros td].
  apply logs_nothing_bind; [apply logs_nothing_Transform|intros _].
  apply logs_nothing_bind;
    [apply logs_nothing_GetRegistrationResultAndCorrespondences|intros [r nns]].
  apply logs_nothing_ret.
Qed.

(** The loop starts at most as many iterations as its budget allows,
    whether it returns or throws. *)
Lemma icp_loop_log_le l target d estimation c n :
  forall i st s o s' ev,
    icp_loop l target d estimation c n i st s = (o, s', ev) ->
    (length (debug_log ev) <= n)%nat.
Proof.
  induction n as [|n IH]; intros i st s o s' ev Hrun.
  - injection Hrun as _ _ <-. done.
  - cbn [icp_loop] in Hrun.
    apply bind_cases in Hrun as [(e & He & _)|(st1 & s1 & ev1 & ev2 & H1 & H2 & ->)].
    + rewrite (icp_iteration_log _ _ _ _ _ _ _ _ _ _ He). cbn. lia.
    + rewrite debug_log_app, (icp_iteration_log _ _ _ _ _ _ _ _ _ _ H1).
      destruct (converged _ _ _ _ _).
      * injection H2 as _ _ <-. cbn. lia.
      * apply IH in H2. cbn. lia.
Qed.

(** Cutting the budget: when a loop, with whatever budget and outcome, has
    started more than [m] iterations, the loop with budget [m] goes through
    the first [m] of them and returns. *)
Lemma icp_loop_cut l target d estimation c z m :
  forall n i st s o s' ev,
    icp_loop l target d estimation c n i st s = (o, s', ev) ->
    (m < length (debug_log ev))%nat ->
    exists st_m s_m ev_m rest,
      icp_loop l target d estimation (with_max_iteration c z) m i st s
        = (Ok st_m, s_m, ev_m) /\
      ev = ev_m ++ rest /\ length (debug_log ev_m) = m.
Proof.
  induction m as [|m IH]; intros n i st s o s' ev Hrun Hlen.
  - exists st, s, [], ev. done.
  - destruct n as [|n]; [injection Hrun as _ _ <-; cbn in Hlen; lia|].
    cbn [icp_loop] in Hrun.
    apply bind_cases in Hrun as [(e & He & _)|(st1 & s1 & ev1 & ev2 & H1 & H2 & ->)].
    { rewrite (icp_iteration_log _ _ _ _ _ _ _ _ _ _ He) in Hlen. cbn in Hlen. lia. }
    pose proof (icp_iteration_log _ _ _ _ _ _ _ _ _ _ H1) as Hlog.
    rewrite debug_log_app, Hlog in Hlen. cbn in Hlen.
    destruct (converged c _ _ _ _) eqn:Hc.
    { injection H2 as _ _ <-. cbn in Hlen. lia. }
    destruct (IH _ _ _ _ _ _ _ H2 ltac:(lia))
      as (st_m & s_m & ev_m & rest & Hm & -> & Hk).
    exists st_m, s_m, (ev1 ++ ev_m), rest. split_and!.
    + cbn [icp_loop]. unfold bind. rewrite H1.
      change (converged (with_max_iteration c z)) with (converged c).
      by rewrite Hc, Hm.
    + by rewrite app_assoc.
    + rewrite debug_log_app, Hlog. cbn. by rewrite Hk.
Qed.

(** A run of RegistrationICP either ends before the loop, with nothing
    logged, or is the preamble followed by the loop, and then so for every
    budget and every pair of thresholds. *)
Lemma RegistrationICP_loop source target d init estimation c s o s' ev :
  RegistrationICP source target d init estimation c s = (o, s', ev) ->
  debug_log ev = [] \/
  exists l st0 s1 pre,
    debug_log pre = [] /\
    forall c',
      RegistrationICP source target d init estimation c' s
      = (let '(o2, s2, ev2) :=
           icp_loop l target d estimation c' (Z.to_nat (max_iteration_ c')) 0%Z
             st0 s1 in
         (match o2 with Ok st => Ok (result_ st) | Throw e => Throw e end,
          delete l s2, pre ++ ev2)).
Proof.
  unfold RegistrationICP. intros Hrun.
  destruct (check_inputs source target init s) as [[[td|e] s1] ev1] eqn:H1.
  2:{ left. unfold bind in Hrun. rewrite H1 in Hrun. injection Hrun as _ _ <-.
      by apply (logs_nothing_check_inputs _ _ _ _ _ _ _ H1). }
  pose proof H1 as H1'.
  apply check_inputs_Ok in H1' as (src & tgt & Hs & Ht & Hok & -> & -> & ->).
  set (l := fresh (dom s)).
  set (s2 := <[l := src]> s).
  set (td := To init (GetDevice src)) in *.
  set (nns := {| dataset_points_ := GetPoints tgt; index_ := None |}).
  set (pre0 := [NNSConstruct (GetPoints tgt); CloneCall source l]).
  destruct (Transform l td s2) as [[[u|e] s3] ev3] eqn:H3.
  2:{ left. unfold bind in Hrun. rewrite H1 in Hrun. unfold deref in Hrun.
      rewrite Ht in Hrun. cbn in Hrun. unfold with_Clone in Hrun.
      rewrite Hs in Hrun. fold l s2 in Hrun. rewrite H3 in Hrun.
      injection Hrun as _ _ <-.
      change (debug_log ev3 = []).
      by rewrite (logs_nothing_Transform _ _ _ _ _ _ H3). }
  destruct (GetRegistrationResultAndCorrespondences l target nns d td s3)
    as [[[[r2 nns2]|e] s4] ev4] eqn:H4.
  2:{ left. unfold bind in Hrun. rewrite H1 in Hrun. unfold deref in Hrun.
      rewrite Ht in Hrun. cbn in Hrun. unfold with_Clone in Hrun.
      rewrite Hs in Hrun. fold l s2 in Hrun. rewrite H3 in Hrun.
      fold nns td in Hrun. rewrite H4 in Hrun. injection Hrun as _ _ <-.
      change (debug_log (ev3 ++ ev4) = []).
      rewrite debug_log_app, (logs_nothing_Transform _ _ _ _ _ _ H3).
      by rewrite (logs_nothing_GetRegistrationResultAndCorrespondences
                    _ _ _ _ _ _ _ _ _ H4). }
  right.
  exists l, {| transformation_device_ := td; result_ := r2;
               corres_ := correspondence_set_ r2; target_nns_ := nns2 |},
    s4, (pre0 ++ ev3 ++ ev4).
  split.
  { change (debug_log (ev3 ++ ev4) = []).
    rewrite debug_log_app, (logs_nothing_Transform _ _ _ _ _ _ H3).
    by rewrite (logs_nothing_GetRegistrationResultAndCorrespondences
                  _ _ _ _ _ _ _ _ _ H4). }
  intros c'. unfold bind. rewrite H1. unfold deref. rewrite Ht. cbn.
  unfold with_Clone. rewrite Hs. fold l s2. rewrite H3. fold nns td. rewrite H4.
  destruct (icp_loop _ _ _ _ _ _ _ _ _) as [[[st|e] s5] ev5]; cbn.
  - by rewrite app_nil_r, <- !app_assoc.
  - by rewrite <- !app_assoc.
Qed.

End Theory.

(** ** The claims *)

Section Claims.

Context `{Collaborators}.

(** C2 (as amended): in a RegistrationICP run that returns, with a positive
    max_correspondence_distance, exactly one search object is constructed,
    over the target's points, and the index is built once per evaluation,
    not once per run.  The trace is: the construction, the clone, the
    Transform by init, then the initial evaluation, which calls HybridIndex
    on the search object over the target's points and searches it once, then
    for every executed iteration its log entry, the estimator call, the
    Transform by the update and again one HybridIndex call followed by one
    search, both on the search object over the target's points.  So a run
    of k iterations makes 1 + k index builds and 1 + k searches. *)
Theorem C2_index_built_once_per_evaluation source target d init estimation c s r s' ev :
  (0 <? d)%float = true ->
  RegistrationICP source target d init estimation c s = (Ok r, s', ev) ->
  exists src tgt l query its,
    s !! source = Some src /\ s !! target = Some tgt /\
    TransformPoints (GetPoints src) (To init (GetDevice src)) = Ok query /\
    ev = NNSConstruct (GetPoints tgt) :: CloneCall source l
         :: TransformCall l (To init (GetDevice src))
         :: HybridIndexCall (GetPoints tgt) d true
         :: Hybrid1NNSearchCall (GetPoints tgt) query d
         :: run_events l (GetPoints tgt) d 0 its /\
    (length its <= Z.to_nat (max_iteration_ c))%nat /\
    length (debug_log ev) = length its /\
    constructions ev = [GetPoints tgt] /\
    builds ev = replicate (1 + length its) (d, true) /\
    length (searches ev) = (1 + length its)%nat.
Proof.
  intros Hd Hrun. apply lt_zero_not_le in Hd.
  apply RegistrationICP_run in Hrun
    as (src & tgt & l & pts & st0 & st' & s1 & s2 & ev_loop & Hs & Ht & _ & _ & Hpts
        & _ & _ & _ & _ & Hloop & -> & -> & Hds).
  destruct (icp_loop_events _ _ _ _ _ _ Hd _ _ _ _ _ _ Hloop) as (its & -> & Hlen).
  rewrite Hds. unfold evaluation_events. rewrite Hd.
  destruct (run_events_projections l (GetPoints tgt) d 0 its) as (Ec & Ed & Eb & Es).
  exists src, tgt, l, pts, its. do 5 (split; [done|]).
  unfold constructions, builds, searches, debug_log in *. cbn.
  rewrite Ec, Ed, Eb, Es. done.
Qed.

(** C3: the loop of RegistrationICP stops after an iteration exactly when the
    absolute differences of fitness and of inlier_rmse between the previous
    and the new result are both below their thresholds; otherwise it stops
    when max_iteration_ iterations have run, and that is a normal return.
    For every run, whatever its outcome: it starts at most max_iteration_
    iterations; and being cut off by the budget is no error: for every
    iteration number m the run started, the run with the same thresholds
    and a budget of m iterations returns, after exactly m iterations, with
    the trace of the longer run up to that point.  For a run that returns:
    an iteration whose scores pass the test is the last one, and a last
    iteration whose scores fail it is iteration number max_iteration_. *)
Theorem C3_loop_termination source target d init estimation c s o s' ev :
  RegistrationICP source target d init estimation c s = (o, s', ev) ->
  let k := length (debug_log ev) in
  (k <= Z.to_nat (max_iteration_ c))%nat /\
  (forall m, (m < k)%nat ->
     exists r_m ev_m rest,
       RegistrationICP source target d init estimation
         (with_max_iteration c (Z.of_nat m)) s = (Ok r_m, s, ev_m) /\
       length (debug_log ev_m) = m /\ ev = ev_m ++ rest) /\
  (forall r, o = Ok r ->
     let h := history ev r in
     length h = S k /\
     (forall j x, debug_log ev !! j = Some x -> fst x = Z.of_nat j) /\
     (k = 0%nat -> Z.to_nat (max_iteration_ c) = 0%nat) /\
     (forall j p q, h !! j = Some p -> h !! S j = Some q ->
        (abs (fst p - fst q) <? relative_fitness_ c)%float
        && (abs (snd p - snd q) <? relative_rmse_ c)%float = true ->
        S j = k) /\
     (forall j p q, h !! j = Some p -> h !! S j = Some q ->
        (abs (fst p - fst q) <? relative_fitness_ c)%float
        && (abs (snd p - snd q) <? relative_rmse_ c)%float = false ->
        S j = k -> k = Z.to_nat (max_iteration_ c))).
Proof.
  intros Hrun k. split_and!.
  - destruct (RegistrationICP_loop _ _ _ _ _ _ _ _ _ _ Hrun)
      as [Hnone|(l & st0 & s1 & pre & Hpre & Hall)].
    { subst k. rewrite Hnone. cbn. lia. }
    specialize (Hall c). rewrite Hrun in Hall.
    destruct (icp_loop _ _ _ _ _ _ _ _ _) as [[o2 s2] ev2] eqn:Hloop.
    injection Hall as _ _ ->. subst k. rewrite debug_log_app, Hpre. cbn.
    by apply icp_loop_log_le in Hloop.
  - intros m Hm.
    destruct (RegistrationICP_loop _ _ _ _ _ _ _ _ _ _ Hrun)
      as [Hnone|(l & st0 & s1 & pre & Hpre & Hall)].
    { subst k. rewrite Hnone in Hm. cbn in Hm. lia. }
    pose proof (Hall c) as Hc. rewrite Hrun in Hc.
    destruct (icp_loop _ _ _ _ c _ _ _ _) as [[o2 s2] ev2] eqn:Hloop.
    injection Hc as _ _ ->. subst k.
    rewrite debug_log_app, Hpre in Hm. cbn in Hm.
    destruct (icp_loop_cut _ _ _ _ _ (Z.of_nat m) _ _ _ _ _ _ _ _ Hloop Hm)
      as (st_m & s_m & ev_m & rest & Hcut & -> & Hk).
    specialize (Hall (with_max_iteration c (Z.of_nat m))).
    cbn [with_max_iteration max_iteration_] in Hall. rewrite Nat2Z.id in Hall.
    fold (with_max_iteration c (Z.of_nat m)) in Hall. rewrite Hcut in Hall.
    destruct (works_on_clones_RegistrationICP _ _ _ _ _ _ _ _ _ _ Hall) as [Hs _].
    rewrite Hs in Hall.
    exists (result_ st_m), (pre ++ ev_m), rest. split_and!.
    + exact Hall.
    + rewrite debug_log_app, Hpre. exact Hk.
    + by rewrite app_assoc.
  - intros r -> h.
    apply RegistrationICP_Ok in Hrun
      as (src & tgt & l & pts & st0 & st' & s1 & s2 & ev_loop & Hs & Ht & _ & _ & _
          & Hl & _ & _ & _ & Hloop & -> & ->).
    destruct (icp_loop_trace _ _ _ _ _ _ _ _ _ _ _ _ _ Hloop Hl)
      as (_ & _ & _ & _ & _ & Hidx & _).
    destruct (icp_loop_history _ _ _ _ _ _ _ _ _ _ _ _ Hloop) as (h0 & Hh & Hshape).
    destruct (evaluation_events_projections (GetPoints tgt) d pts)
      as (_ & _ & _ & _ & Ed & _).
    assert (Hlog : debug_log (NNSConstruct (GetPoints tgt) :: CloneCall source l
                     :: TransformCall l (To init (GetDevice src))
                     :: evaluation_events (GetPoints tgt) d pts ++ ev_loop)
                   = debug_log ev_loop).
    { unfold debug_log in *. cbn. by rewrite omap_app, Ed. }
    assert (Hhist : h = score (result_ st0) :: h0).
    { subst h. unfold history in *. by rewrite Hlog. }
    assert (Hk : length h = S k).
    { subst h k. unfold history. rewrite length_app, length_map. cbn. lia. }
    subst k. rewrite Hlog in *. rewrite Hhist in *. clear Hhist h.
    destruct (run_shape_facts _ _ _ Hshape) as (Hlen & Hone & Htrue & Hfalse).
    split_and!.
    + done.
    + intros j x Hx. rewrite (Hidx _ _ Hx). lia.
    + intros Hz. apply Hone. lia.
    + intros j p q Hp Hq Hc. pose proof (Htrue j p q Hp Hq Hc). lia.
    + intros j p q Hp Hq Hc Hj. rewrite <- Hj. apply (Hfalse j p q Hp Hq Hc). lia.
Qed.

(** C4 (as amended): for clouds and a transformation that pass the entry
    checks, with max_correspondence_distance <= 0 the evaluation returns at
    once: empty correspondence set, fitness 0, inlier_rmse 0, no build and
    no search of the index; it is a normal return, not an exception. *)
Theorem C4_nonpositive_distance_short_circuits source target nns d t s src tgt :
  s !! source = Some src -> s !! target = Some tgt -> inputs_ok src tgt t ->
  (d <=? 0)%float = true ->
  (exists r,
     GetRegistrationResultAndCorrespondences source target nns d t s
       = (Ok (r, nns), s, []) /\
     correspondence_set_ r = (Tensor_default, Tensor_default) /\
     GetLength (fst (correspondence_set_ r)) = 0%Z /\
     fitness_ r = 0%float /\ inlier_rmse_ r = 0%float) /\
  (forall r s' ev,
     EvaluateRegistration source target d t s = (Ok r, s', ev) ->
     correspondence_set_ r = (Tensor_default, Tensor_default) /\
     fitness_ r = 0%float /\ inlier_rmse_ r = 0%float /\
     builds ev = [] /\ searches ev = []) /\
  (forall pts,
     TransformPoints (GetPoints src) (To t (GetDevice src)) = Ok pts ->
     dtype_ pts = Float32 ->
     exists r ev, EvaluateRegistration source target d t s = (Ok r, s, ev)).
Proof.
  intros Hs Ht Hok Hd. split_and!.
  - eexists. split;
      [by apply GetRegistrationResultAndCorrespondences_short with (tgt := tgt)|].
    done.
  - intros r s' ev Hrun.
    apply EvaluateRegistration_Ok in Hrun
      as (src' & tgt' & l & pts & _ & _ & _ & _ & _ & -> & _ & Hr).
    rewrite (Hr Hd).
    destruct (evaluation_events_projections (GetPoints tgt') d pts) as (_ & _ & _ & _ & _ & Eb & Es).
    unfold builds, searches in *. cbn. rewrite Eb, Es, Hd. done.
  - intros pts Hpts Hdt. eexists _, _.
    by apply EvaluateRegistration_short with (src := src) (tgt := tgt) (pts := pts).
Qed.

(** C5: RegistrationICP with max_iteration_ = 0 is EvaluateRegistration of
    init: same outcome, same store, same trace. *)
Theorem C5_zero_iterations_is_evaluation source target d init estimation
    relative_fitness relative_rmse s :
  RegistrationICP source target d init estimation
    {| relative_fitness_ := relative_fitness; relative_rmse_ := relative_rmse;
       max_iteration_ := 0 |} s
  = EvaluateRegistration source target d init s.
Proof.
  unfold RegistrationICP, EvaluateRegistration.
  apply bind_ext. intros td s1.
  apply bind_ext. intros tgt s2.
  apply bind_ext. intros nns s3.
  apply with_Clone_ext. intros l s4.
  apply bind_ext. intros _ s5.
  apply bind_ext. intros [r nns'] s6.
  cbn [max_iteration_]. change (Z.to_nat 0) with 0%nat. cbn [icp_loop].
  by rewrite bind_ret_l.
Qed.

(** C6: every iteration that completes calls the estimator on the clone of
    the source as it then is, the target and the current correspondences,
    left-multiplies the transform the estimator returned onto the cumulative
    transform and applies that same incremental transform, in place, to the
    clone; the correspondences of the new evaluation are the ones the next
    iteration passes on.  Over a run that returns, the Transform calls are
    init on the clone, then each incremental transform on that same clone,
    which sits at a location the caller's store does not have; the returned
    transformation is the incremental transforms left-multiplied in order
    onto init. *)
Theorem C6_incremental_updates source target d init estimation c :
  (forall l i st s st' s1 ev,
     icp_iteration l target d estimation i st s = (Ok st', s1, ev) ->
     exists pc tgt pts update,
       s !! l = Some pc /\ s !! target = Some tgt /\
       compute_ estimation pc tgt (corres_ st) = Ok update /\
       estimates ev = [update] /\
       Matmul update (transformation_device_ st) = Ok (transformation_device_ st') /\
       transforms ev = [(l, update)] /\
       TransformPoints (GetPoints pc) update = Ok pts /\
       s1 = <[l := {| device_ := device_ pc; points_ := pts |}]> s /\
       corres_ st' = correspondence_set_ (result_ st')) /\
  (forall s r s' ev,
     RegistrationICP source target d init estimation c s = (Ok r, s', ev) ->
     exists src l cumulative,
       s !! source = Some src /\ s !! l = None /\
       clones ev = [(source, l)] /\
       transforms ev
         = (l, To init (GetDevice src)) :: map (pair l) (estimates ev) /\
       compose (To init (GetDevice src)) (estimates ev) = Ok cumulative /\
       transformation_ r =
         (if (d <=? 0)%float then To cumulative (GetDevice src) else cumulative)).
Proof.
  split.
  - intros l i st s st' s1 ev Hit.
    apply icp_iteration_Ok in Hit
      as (pc & pts & update & Hl & -> & Hpts & Hmm & -> & _ & Hcs & _ & tgt & Ht & Hu).
    destruct (evaluation_events_projections (dataset_points_ (target_nns_ st)) d pts)
      as (_ & _ & Et & Ee & _).
    exists pc, tgt, pts, update. unfold estimates, transforms in *. cbn.
    by rewrite Et, Ee.
  - intros s r s' ev Hrun.
    apply RegistrationICP_Ok in Hrun
      as (src & tgt & l & pts & st0 & st' & s1 & s2 & ev_loop & Hs & Ht & _
          & Hfresh & _ & Hl & Htd & Htr & _ & Hloop & -> & ->).
    destruct (icp_loop_trace _ _ _ _ _ _ _ _ _ _ _ _ _ Hloop Hl)
      as (_ & _ & _ & _ & _ & _ & _ & Htf & _ & Hcl & _).
    destruct (icp_loop_compose _ _ _ _ _ _ _ _ _ _ _ _ _ Hloop Hl)
      as (Hcomp & Hfinal); [by rewrite Htd|].
    destruct (evaluation_events_projections (GetPoints tgt) d pts)
      as (_ & Ecl & Et & Ee & _).
    exists src, l, (transformation_device_ st'). rewrite <- Htd.
    unfold clones, transforms, estimates in *. cbn.
    rewrite !omap_app, Ecl, Et, Ee, Hcl, Htf. done.
Qed.

(** C7: whatever the outcome, EvaluateRegistration and RegistrationICP hand
    the caller's store back as they found it, so source and target are what
    they were, and every Transform they applied was applied at a location
    that store does not have: on the clone, never on source or target. *)
Theorem C7_caller_clouds_untouched source target d t estimation c s :
  (snd (fst (EvaluateRegistration source target d t s)) = s /\
   forall l u,
     (l, u) ∈ transforms (snd (EvaluateRegistration source target d t s)) ->
     s !! l = None) /\
  (snd (fst (RegistrationICP source target d t estimation c s)) = s /\
   forall l u,
     (l, u) ∈ transforms (snd (RegistrationICP source target d t estimation c s)) ->
     s !! l = None).
Proof.
  split.
  - destruct (EvaluateRegistration _ _ _ _ _) as [[r s'] ev] eqn:Hrun.
    destruct (works_on_clones_EvaluateRegistration _ _ _ _ _ _ _ _ Hrun) as [-> Htr].
    split; [done|]. intros l u Hx. exact (Htr _ Hx).
  - destruct (RegistrationICP _ _ _ _ _ _ _) as [[r s'] ev] eqn:Hrun.
    destruct (works_on_clones_RegistrationICP _ _ _ _ _ _ _ _ _ _ Hrun) as [-> Htr].
    split; [done|]. intros l u Hx. exact (Htr _ Hx).
Qed.

(** C8: when source and target are on different devices, or the points of
    either are not Float32, or the transform is not 4x4 (or not Float32),
    both entry points throw, with the store unchanged and an empty trace:
    no clone, no transform, no index, no search. *)
Theorem C8_precondition_violation_fails_first source target d t estimation c s src tgt :
  s !! source = Some src -> s !! target = Some tgt ->
  GetDevice tgt <> GetDevice src \/ dtype_ (GetPoints src) <> Float32 \/
  dtype_ (GetPoints tgt) <> Float32 \/ shape_ t <> [4%Z; 4%Z] \/
  dtype_ t <> Float32 ->
  exists e,
    EvaluateRegistration source target d t s = (Throw e, s, []) /\
    RegistrationICP source target d t estimation c s = (Throw e, s, []).
Proof.
  intros Hs Ht Hbad.
  assert (Hno : ~ inputs_ok src tgt t) by (unfold inputs_ok; tauto).
  destruct (check_inputs_fail _ _ _ _ _ _ Hs Ht Hno) as [e He].
  exists e. unfold EvaluateRegistration, RegistrationICP, bind. by rewrite He.
Qed.

(** C9: both entry points return only when the source points, the target
    points and the transform are all Float32; clouds and a transform that
    are all Float64 are rejected by the first dtype assertion, before
    anything else happens. *)
Theorem C9_float32_only source target d t estimation c s src tgt :
  s !! source = Some src -> s !! target = Some tgt ->
  ((forall r s' ev,
      EvaluateRegistration source target d t s = (Ok r, s', ev) \/
      RegistrationICP source target d t estimation c s = (Ok r, s', ev) ->
      dtype_ (GetPoints src) = Float32 /\ dtype_ (GetPoints tgt) = Float32 /\
      dtype_ t = Float32) /\
   (dtype_ (GetPoints src) = Float64 -> dtype_ (GetPoints tgt) = Float64 ->
    dtype_ t = Float64 ->
    EvaluateRegistration source target d t s
      = (Throw (DtypeError Float64 Float32), s, []) /\
    RegistrationICP source target d t estimation c s
      = (Throw (DtypeError Float64 Float32), s, []))).
Proof.
  intros Hs Ht. split.
  - intros r s' ev [Hrun|Hrun].
    + apply EvaluateRegistration_Ok in Hrun
        as (src' & tgt' & l & pts & Hs' & Ht' & (H1 & H2 & _ & _ & H5) & _).
      by simplify_eq.
    + apply RegistrationICP_Ok in Hrun
        as (src' & tgt' & l & pts & st0 & st' & s1 & s2 & ev_loop & Hs' & Ht'
            & (H1 & H2 & _ & _ & H5) & _).
      by simplify_eq.
  - intros H1 H2 H3.
    assert (He : check_inputs source target t s
                 = (Throw (DtypeError Float64 Float32), s, [])).
    { unfold check_inputs, bind, deref, AssertDtype. rewrite Hs. cbn.
      rewrite H1. by rewrite decide_False. }
    unfold EvaluateRegistration, RegistrationICP, bind. by rewrite He.
Qed.

(** C10 (as amended): with max_iteration_ >= 1, a RegistrationICP run that
    returns has gone through at least one iteration, numbered 0, whatever
    the thresholds and the first evaluation were: the estimator was called at
    least once, and the returned transformation is at least one incremental
    transform left-multiplied onto init. *)
Theorem C10_first_iteration_always_runs source target d init estimation c s r s' ev :
  (1 <= max_iteration_ c)%Z ->
  RegistrationICP source target d init estimation c s = (Ok r, s', ev) ->
  exists src update rest cumulative first,
    s !! source = Some src /\
    debug_log ev !! 0%nat = Some (0%Z, first) /\
    estimates ev = update :: rest /\
    compose (To init (GetDevice src)) (update :: rest) = Ok cumulative /\
    transformation_ r =
      (if (d <=? 0)%float then To cumulative (GetDevice src) else cumulative).
Proof.
  intros Hmax Hrun.
  apply RegistrationICP_Ok in Hrun
    as (src & tgt & l & pts & st0 & st' & s1 & s2 & ev_loop & Hs & Ht & _ & Hfresh
        & _ & Hl & Htd & Htr & _ & Hloop & -> & ->).
  destruct (icp_loop_trace _ _ _ _ _ _ _ _ _ _ _ _ _ Hloop Hl)
    as (_ & _ & _ & _ & Hpos & Hidx & Hlen & _).
  destruct (icp_loop_compose _ _ _ _ _ _ _ _ _ _ _ _ _ Hloop Hl)
    as (Hcomp & Hfinal); [by rewrite Htd|].
  destruct (evaluation_events_projections (GetPoints tgt) d pts) as (_ & _ & _ & Ee & Ed & _).
  assert (Hlog : debug_log (NNSConstruct (GetPoints tgt) :: CloneCall source l
                   :: TransformCall l (To init (GetDevice src))
                   :: evaluation_events (GetPoints tgt) d pts ++ ev_loop) = debug_log ev_loop).
  { unfold debug_log in *. cbn. by rewrite omap_app, Ed. }
  assert (Hest : estimates (NNSConstruct (GetPoints tgt) :: CloneCall source l
                   :: TransformCall l (To init (GetDevice src))
                   :: evaluation_events (GetPoints tgt) d pts ++ ev_loop) = estimates ev_loop).
  { unfold estimates in *. cbn. by rewrite omap_app, Ee. }
  rewrite Hlog, Hest.
  assert (Hk : (0 < length (debug_log ev_loop))%nat) by (apply Hpos; lia).
  destruct (debug_log ev_loop) as [|[i first] log] eqn:Hdl; [cbn in Hk; lia|].
  destruct (estimates ev_loop) as [|update rest] eqn:Hes; [done|].
  exists src, update, rest, (transformation_device_ st'), first.
  rewrite <- Htd. split_and!; try done.
  cbn. f_equal. f_equal. apply (Hidx 0%nat (i, first)). done.
Qed.

End Claims.

(** ** The claims on the concrete scenes *)

(** C1: on the far scene (no target point within distance 1 of the source
    point) EvaluateRegistration returns an empty correspondence set and
    fitness 0, but divides 0 by 0: inlier_rmse is NaN, neither 0 nor >= 0. *)
Theorem C1_no_inliers_rmse_is_nan :
  exists r s' ev,
    Scene.evaluate 1 (Reference.Eye Reference.cpu) Scene.far = (Ok r, s', ev) /\
    GetLength (fst (correspondence_set_ r)) = 0%Z /\
    fitness_ r = 0%float /\
    PrimFloat.is_nan (inlier_rmse_ r) = true /\
    (inlier_rmse_ r =? 0)%float = false /\
    (0 <=? inlier_rmse_ r)%float = false.
Proof.
  eexists _, _, _. split; [vm_compute; reflexivity|]. by vm_compute.
Qed.

(** C2 as stated fails: with max_correspondence_distance 2 > 0 and one
    iteration, HybridIndex is called twice in one run. *)
Lemma C2_counterexample :
  exists r s' ev,
    Scene.icp 2 Scene.once Scene.shifted = (Ok r, s', ev) /\
    (0 <? 2)%float = true /\
    length (debug_log ev) = 1%nat /\
    length (builds ev) = 2%nat /\ length (builds ev) <> 1%nat.
Proof.
  eexists _, _, _. split; [vm_compute; reflexivity|]. by vm_compute.
Qed.

(** C2 (as amended) on the shifted scene. *)
Lemma C2_witness :
  exists r s' ev,
    (0 <? 2)%float = true /\
    Scene.icp 2 Scene.thirty Scene.shifted = (Ok r, s', ev) /\
    exists src tgt l query its,
      Scene.shifted !! Scene.source = Some src /\
      Scene.shifted !! Scene.target = Some tgt /\
      Reference.TransformPoints (GetPoints src)
        (To (Reference.Eye Reference.cpu) (GetDevice src)) = Ok query /\
      ev = NNSConstruct (GetPoints tgt) :: CloneCall Scene.source l
           :: TransformCall l (To (Reference.Eye Reference.cpu) (GetDevice src))
           :: HybridIndexCall (GetPoints tgt) 2 true
           :: Hybrid1NNSearchCall (GetPoints tgt) query 2
           :: run_events l (GetPoints tgt) 2 0 its /\
      (length its <= Z.to_nat (max_iteration_ Scene.thirty))%nat /\
      length (debug_log ev) = length its /\
      constructions ev = [GetPoints tgt] /\
      builds ev = replicate (1 + length its) (2%float, true) /\
      length (searches ev) = (1 + length its)%nat.
Proof.
  eexists _, _, _. split; [reflexivity|]. split; [vm_compute; reflexivity|].
  eapply (C2_index_built_once_per_evaluation (H := Reference.collaborators)
           Scene.source Scene.target 2%float (Reference.Eye Reference.cpu)
           Reference.estimation Scene.thirty Scene.shifted);
    [reflexivity | vm_compute; reflexivity].
Defined.

(** C3 on the shifted scene.  With a fitness threshold of 0, which no
    difference undercuts, the run uses up its budget of three iterations
    and returns; with both thresholds at 0.25 it stops by convergence after
    two of its thirty iterations. *)
Lemma C3_witness :
  (exists r s' ev,
     Scene.icp 2 Cases.strict Scene.shifted = (Ok r, s', ev) /\
     length (debug_log ev) = Z.to_nat (max_iteration_ Cases.strict) /\
     let c := Cases.strict in
     let k := length (debug_log ev) in
     (k <= Z.to_nat (max_iteration_ c))%nat /\
     (forall m, (m < k)%nat ->
        exists r_m ev_m rest,
          Scene.icp 2 (with_max_iteration c (Z.of_nat m)) Scene.shifted
            = (Ok r_m, Scene.shifted, ev_m) /\
          length (debug_log ev_m) = m /\ ev = ev_m ++ rest) /\
     (forall r0, Ok r = Ok r0 ->
        let h := history ev r0 in
        length h = S k /\
        (forall j x, debug_log ev !! j = Some x -> fst x = Z.of_nat j) /\
        (k = 0%nat -> Z.to_nat (max_iteration_ c) = 0%nat) /\
        (forall j p q, h !! j = Some p -> h !! S j = Some q ->
           (abs (fst p - fst q) <? relative_fitness_ c)%float
           && (abs (snd p - snd q) <? relative_rmse_ c)%float = true ->
           S j = k) /\
        (forall j p q, h !! j = Some p -> h !! S j = Some q ->
           (abs (fst p - fst q) <? relative_fitness_ c)%float
           && (abs (snd p - snd q) <? relative_rmse_ c)%float = false ->
           S j = k -> k = Z.to_nat (max_iteration_ c)))) /\
  (exists r s' ev,
     Scene.icp 2 Scene.thirty Scene.shifted = (Ok r, s', ev) /\
     length (debug_log ev) = 2%nat /\
     let c := Scene.thirty in
     let k := length (debug_log ev) in
     (k <= Z.to_nat (max_iteration_ c))%nat /\
     (forall m, (m < k)%nat ->
        exists r_m ev_m rest,
          Scene.icp 2 (with_max_iteration c (Z.of_nat m)) Scene.shifted
            = (Ok r_m, Scene.shifted, ev_m) /\
          length (debug_log ev_m) = m /\ ev = ev_m ++ rest) /\
     (forall r0, Ok r = Ok r0 ->
        let h := history ev r0 in
        length h = S k /\
        (forall j x, debug_log ev !! j = Some x -> fst x = Z.of_nat j) /\
        (k = 0%nat -> Z.to_nat (max_iteration_ c) = 0%nat) /\
        (forall j p q, h !! j = Some p -> h !! S j = Some q ->
           (abs (fst p - fst q) <? relative_fitness_ c)%float
           && (abs (snd p - snd q) <? relative_rmse_ c)%float = true ->
           S j = k) /\
        (forall j p q, h !! j = Some p -> h !! S j = Some q ->
           (abs (fst p - fst q) <? relative_fitness_ c)%float
           && (abs (snd p - snd q) <? relative_rmse_ c)%float = false ->
           S j = k -> k = Z.to_nat (max_iteration_ c)))).
Proof.
  split.
  - eexists _, _, _. split; [vm_compute; reflexivity|]. split; [reflexivity|].
    eapply (C3_loop_termination (H := Reference.collaborators)
              Scene.source Scene.target 2%float (Reference.Eye Reference.cpu)
              Reference.estimation Cases.strict Scene.shifted).
    vm_compute; reflexivity.
  - eexists _, _, _. split; [vm_compute; reflexivity|]. split; [reflexivity|].
    eapply (C3_loop_termination (H := Reference.collaborators)
              Scene.source Scene.target 2%float (Reference.Eye Reference.cpu)
              Reference.estimation Scene.thirty Scene.shifted).
    vm_compute; reflexivity.
Defined.

(** C4 as stated fails: with max_correspondence_distance 0, two Float64
    clouds on the same device and a 4x4 Float64 transformation, inputs of
    one precision throughout, both the evaluation and EvaluateRegistration
    throw instead of returning the zero result. *)
Lemma C4_counterexample :
  exists src tgt,
    Scene.shifted64 !! Scene.source = Some src /\
    Scene.shifted64 !! Scene.target = Some tgt /\
    GetDevice tgt = GetDevice src /\
    dtype_ (GetPoints src) = Float64 /\ dtype_ (GetPoints tgt) = Float64 /\
    dtype_ Scene.Eye64 = Float64 /\ shape_ Scene.Eye64 = [4%Z; 4%Z] /\
    (0 <=? 0)%float = true /\
    @GetRegistrationResultAndCorrespondences Reference.collaborators
      Scene.source Scene.target
      {| dataset_points_ := GetPoints tgt; index_ := None |} 0%float
      Scene.Eye64 Scene.shifted64
    = (Throw (DtypeError Float64 Float32), Scene.shifted64, []) /\
    Scene.evaluate 0 Scene.Eye64 Scene.shifted64
    = (Throw (DtypeError Float64 Float32), Scene.shifted64, []).
Proof.
  eexists _, _. split; [reflexivity|]. split; [reflexivity|].
  do 6 (split; [reflexivity|]). split; by vm_compute.
Qed.

(** C4 (as amended) on the shifted scene, with distance 0. *)
Lemma C4_witness :
  exists src tgt,
    Scene.shifted !! Scene.source = Some src /\
    Scene.shifted !! Scene.target = Some tgt /\
    inputs_ok src tgt (Reference.Eye Reference.cpu) /\
    (0 <=? 0)%float = true /\
    let nns := {| dataset_points_ := GetPoints tgt; index_ := None |} in
    let t := Reference.Eye Reference.cpu in
    let s := Scene.shifted in
    (exists r,
       @GetRegistrationResultAndCorrespondences Reference.collaborators
         Scene.source Scene.target nns 0%float t s = (Ok (r, nns), s, []) /\
       correspondence_set_ r = (Tensor_default, Tensor_default) /\
       GetLength (fst (correspondence_set_ r)) = 0%Z /\
       fitness_ r = 0%float /\ inlier_rmse_ r = 0%float) /\
    (forall r s' ev,
       Scene.evaluate 0 t s = (Ok r, s', ev) ->
       correspondence_set_ r = (Tensor_default, Tensor_default) /\
       fitness_ r = 0%float /\ inlier_rmse_ r = 0%float /\
       builds ev = [] /\ searches ev = []) /\
    (forall pts,
       Reference.TransformPoints (GetPoints src) (To t (GetDevice src)) = Ok pts ->
       dtype_ pts = Float32 ->
       exists r ev, Scene.evaluate 0 t s = (Ok r, s, ev)).
Proof.
  eexists _, _. split; [reflexivity|]. split; [reflexivity|].
  split; [by repeat split|]. split; [reflexivity|].
  eapply (C4_nonpositive_distance_short_circuits (H := Reference.collaborators)
            Scene.source Scene.target);
    [reflexivity | reflexivity | by repeat split | reflexivity].
Defined.

(** C6 on the shifted scene: the first iteration of the loop, then the
    whole run. *)
Lemma C6_witness :
  (exists st st' s1 ev,
     Scene.first_state = Some st /\
     @icp_iteration Reference.collaborators Scene.working Scene.target 2%float
       Reference.estimation 0%Z st Scene.cloned = (Ok st', s1, ev) /\
     exists pc tgt pts update,
       Scene.cloned !! Scene.working = Some pc /\
       Scene.cloned !! Scene.target = Some tgt /\
       compute_ Reference.estimation pc tgt (corres_ st) = Ok update /\
       estimates ev = [update] /\
       Reference.Matmul update (transformation_device_ st)
         = Ok (transformation_device_ st') /\
       transforms ev = [(Scene.working, update)] /\
       Reference.TransformPoints (GetPoints pc) update = Ok pts /\
       s1 = <[Scene.working := {| device_ := device_ pc; points_ := pts |}]>
              Scene.cloned /\
       corres_ st' = correspondence_set_ (result_ st')) /\
  (exists r s' ev,
     Scene.icp 2 Scene.thirty Scene.shifted = (Ok r, s', ev) /\
     exists src l cumulative,
       Scene.shifted !! Scene.source = Some src /\ Scene.shifted !! l = None /\
       clones ev = [(Scene.source, l)] /\
       transforms ev
         = (l, To (Reference.Eye Reference.cpu) (GetDevice src))
           :: map (pair l) (estimates ev) /\
       @compose Reference.collaborators
         (To (Reference.Eye Reference.cpu) (GetDevice src)) (estimates ev)
         = Ok cumulative /\
       transformation_ r =
         (if (2 <=? 0)%float then To cumulative (GetDevice src) else cumulative)).
Proof.
  split.
  - eexists _, _, _, _. split; [vm_compute; reflexivity|].
    split; [vm_compute; reflexivity|].
    eapply (proj1 (C6_incremental_updates (H := Reference.collaborators)
                     Scene.source Scene.target 2%float (Reference.Eye Reference.cpu)
                     Reference.estimation Scene.thirty)).
    vm_compute; reflexivity.
  - eexists _, _, _. split; [vm_compute; reflexivity|].
    eapply (proj2 (C6_incremental_updates (H := Reference.collaborators)
                     Scene.source Scene.target 2%float (Reference.Eye Reference.cpu)
                     Reference.estimation Scene.thirty) Scene.shifted).
    vm_compute; reflexivity.
Defined.

(** C8 with the target on another device. *)
Lemma C8_witness :
  exists src tgt,
    Scene.cross_device !! Scene.source = Some src /\
    Scene.cross_device !! Scene.target = Some tgt /\
    GetDevice tgt <> GetDevice src /\
    exists e,
      Scene.evaluate 2 (Reference.Eye Reference.cpu) Scene.cross_device
        = (Throw e, Scene.cross_device, []) /\
      Scene.icp 2 Scene.thirty Scene.cross_device
        = (Throw e, Scene.cross_device, []).
Proof.
  eexists _, _. split; [reflexivity|]. split; [reflexivity|].
  split; [discriminate|].
  apply (C8_precondition_violation_fails_first (H := Reference.collaborators)
           Scene.source Scene.target 2%float (Reference.Eye Reference.cpu)
           Reference.estimation Scene.thirty Scene.cross_device _ _
           eq_refl eq_refl).
  left. discriminate.
Defined.

(** C9 with Float64 clouds and a Float64 transform. *)
Lemma C9_witness :
  exists src tgt,
    Scene.shifted64 !! Scene.source = Some src /\
    Scene.shifted64 !! Scene.target = Some tgt /\
    dtype_ (GetPoints src) = Float64 /\ dtype_ (GetPoints tgt) = Float64 /\
    dtype_ Scene.Eye64 = Float64 /\
    Scene.evaluate 2 Scene.Eye64 Scene.shifted64
      = (Throw (DtypeError Float64 Float32), Scene.shifted64, []) /\
    @RegistrationICP Reference.collaborators Scene.source Scene.target 2%float
      Scene.Eye64 Reference.estimation Scene.thirty Scene.shifted64
      = (Throw (DtypeError Float64 Float32), Scene.shifted64, []).
Proof.
  eexists _, _. split; [reflexivity|]. split; [reflexivity|].
  do 3 (split; [reflexivity|]).
  apply (C9_float32_only (H := Reference.collaborators)
           Scene.source Scene.target 2%float Scene.Eye64
           Reference.estimation Scene.thirty Scene.shifted64 _ _
           eq_refl eq_refl); reflexivity.
Defined.

(** C10 as stated fails: on the aligned scene the only update is the
    identity, and the returned transformation is init. *)
Lemma C10_counterexample :
  exists r s' ev,
    (1 <= max_iteration_ Scene.thirty)%Z /\
    Scene.icp 2 Scene.thirty Scene.aligned = (Ok r, s', ev) /\
    estimates ev = [Reference.Eye Reference.cpu] /\
    transformation_ r = Reference.Eye Reference.cpu.
Proof.
  eexists _, _, _. split; [by vm_compute|]. split; [vm_compute; reflexivity|].
  by vm_compute.
Qed.

(** C10 (as amended) on the shifted scene with distance 0, where every
    evaluation scores 0 and the break test would pass at once. *)
Lemma C10_witness :
  exists r s' ev,
    (1 <= max_iteration_ Scene.thirty)%Z /\
    Scene.icp 0 Scene.thirty Scene.shifted = (Ok r, s', ev) /\
    exists src update rest cumulative first,
      Scene.shifted !! Scene.source = Some src /\
      debug_log ev !! 0%nat = Some (0%Z, first) /\
      estimates ev = update :: rest /\
      @compose Reference.collaborators (To (Reference.Eye Reference.cpu) (GetDevice src)) (update :: rest)
        = Ok cumulative /\
      transformation_ r =
        (if (0 <=? 0)%float then To cumulative (GetDevice src) else cumulative).
Proof.
  eexists _, _, _. split; [by vm_compute|]. split; [vm_compute; reflexivity|].
  eapply (C10_first_iteration_always_runs (H := Reference.collaborators)
            Scene.source Scene.target 0%float (Reference.Eye Reference.cpu)
            Reference.estimation Scene.thirty Scene.shifted).
  - by vm_compute.
  - vm_compute; reflexivity.
Defined.

(** ** Further properties of Registration.cpp *)

Section More.

Context `{Collaborators}.

Lemma To_To t d : To (To t d) d = To t d.
Proof. reflexivity. Qed.

(** No absolute value is below a threshold that is 0, negative or NaN. *)
Lemma abs_not_below (x b : float) :
  (0 <? b)%float = false -> (abs x <? b)%float = false.
Proof.
  rewrite !FloatAxioms.ltb_spec, FloatAxioms.abs_spec.
  replace (Prim2SF 0) with (S754_zero false) by reflexivity.
  destruct (Prim2SF x) as [[|]|[|]| |[|] m e];
    destruct (Prim2SF b) as [[|]|[|]| |[|] m' e']; cbn; try done.
Qed.

(** Every iteration ends with an evaluation, and its result is the
    iteration's result. *)
Lemma icp_iteration_evaluation l target d estimation i st s st' s' ev :
  icp_iteration l target d estimation i st s = (Ok st', s', ev) ->
  exists t ev1,
    GetRegistrationResultAndCorrespondences l target (target_nns_ st) d t s'
      = (Ok (result_ st', target_nns_ st'), s', ev1).
Proof.
  unfold icp_iteration. intros Hrun.
  apply bind_Ok in Hrun as ([] & s1 & ev1 & ev2 & H1 & Hrun & ->).
  apply emit_Ok in H1 as (-> & ->).
  apply bind_Ok in Hrun as (update & s1 & ev1 & ev3 & H1 & Hrun & ->).
  apply ComputeTransformation_Ok in H1 as (pc & tgt & Hl & Ht & Hu & -> & ->).
  apply bind_Ok in Hrun as (td & s1 & ev1 & ev4 & H1 & Hrun & ->).
  apply lift_Ok in H1 as (Hmm & -> & ->).
  apply bind_Ok in Hrun as ([] & s1 & ev1 & ev5 & H1 & Hrun & ->).
  apply Transform_Ok in H1 as (pc' & pts & Hl' & Hpts & -> & ->).
  apply bind_Ok in Hrun as ([r nns] & s1 & ev1 & ev6 & H1 & Hrun & ->).
  pose proof (read_only_GetRegistrationResultAndCorrespondences _ _ _ _ _ _ _ _ _ H1)
    as [-> _].
  apply ret_Ok in Hrun as (-> & -> & ->).
  by exists td, ev1.
Qed.

(** What holds of every result of an evaluation holds of the result the
    loop ends with. *)
Lemma icp_loop_result (P : RegistrationResult -> Prop) l target d estimation c n :
  (forall nns t s r nns' s' ev,
     GetRegistrationResultAndCorrespondences l target nns d t s
       = (Ok (r, nns'), s', ev) -> P r) ->
  forall i st s st' s' ev,
    icp_loop l target d estimation c n i st s = (Ok st', s', ev) ->
    P (result_ st) -> P (result_ st').
Proof.
  intros HP. induction n as [|n IH]; intros i st s st' s' ev Hrun Hst.
  - by apply ret_Ok in Hrun as (-> & _).
  - apply icp_loop_S_Ok in Hrun as (st1 & s1 & ev1 & ev2 & Hit & -> & Hrest).
    apply icp_iteration_evaluation in Hit as (t & ev3 & Heval).
    apply HP in Heval.
    destruct Hrest as [(_ & -> & _)|(_ & Hrun)]; [done|]. by eapply IH.
Qed.

Lemma EvaluateRegistration_result (P : RegistrationResult -> Prop) source target d t s r s' ev :
  (forall l nns t s r nns' s' ev,
     GetRegistrationResultAndCorrespondences l target nns d t s
       = (Ok (r, nns'), s', ev) -> P r) ->
  EvaluateRegistration source target d t s = (Ok r, s', ev) -> P r.
Proof.
  intros HP. unfold EvaluateRegistration. intros Hrun.
  apply bind_Ok in Hrun as (td & s1 & ev1 & ev2 & _ & Hrun & _).
  apply bind_Ok in Hrun as (tgt & s2 & ev3 & ev4 & _ & Hrun & _).
  apply bind_Ok in Hrun as (nns & s3 & ev5 & ev6 & _ & Hrun & _).
  unfold with_Clone in Hrun. destruct (s3 !! source) as [pc|]; [|done].
  destruct (bind _ _ _) as [[r1 s4] ev7] eqn:Hbody. injection Hrun as -> _ _.
  apply bind_Ok in Hbody as ([] & s5 & ev8 & ev9 & _ & Hbody & _).
  apply bind_Ok in Hbody as ([r2 nns2] & s6 & ev10 & ev11 & Heval & Hbody & _).
  apply ret_Ok in Hbody as (-> & _). by eapply HP.
Qed.

Lemma RegistrationICP_result (P : RegistrationResult -> Prop) source target d init
    estimation c s r s' ev :
  (forall l nns t s r nns' s' ev,
     GetRegistrationResultAndCorrespondences l target nns d t s
       = (Ok (r, nns'), s', ev) -> P r) ->
  RegistrationICP source target d init estimation c s = (Ok r, s', ev) -> P r.
Proof.
  intros HP. unfold RegistrationICP. intros Hrun.
  apply bind_Ok in Hrun as (td & s1 & ev1 & ev2 & _ & Hrun & _).
  apply bind_Ok in Hrun as (tgt & s2 & ev3 & ev4 & _ & Hrun & _).
  apply bind_Ok in Hrun as (nns & s3 & ev5 & ev6 & _ & Hrun & _).
  unfold with_Clone in Hrun. destruct (s3 !! source) as [pc|]; [|done].
  destruct (bind _ _ _) as [[r1 s4] ev7] eqn:Hbody. injection Hrun as -> _ _.
  apply bind_Ok in Hbody as ([] & s5 & ev8 & ev9 & _ & Hbody & _).
  apply bind_Ok in Hbody as ([r2 nns2] & s6 & ev10 & ev11 & Heval & Hbody & _).
  apply bind_Ok in Hbody as (st' & s7 & ev12 & ev13 & Hloop & Hbody & _).
  apply ret_Ok in Hbody as (-> & _).
  eapply icp_loop_result; [intros; by eapply HP|exact Hloop|].
  cbn. by eapply HP.
Qed.

(** X1: when the distance is positive (not <= 0) and the returned
    correspondence set is empty, the inlier_rmse of the result is never 0,
    for the evaluation and for both entry points. *)
Theorem X1_no_inliers_rmse_never_zero source target d t estimation c s r s' ev :
  (d <=? 0)%float = false ->
  EvaluateRegistration source target d t s = (Ok r, s', ev) \/
  RegistrationICP source target d t estimation c s = (Ok r, s', ev) ->
  GetLength (fst (correspondence_set_ r)) = 0%Z ->
  (inlier_rmse_ r =? 0)%float = false.
Proof.
  intros Hd Hrun.
  set (P := fun r => GetLength (fst (correspondence_set_ r)) = 0%Z ->
                     (inlier_rmse_ r =? 0)%float = false).
  assert (HP : forall l nns t s r nns' s' ev,
             GetRegistrationResultAndCorrespondences l target nns d t s
               = (Ok (r, nns'), s', ev) -> P r).
  { intros l nns t0 s0 r0 nns' s0' ev0 Heval Hlen.
    by eapply GetRegistrationResultAndCorrespondences_no_inliers. }
  destruct Hrun as [Hrun|Hrun].
  - exact (EvaluateRegistration_result P _ _ _ _ _ _ _ _ HP Hrun).
  - exact (RegistrationICP_result P _ _ _ _ _ _ _ _ _ _ HP Hrun).
Qed.

(** The two entry points share their opening: checks, index object, clone,
    Transform by the transformation moved to the source's device. *)
Lemma entry_prefix {A} source target t s src tgt pts
    (k : Tensor -> NearestNeighborSearch -> loc -> M A) :
  s !! source = Some src -> s !! target = Some tgt -> inputs_ok src tgt t ->
  TransformPoints (GetPoints src) (To t (GetDevice src)) = Ok pts ->
  let l := fresh (dom s) in
  let s1 := <[l := {| device_ := device_ src; points_ := pts |}]> (<[l := src]> s) in
  s1 !! l = Some {| device_ := device_ src; points_ := pts |} /\
  s1 !! target = Some tgt /\
  delete l s1 = s /\
  forall r s2 ev2,
    k (To t (GetDevice src)) {| dataset_points_ := GetPoints tgt; index_ := None |} l s1
      = (r, s2, ev2) ->
    (let* transformation_device := check_inputs source target t in
     let* tgt := deref target in
     let* target_nns := NearestNeighborSearch_new (GetPoints tgt) in
     with_Clone source (fun source_transformed =>
       let* _ := Transform source_transformed transformation_device in
       k transformation_device target_nns source_transformed)) s
    = (r, delete l s2,
       NNSConstruct (GetPoints tgt) :: CloneCall source l
       :: TransformCall l (To t (GetDevice src)) :: ev2).
Proof.
  intros Hs Ht Hok Hpts l s1.
  assert (Hfresh : s !! l = None) by apply not_elem_of_dom, is_fresh.
  assert (Hne : l <> target) by congruence.
  split; [apply lookup_insert_eq|].
  split; [subst s1; by rewrite !lookup_insert_ne|].
  split; [subst s1; rewrite delete_insert_eq, delete_insert_eq; by apply delete_id|].
  intros r s2 ev2 Hk. unfold bind at 1.
  rewrite (check_inputs_pass _ _ _ _ _ _ Hs Ht Hok).
  unfold bind at 1, deref. rewrite Ht.
  unfold bind at 1, NearestNeighborSearch_new, bind at 1, emit, ret, with_Clone.
  rewrite Hs. fold l.
  unfold bind at 1, Transform. rewrite lookup_insert_eq, Hpts. fold s1.
  by rewrite Hk.
Qed.

(** X2: a failed index build is reported by an exception before any search:
    with inputs that pass the checks and a positive distance, the evaluation
    throws the "Index is not set" error right after the HybridIndex call, and
    so do both entry points, once they have cloned and transformed the
    source; the caller's store is unchanged. *)
Theorem X2_failed_build_throws source target nns d t estimation c s src tgt pts :
  s !! source = Some src -> s !! target = Some tgt -> inputs_ok src tgt t ->
  (d <=? 0)%float = false ->
  BuildIndex (dataset_points_ nns) d = None ->
  BuildIndex (GetPoints tgt) d = None ->
  TransformPoints (GetPoints src) (To t (GetDevice src)) = Ok pts ->
  dtype_ pts = Float32 ->
  let e := RuntimeError "[Tensor: EvaluateRegistration: GetRegistrationResultAndCorrespondences: NearestNeighborSearch::HybridSearch] Index is not set." in
  let l := fresh (dom s) in
  let ev := [NNSConstruct (GetPoints tgt); CloneCall source l;
             TransformCall l (To t (GetDevice src));
             HybridIndexCall (GetPoints tgt) d false] in
  GetRegistrationResultAndCorrespondences source target nns d t s
    = (Throw e, s, [HybridIndexCall (dataset_points_ nns) d false]) /\
  EvaluateRegistration source target d t s = (Throw e, s, ev) /\
  RegistrationICP source target d t estimation c s = (Throw e, s, ev).
Proof.
  intros Hs Ht Hok Hd Hnns Htgt Hpts Hdt e l ev.
  assert (Heval : forall source nns s src t',
            s !! source = Some src -> s !! target = Some tgt ->
            inputs_ok src tgt t' ->
            BuildIndex (dataset_points_ nns) d = None ->
            GetRegistrationResultAndCorrespondences source target nns d t' s
              = (Throw e, s, [HybridIndexCall (dataset_points_ nns) d false])).
  { intros source0 nns0 s0 src0 t' Hs0 Ht0 Hok' Hb.
    unfold GetRegistrationResultAndCorrespondences, bind at 1.
    rewrite (check_inputs_pass _ _ _ _ _ _ Hs0 Ht0 Hok'). rewrite Hd.
    unfold bind at 1, HybridIndex. by rewrite Hb. }
  split; [by apply (Heval source nns s src t)|].
  assert (Hok1 : inputs_ok {| device_ := device_ src; points_ := pts |} tgt
                   (To t (GetDevice src))).
  { destruct Hok as (H1 & H2 & H3 & H4 & H5). by repeat split. }
  split.
  - unfold EvaluateRegistration.
    destruct (entry_prefix source target t s src tgt pts
      (fun transformation_device target_nns source_transformed =>
         let* (result, _) :=
           GetRegistrationResultAndCorrespondences source_transformed target
             target_nns d transformation_device in
         ret result) Hs Ht Hok Hpts) as (Hl & Htg & Hstore & Hrun).
    etrans; [apply Hrun|by rewrite Hstore].
    unfold bind at 1.
    by rewrite (Heval _ {| dataset_points_ := GetPoints tgt; index_ := None |}
                  _ _ _ Hl Htg Hok1 Htgt).
  - unfold RegistrationICP.
    destruct (entry_prefix source target t s src tgt pts
      (fun transformation_device target_nns source_transformed =>
         let* (result, target_nns) :=
           GetRegistrationResultAndCorrespondences source_transformed target
             target_nns d transformation_device in
         let* st :=
           icp_loop source_transformed target d estimation c
             (Z.to_nat (max_iteration_ c)) 0%Z
             {| transformation_device_ := transformation_device; result_ := result;
                corres_ := correspondence_set_ result; target_nns_ := target_nns |} in
         ret (result_ st)) Hs Ht Hok Hpts) as (Hl & Htg & Hstore & Hrun).
    etrans; [apply Hrun|by rewrite Hstore].
    unfold bind at 1.
    by rewrite (Heval _ {| dataset_points_ := GetPoints tgt; index_ := None |}
                  _ _ _ Hl Htg Hok1 Htgt).
Qed.

(** X3: when the checks fail, the exception is that of the first failing
    check in the order of the source: dtype of the source points, dtype of
    the target points, devices, shape of the transformation, dtype of the
    transformation; the three functions agree on it. *)
Theorem X3_first_failed_check_is_reported source target nns d t estimation c s src tgt :
  s !! source = Some src -> s !! target = Some tgt -> ~ inputs_ok src tgt t ->
  let e :=
    if decide (dtype_ (GetPoints src) <> Float32)
    then DtypeError (dtype_ (GetPoints src)) Float32
    else if decide (dtype_ (GetPoints tgt) <> Float32)
    then DtypeError (dtype_ (GetPoints tgt)) Float32
    else if decide (GetDevice tgt <> GetDevice src)
    then RuntimeError "Target Pointcloud device {} != Source Pointcloud's device {}."
    else if decide (shape_ t <> [4%Z; 4%Z])
    then ShapeError (shape_ t) [4%Z; 4%Z]
    else DtypeError (dtype_ t) Float32 in
  GetRegistrationResultAndCorrespondences source target nns d t s = (Throw e, s, []) /\
  EvaluateRegistration source target d t s = (Throw e, s, []) /\
  RegistrationICP source target d t estimation c s = (Throw e, s, []).
Proof.
  intros Hs Ht Hno e.
  assert (He : check_inputs source target t s = (Throw e, s, [])).
  { subst e. unfold check_inputs, bind, deref, AssertDtype, AssertShape, LogError,
      throw, ret.
    rewrite Hs. cbn.
    destruct (decide (dtype_ (GetPoints src) = Float32)) as [H1|H1];
      [rewrite (decide_False (P := _ <> _)) by tauto
      |by rewrite (decide_True (P := _ <> _)) by done].
    cbn. rewrite Ht. cbn.
    destruct (decide (dtype_ (GetPoints tgt) = Float32)) as [H2|H2];
      [rewrite (decide_False (P := dtype_ (GetPoints tgt) <> _)) by tauto
      |by rewrite (decide_True (P := dtype_ (GetPoints tgt) <> _)) by done].
    cbn. destruct (decide (GetDevice tgt <> GetDevice src)) as [H3|H3]; [done|].
    cbn. destruct (decide (shape_ t = [4%Z; 4%Z])) as [H4|H4];
      [rewrite (decide_False (P := shape_ t <> _)) by tauto
      |by rewrite (decide_True (P := shape_ t <> _)) by done].
    cbn. destruct (decide (dtype_ t = Float32)) as [H5|H5]; [|done].
    destruct Hno. unfold inputs_ok.
    destruct (decide (GetDevice tgt = GetDevice src)); tauto. }
  unfold GetRegistrationResultAndCorrespondences, EvaluateRegistration,
    RegistrationICP, bind. by rewrite He.
Qed.

(** X4: whatever the distance, the result of EvaluateRegistration carries
    the caller's transformation moved to the device of the source: same
    shape, dtype and entries. *)
Theorem X4_evaluation_reports_moved_transformation source target d t s r s' ev :
  EvaluateRegistration source target d t s = (Ok r, s', ev) ->
  exists src,
    s !! source = Some src /\
    transformation_ r = To t (GetDevice src) /\
    shape_ (transformation_ r) = shape_ t /\
    dtype_ (transformation_ r) = dtype_ t /\
    data_ (transformation_ r) = data_ t /\
    tdevice_ (transformation_ r) = GetDevice src.
Proof.
  intros Hrun.
  apply EvaluateRegistration_Ok in Hrun
    as (src & tgt & l & pts & Hs & _ & _ & _ & _ & _ & Htr & _).
  exists src. split; [done|].
  assert (Heq : transformation_ r = To t (GetDevice src))
    by (rewrite Htr; by destruct (d <=? 0)%float).
  by rewrite Heq.
Qed.

(** X5: a max_iteration_ that is 0 or negative never enters the loop:
    RegistrationICP is then EvaluateRegistration of init. *)
Theorem X5_nonpositive_bound_is_evaluation source target d init estimation c s :
  (max_iteration_ c <= 0)%Z ->
  RegistrationICP source target d init estimation c s
  = EvaluateRegistration source target d init s.
Proof.
  intros Hmax. unfold RegistrationICP, EvaluateRegistration.
  apply bind_ext. intros td s1.
  apply bind_ext. intros tgt s2.
  apply bind_ext. intros nns s3.
  apply with_Clone_ext. intros l s4.
  apply bind_ext. intros _ s5.
  apply bind_ext. intros [r nns'] s6.
  replace (Z.to_nat (max_iteration_ c)) with 0%nat by lia. cbn [icp_loop].
  by rewrite bind_ret_l.
Qed.

Lemma run_shape_never_stops c n h :
  (forall p q, stops c p q = false) -> run_shape c n h -> length h = S n.
Proof.
  intros Hno. induction 1 as [p|n p q Hc|n p q h Hc Hrun IH]; [done| |].
  - by rewrite Hno in Hc.
  - cbn in *. by rewrite IH.
Qed.

(** X6: a threshold that is 0, negative or NaN is never undercut, so the
    loop cannot stop early: a RegistrationICP run that returns has then gone
    through exactly max_iteration_ iterations. *)
Theorem X6_unreachable_threshold_runs_all_iterations source target d init estimation c s r s' ev :
  (0 <? relative_fitness_ c)%float = false \/ (0 <? relative_rmse_ c)%float = false ->
  RegistrationICP source target d init estimation c s = (Ok r, s', ev) ->
  length (debug_log ev) = Z.to_nat (max_iteration_ c) /\
  length (estimates ev) = Z.to_nat (max_iteration_ c).
Proof.
  intros Hth Hrun.
  assert (Hno : forall p q, stops c p q = false).
  { intros p q. unfold stops, converged. destruct Hth as [Hth|Hth].
    - by rewrite (abs_not_below _ _ Hth).
    - rewrite (abs_not_below _ _ Hth). apply andb_false_r. }
  apply RegistrationICP_Ok in Hrun
    as (src & tgt & l & pts & st0 & st' & s1 & s2 & ev_loop & Hs & Ht & _ & _ & _
        & Hl & _ & _ & _ & Hloop & -> & ->).
  destruct (icp_loop_trace _ _ _ _ _ _ _ _ _ _ _ _ _ Hloop Hl)
    as (_ & _ & _ & _ & _ & _ & Hlen & _).
  destruct (icp_loop_history _ _ _ _ _ _ _ _ _ _ _ _ Hloop) as (h0 & Hh & Hshape).
  apply (run_shape_never_stops _ _ _ Hno) in Hshape. rewrite <- Hh in Hshape.
  unfold history in Hshape. rewrite length_app, length_map in Hshape. cbn in Hshape.
  destruct (evaluation_events_projections (GetPoints tgt) d pts) as (_ & _ & _ & Ee & Ed & _).
  unfold debug_log, estimates in *. cbn. rewrite !omap_app, Ee, Ed. cbn.
  rewrite Hlen. lia.
Qed.

(** X7: with max_correspondence_distance <= 0, positive thresholds and
    max_iteration_ >= 1, a RegistrationICP run that returns has gone
    through exactly one iteration, without ever building or searching the
    index, and its result has an empty correspondence set, fitness 0 and
    inlier_rmse 0. *)
Theorem X7_nonpositive_distance_icp source target d init estimation c s r s' ev :
  (d <=? 0)%float = true ->
  (0 <? relative_fitness_ c)%float = true -> (0 <? relative_rmse_ c)%float = true ->
  (1 <= max_iteration_ c)%Z ->
  RegistrationICP source target d init estimation c s = (Ok r, s', ev) ->
  length (debug_log ev) = 1%nat /\ length (estimates ev) = 1%nat /\
  builds ev = [] /\ searches ev = [] /\
  correspondence_set_ r = (Tensor_default, Tensor_default) /\
  fitness_ r = 0%float /\ inlier_rmse_ r = 0%float.
Proof.
  intros Hd Hrf Hrr Hmax Hrun.
  apply RegistrationICP_Ok in Hrun
    as (src & tgt & l & pts & st0 & st' & s1 & s2 & ev_loop & Hs & Ht & _ & _ & _
        & Hl & _ & _ & Hr0 & Hloop & -> & ->).
  specialize (Hr0 Hd).
  destruct (Z.to_nat (max_iteration_ c)) as [|n] eqn:Hn; [lia|].
  apply icp_loop_S_Ok in Hloop as (st1 & s3 & ev1 & ev2 & Hit & -> & Hrest).
  pose proof Hit as Heval.
  apply icp_iteration_evaluation in Heval as (t1 & ev3 & Heval).
  apply GetRegistrationResultAndCorrespondences_Ok in Heval
    as (src1 & tgt1 & _ & _ & _ & _ & _ & _ & Hr1 & _).
  destruct (Hr1 Hd) as [Hr1' _].
  apply icp_iteration_Ok in Hit
    as (pc0 & pts1 & update & _ & _ & _ & _ & -> & _ & _).
  assert (Hstop : stops c (score (result_ st0)) (score (result_ st1)) = true).
  { rewrite Hr0, Hr1'. unfold stops, converged, score. cbn.
    change (abs (0 - 0))%float with 0%float. by rewrite Hrf, Hrr. }
  destruct Hrest as [(_ & -> & _ & ->)|(Hcontra & _)]; [|congruence].
  destruct (evaluation_events_projections (GetPoints tgt) d pts) as (_ & _ & _ & Ee & Ed & Eb & Es).
  destruct (evaluation_events_projections (dataset_points_ (target_nns_ st0)) d pts1)
    as (_ & _ & _ & Ee1 & Ed1 & Eb1 & Es1).
  rewrite Hr1'. unfold debug_log, estimates, builds, searches in *. cbn.
  rewrite !omap_app, Ee, Ed, Eb, Es. cbn. rewrite !omap_app, Ee1, Ed1, Eb1, Es1, Hd.
  done.
Qed.

(** X8: the calls of an EvaluateRegistration that returns: one index object
    over the target's points, one clone of the source, one Transform of that
    clone by the transformation moved to the source's device, and, when the
    distance is positive, one build and one search whose query is the
    transformed clone, not the caller's source. *)
Theorem X8_evaluation_call_sequence source target d t s r s' ev :
  EvaluateRegistration source target d t s = (Ok r, s', ev) ->
  exists src tgt l pts,
    s !! source = Some src /\ s !! target = Some tgt /\ s !! l = None /\
    TransformPoints (GetPoints src) (To t (GetDevice src)) = Ok pts /\
    constructions ev = [GetPoints tgt] /\
    clones ev = [(source, l)] /\
    transforms ev = [(l, To t (GetDevice src))] /\
    estimates ev = [] /\
    builds ev = (if (d <=? 0)%float then [] else [(d, true)]) /\
    searches ev = (if (d <=? 0)%float then [] else [(pts, d)]).
Proof.
  intros Hrun.
  apply EvaluateRegistration_Ok in Hrun
    as (src & tgt & l & pts & Hs & Ht & _ & Hl & Hpts & -> & _).
  exists src, tgt, l, pts.
  destruct (evaluation_events_projections (GetPoints tgt) d pts) as (Ec & Ecl & Et & Ee & _ & Eb & Es).
  unfold constructions, clones, transforms, estimates, builds, searches in *. cbn.
  by rewrite Ec, Ecl, Et, Ee, Eb, Es.
Qed.

End More.

(** X1 on the far scene. *)
Lemma X1_witness :
  exists r s' ev,
    (1 <=? 0)%float = false /\
    Scene.evaluate 1 (Reference.Eye Reference.cpu) Scene.far = (Ok r, s', ev) /\
    GetLength (fst (correspondence_set_ r)) = 0%Z /\
    (inlier_rmse_ r =? 0)%float = false.
Proof.
  eexists _, _, _. split; [reflexivity|]. split; [vm_compute; reflexivity|].
  split; [reflexivity|].
  eapply (X1_no_inliers_rmse_never_zero (H := Reference.collaborators)
            Scene.source Scene.target 1%float (Reference.Eye Reference.cpu)
            Reference.estimation Scene.thirty Scene.far);
    [reflexivity | left; vm_compute; reflexivity | reflexivity].
Defined.

(** X2 on a scene whose target has no points, where the reference index
    cannot be built. *)
Lemma X2_witness :
  exists src tgt pts,
    Cases.no_target !! Scene.source = Some src /\
    Cases.no_target !! Scene.target = Some tgt /\
    inputs_ok src tgt (Reference.Eye Reference.cpu) /\
    (1 <=? 0)%float = false /\
    Reference.BuildIndex (GetPoints tgt) 1 = None /\
    Reference.TransformPoints (GetPoints src)
      (To (Reference.Eye Reference.cpu) (GetDevice src)) = Ok pts /\
    dtype_ pts = Float32 /\
    let e := RuntimeError "[Tensor: EvaluateRegistration: GetRegistrationResultAndCorrespondences: NearestNeighborSearch::HybridSearch] Index is not set." in
    let l := fresh (dom Cases.no_target) in
    let ev := [NNSConstruct (GetPoints tgt); CloneCall Scene.source l;
               TransformCall l (To (Reference.Eye Reference.cpu) (GetDevice src));
               HybridIndexCall (GetPoints tgt) 1 false] in
    @GetRegistrationResultAndCorrespondences Reference.collaborators
      Scene.source Scene.target
      {| dataset_points_ := GetPoints tgt; index_ := None |} 1%float
      (Reference.Eye Reference.cpu) Cases.no_target
      = (Throw e, Cases.no_target, [HybridIndexCall (GetPoints tgt) 1 false]) /\
    Scene.evaluate 1 (Reference.Eye Reference.cpu) Cases.no_target
      = (Throw e, Cases.no_target, ev) /\
    Scene.icp 1 Scene.thirty Cases.no_target = (Throw e, Cases.no_target, ev).
Proof.
  eexists _, _, _. split; [reflexivity|]. split; [reflexivity|].
  split; [by repeat split|]. split; [reflexivity|]. split; [reflexivity|].
  split; [vm_compute; reflexivity|]. split; [reflexivity|].
  eapply (X2_failed_build_throws (H := Reference.collaborators)
            Scene.source Scene.target);
    [reflexivity | reflexivity | by repeat split | reflexivity | reflexivity
    | reflexivity | vm_compute; reflexivity | reflexivity].
Defined.

(** X3 with the target on another device and a Float64 transformation: the
    device check comes first. *)
Lemma X3_witness :
  exists src tgt,
    Scene.cross_device !! Scene.source = Some src /\
    Scene.cross_device !! Scene.target = Some tgt /\
    ~ inputs_ok src tgt Scene.Eye64 /\
    let e := RuntimeError "Target Pointcloud device {} != Source Pointcloud's device {}." in
    @GetRegistrationResultAndCorrespondences Reference.collaborators
      Scene.source Scene.target
      {| dataset_points_ := GetPoints tgt; index_ := None |} 2%float
      Scene.Eye64 Scene.cross_device
      = (Throw e, Scene.cross_device, []) /\
    Scene.evaluate 2 Scene.Eye64 Scene.cross_device
      = (Throw e, Scene.cross_device, []) /\
    @RegistrationICP Reference.collaborators Scene.source Scene.target 2%float
      Scene.Eye64 Reference.estimation Scene.thirty Scene.cross_device
      = (Throw e, Scene.cross_device, []).
Proof.
  eexists _, _. split; [reflexivity|]. split; [reflexivity|].
  split; [by intros (_ & _ & _ & _ & ?)|].
  apply (X3_first_failed_check_is_reported (H := Reference.collaborators)
           Scene.source Scene.target _ 2%float Scene.Eye64 Reference.estimation
           Scene.thirty Scene.cross_device _ _ eq_refl eq_refl).
  by intros (_ & _ & _ & _ & ?).
Defined.

(** X6 on the shifted scene with a fitness threshold of 0: all three
    iterations run. *)
Lemma X6_witness :
  exists r s' ev,
    ((0 <? relative_fitness_ Cases.strict)%float = false \/
     (0 <? relative_rmse_ Cases.strict)%float = false) /\
    Scene.icp 2 Cases.strict Scene.shifted = (Ok r, s', ev) /\
    length (debug_log ev) = Z.to_nat (max_iteration_ Cases.strict) /\
    length (estimates ev) = Z.to_nat (max_iteration_ Cases.strict).
Proof.
  eexists _, _, _. split; [left; reflexivity|]. split; [vm_compute; reflexivity|].
  eapply (X6_unreachable_threshold_runs_all_iterations (H := Reference.collaborators)
            Scene.source Scene.target 2%float (Reference.Eye Reference.cpu)
            Reference.estimation Cases.strict Scene.shifted);
    [left; reflexivity | vm_compute; reflexivity].
Defined.

(** X5 with a bound of -3. *)
Lemma X5_witness :
  (max_iteration_ Cases.negative <= 0)%Z /\
  Scene.icp 2 Cases.negative Scene.shifted
  = Scene.evaluate 2 (Reference.Eye Reference.cpu) Scene.shifted.
Proof.
  split; [by vm_compute|].
  apply (X5_nonpositive_bound_is_evaluation (H := Reference.collaborators)).
  by vm_compute.
Defined.

(** X4 on the shifted scene. *)
Lemma X4_witness :
  exists r s' ev,
    Scene.evaluate 2 (Reference.Eye Reference.cpu) Scene.shifted = (Ok r, s', ev) /\
    exists src,
      Scene.shifted !! Scene.source = Some src /\
      transformation_ r = To (Reference.Eye Reference.cpu) (GetDevice src) /\
      shape_ (transformation_ r) = shape_ (Reference.Eye Reference.cpu) /\
      dtype_ (transformation_ r) = dtype_ (Reference.Eye Reference.cpu) /\
      data_ (transformation_ r) = data_ (Reference.Eye Reference.cpu) /\
      tdevice_ (transformation_ r) = GetDevice src.
Proof.
  eexists _, _, _. split; [vm_compute; reflexivity|].
  eapply (X4_evaluation_reports_moved_transformation (H := Reference.collaborators)
            Scene.source Scene.target 2%float (Reference.Eye Reference.cpu)
            Scene.shifted).
  vm_compute; reflexivity.
Defined.

(** X7 on the shifted scene with distance 0. *)
Lemma X7_witness :
  exists r s' ev,
    (0 <=? 0)%float = true /\
    (0 <? relative_fitness_ Scene.thirty)%float = true /\
    (0 <? relative_rmse_ Scene.thirty)%float = true /\
    (1 <= max_iteration_ Scene.thirty)%Z /\
    Scene.icp 0 Scene.thirty Scene.shifted = (Ok r, s', ev) /\
    length (debug_log ev) = 1%nat /\ length (estimates ev) = 1%nat /\
    builds ev = [] /\ searches ev = [] /\
    correspondence_set_ r = (Tensor_default, Tensor_default) /\
    fitness_ r = 0%float /\ inlier_rmse_ r = 0%float.
Proof.
  eexists _, _, _. do 3 (split; [reflexivity|]). split; [by vm_compute|].
  split; [vm_compute; reflexivity|].
  eapply (X7_nonpositive_distance_icp (H := Reference.collaborators)
            Scene.source Scene.target 0%float (Reference.Eye Reference.cpu)
            Reference.estimation Scene.thirty Scene.shifted);
    [reflexivity | reflexivity | reflexivity | by vm_compute
    | vm_compute; reflexivity].
Defined.

(** X8 on the shifted scene. *)
Lemma X8_witness :
  exists r s' ev,
    Scene.evaluate 2 (Reference.Eye Reference.cpu) Scene.shifted = (Ok r, s', ev) /\
    exists src tgt l pts,
      Scene.shifted !! Scene.source = Some src /\
      Scene.shifted !! Scene.target = Some tgt /\ Scene.shifted !! l = None /\
      Reference.TransformPoints (GetPoints src)
        (To (Reference.Eye Reference.cpu) (GetDevice src)) = Ok pts /\
      constructions ev = [GetPoints tgt] /\
      clones ev = [(Scene.source, l)] /\
      transforms ev = [(l, To (Reference.Eye Reference.cpu) (GetDevice src))] /\
      estimates ev = [] /\
      builds ev = (if (2 <=? 0)%float then [] else [(2%float, true)]) /\
      searches ev = (if (2 <=? 0)%float then [] else [(pts, 2%float)]).
Proof.
  eexists _, _, _. split; [vm_compute; reflexivity|].
  eapply (X8_evaluation_call_sequence (H := Reference.collaborators)
            Scene.source Scene.target 2%float (Reference.Eye Reference.cpu)
            Scene.shifted).
  vm_compute; reflexivity.
Defined.

(** ** The slot allocator *)

Section KvPairFacts.

Import KvPair.

Lemma int_of_int64_id (z : Z) :
  (-2147483648 <= z < 2147483648)%Z -> int_of_int64 z = z.
Proof. intros Hz. unfold int_of_int64. rewrite Z.mod_small; lia. Qed.

Lemma elem_of_grid blocks threads b t :
  (b, t) ∈ grid blocks threads <-> (0 <= b < blocks)%Z /\ (0 <= t < threads)%Z.
Proof.
  unfold grid. rewrite list_elem_of_In, in_flat_map. split.
  - intros (b' & Hb & Ht). apply list_elem_of_In, elem_of_seqZ in Hb.
    apply in_map_iff in Ht as (t' & [= <- <-] & Ht).
    apply list_elem_of_In, elem_of_seqZ in Ht. lia.
  - intros [Hb Ht]. exists b. split.
    + apply list_elem_of_In, elem_of_seqZ. lia.
    + apply in_map_iff. exists t. split; [done|].
      apply list_elem_of_In, elem_of_seqZ. lia.
Qed.

Lemma Reset_threads_spec threads l :
  (0 <= threads)%Z ->
  Forall (fun bt => (0 <= fst bt)%Z /\ (0 <= snd bt)%Z) l ->
  forall ctx,
    let ctx' :=
      foldl (fun ctx bt =>
               ResetInternalKvPairManagerKernel (fst bt) threads (snd bt) ctx) ctx l in
    max_capacity_ ctx' = max_capacity_ ctx /\
    heap_counter_ ctx' = heap_counter_ ctx /\
    dsize_key_ ctx' = dsize_key_ ctx /\ dsize_value_ ctx' = dsize_value_ ctx /\
    length (heap_ ctx') = length (heap_ ctx) /\
    (forall i, heap_ ctx !! i = Some (Z.of_nat i) ->
       heap_ ctx' !! i = Some (Z.of_nat i)) /\
    (forall b t, (b, t) ∈ l ->
       (b * threads + t < max_capacity_ ctx)%Z ->
       (Z.to_nat (b * threads + t) < length (heap_ ctx))%nat ->
       heap_ ctx' !! Z.to_nat (b * threads + t) = Some (b * threads + t)%Z).
Proof.
  intros Hth. induction 1 as [|[b t] l [Hb Ht] Hl IH]; intros ctx; cbn.
  - split_and!; try done. intros b t Hin. by apply elem_of_nil in Hin.
  - set (ctx1 := ResetInternalKvPairManagerKernel b threads t ctx).
    cbn in Hb, Ht. assert (Hid : (0 <= b * threads + t)%Z) by nia.
    assert (H1 : max_capacity_ ctx1 = max_capacity_ ctx /\
                 heap_counter_ ctx1 = heap_counter_ ctx /\
                 dsize_key_ ctx1 = dsize_key_ ctx /\
                 dsize_value_ ctx1 = dsize_value_ ctx /\
                 length (heap_ ctx1) = length (heap_ ctx) /\
                 (forall i, heap_ ctx !! i = Some (Z.of_nat i) ->
                    heap_ ctx1 !! i = Some (Z.of_nat i)) /\
                 ((b * threads + t < max_capacity_ ctx)%Z ->
                  (Z.to_nat (b * threads + t) < length (heap_ ctx))%nat ->
                  heap_ ctx1 !! Z.to_nat (b * threads + t)
                  = Some (b * threads + t)%Z)).
    { subst ctx1. unfold ResetInternalKvPairManagerKernel.
      destruct (_ <? _)%Z eqn:Hlt; cbn.
      - split_and!; try done.
        + by rewrite length_insert.
        + intros i Hi. destruct (decide (i = Z.to_nat (b * threads + t))) as [->|Hne].
          * rewrite list_lookup_insert_eq by (by eapply lookup_lt_Some).
            f_equal. lia.
          * by rewrite list_lookup_insert_ne.
        + intros _ Hlen. by rewrite list_lookup_insert_eq.
      - split_and!; try done. intros Hlt'. lia. }
    destruct H1 as (M1 & C1 & K1 & V1 & L1 & S1 & W1).
    destruct (IH ctx1) as (M2 & C2 & K2 & V2 & L2 & S2 & W2).
    split_and!; try congruence.
    + intros i Hi. by apply S2, S1.
    + intros b' t' Hin Hlt Hlen. apply elem_of_cons in Hin as [[= -> ->]|Hin].
      * specialize (W1 Hlt Hlen).
        pose proof (S2 (Z.to_nat (b * threads + t))) as HS.
        rewrite Z2Nat.id in HS by lia. by apply HS.
      * apply W2; [done|congruence|congruence].
Qed.

Lemma new_manager_heap N dsize_key dsize_value memory :
  (0 <= N <= 2147483520)%Z -> length memory = Z.to_nat N ->
  heap_ (InternalKvPairManager_new N dsize_key dsize_value memory) = seqZ 0 N /\
  heap_counter_ (InternalKvPairManager_new N dsize_key dsize_value memory) = 0%Z /\
  max_capacity_ (InternalKvPairManager_new N dsize_key dsize_value memory) = N.
Proof.
  intros HN Hlen. unfold InternalKvPairManager_new, launch_Reset.
  set (blocks := ((N + 128 - 1) `quot` 128)%Z).
  set (ctx0 := {| heap_ := memory; heap_counter_ := 0; dsize_key_ := dsize_key;
                  dsize_value_ := dsize_value; max_capacity_ := N |}).
  assert (Hgrid : Forall (fun bt => (0 <= fst bt)%Z /\ (0 <= snd bt)%Z)
                    (grid blocks 128)).
  { apply Forall_forall. intros [b t] Hin. apply elem_of_grid in Hin. cbn. lia. }
  destruct (Reset_threads_spec 128 (grid blocks 128) ltac:(lia) Hgrid ctx0)
    as (M & C & K & V & L & _ & W).
  cbn. split_and!; try done.
  apply list_eq. intros i.
  destruct (decide (Z.of_nat i < N)%Z) as [Hi|Hi].
  - rewrite lookup_seqZ_lt by done.
    assert (Hb : blocks = ((N + 127) / 128)%Z)
      by (subst blocks; rewrite Z.quot_div_nonneg by lia; f_equal; lia).
    specialize (W (Z.of_nat i / 128)%Z (Z.of_nat i mod 128)%Z).
    assert (Hsplit : (Z.of_nat i / 128 * 128 + Z.of_nat i mod 128)%Z = Z.of_nat i).
    { pose proof (Z.div_mod (Z.of_nat i) 128 ltac:(lia)). lia. }
    rewrite Hsplit, Nat2Z.id in W. rewrite W; [f_equal; lia| | |].
    + apply elem_of_grid. split.
      * split; [apply Z.div_pos; lia|]. rewrite Hb.
        apply Z.div_lt_upper_bound; [lia|].
        pose proof (Z.div_mod (N + 127) 128 ltac:(lia)).
        pose proof (Z.mod_pos_bound (N + 127) 128 ltac:(lia)). lia.
      * apply Z.mod_pos_bound. lia.
    + done.
    + cbn. lia.
  - rewrite lookup_seqZ_ge by lia. apply lookup_ge_None. rewrite L. cbn. lia.
Qed.

(** X9: the constructor leaves the heap holding 0, 1, ..., max_capacity - 1
    in this order and the counter at 0, whatever the allocated array held:
    the grid of ceil(max_capacity / 128) blocks of 128 threads reaches every
    cell, and the guard of the kernel keeps the surplus threads out. *)
Theorem X9_new_manager_heap_is_identity N dsize_key dsize_value memory :
  (0 <= N <= 2147483520)%Z -> length memory = Z.to_nat N ->
  let ctx := InternalKvPairManager_new N dsize_key dsize_value memory in
  heap_ ctx = seqZ 0 N /\ heap_counter_ ctx = 0%Z /\ max_capacity_ ctx = N.
Proof.
  intros HN Hlen ctx. exact (new_manager_heap N dsize_key dsize_value memory HN Hlen).
Qed.

Lemma consistent_Allocate N ctx live :
  consistent N ctx live -> (Z.of_nat (size live) < N)%Z ->
  exists ptr ctx',
    Allocate ctx = (Done ptr, ctx') /\ SafeAllocate ctx = (Done ptr, ctx') /\
    (ptr ∉ live) /\ (0 <= ptr < N)%Z /\ consistent N ctx' (live ∪ {[ptr]}).
Proof.
  intros (HN & Hmax & Hlen & Hc & Hle & Hnd & Hfree & Hlive) Hlt.
  destruct (lookup_lt_is_Some_2 (heap_ ctx) (size live)) as [ptr Hptr]; [lia|].
  pose proof (drop_S _ _ _ Hptr) as Hdrop.
  destruct (Hfree ptr) as [Hnl Hrange]; [rewrite Hdrop; apply elem_of_cons; by left|].
  exists ptr, (set_heap_counter ctx (Z.of_nat (size live) + 1)).
  assert (Hat : heap_at (set_heap_counter ctx (int_of_int64 (heap_counter_ ctx + 1)))
                  (heap_counter_ ctx) = Some ptr).
  { unfold heap_at. cbn. rewrite Hc. destruct (_ <? _)%Z eqn:E; [lia|].
    by rewrite Nat2Z.id. }
  assert (Hw : int_of_int64 (heap_counter_ ctx + 1) = (Z.of_nat (size live) + 1)%Z)
    by (rewrite Hc; apply int_of_int64_id; lia).
  unfold Allocate, SafeAllocate, atomicAdd. rewrite Hat. cbn.
  replace (heap_counter_ ctx <? max_capacity_ ctx)%Z with true by (symmetry; lia).
  cbn. rewrite Hw. do 4 (split; [done|]).
  assert (Hsize : size (live ∪ {[ptr]}) = S (size live)).
  { rewrite size_union by set_solver. rewrite size_singleton. lia. }
  unfold consistent. cbn. rewrite Hsize. rewrite Hdrop in Hnd, Hfree.
  apply NoDup_cons in Hnd as [Hnin Hnd].
  split_and!; try done; try lia.
  - intros q Hq. destruct (Hfree q) as [Hql Hqr]; [apply elem_of_cons; by right|].
    split; [|done]. set_solver.
  - intros q Hq. apply elem_of_union in Hq as [Hq|Hq]; [by apply Hlive|].
    apply elem_of_singleton in Hq. by subst q.
Qed.

Lemma consistent_Free N ctx live ptr :
  consistent N ctx live -> ptr ∈ live ->
  exists ctx',
    Free ptr ctx = (Done tt, ctx') /\ SafeFree ptr ctx = (Done tt, ctx') /\
    consistent N ctx' (live ∖ {[ptr]}).
Proof.
  intros (HN & Hmax & Hlen & Hc & Hle & Hnd & Hfree & Hlive) Hin.
  assert (Hpos : (0 < size live)%nat).
  { destruct (decide (size live = 0%nat)) as [Hz|]; [|lia].
    apply size_empty_inv in Hz. set_solver. }
  assert (Hsize : size (live ∖ {[ptr]}) = (size live - 1)%nat).
  { rewrite size_difference by set_solver. by rewrite size_singleton. }
  assert (Hw : int_of_int64 (heap_counter_ ctx - 1) = (Z.of_nat (size live) - 1)%Z)
    by (rewrite Hc; apply int_of_int64_id; lia).
  exists (set_heap (set_heap_counter ctx (Z.of_nat (size live) - 1))
            (<[(size live - 1)%nat := ptr]> (heap_ ctx))).
  unfold Free, SafeFree, atomicSub, heap_store. cbn. rewrite Hw, Hc.
  replace (1 <=? Z.of_nat (size live))%Z with true by (symmetry; lia).
  replace ((0 <=? Z.of_nat (size live) - 1)
           && (Z.of_nat (size live) - 1 <? Z.of_nat (length (heap_ ctx))))%Z
    with true by (symmetry; apply andb_true_intro; split; lia).
  cbn. replace (Z.to_nat (Z.of_nat (size live) - 1)) with (size live - 1)%nat by lia.
  split_and!; try done.
  assert (Hdrop : drop (size live - 1) (<[(size live - 1)%nat := ptr]> (heap_ ctx))
                  = ptr :: drop (size live) (heap_ ctx)).
  { rewrite (drop_S _ ptr) by (apply list_lookup_insert_eq; lia).
    f_equal. replace (S (size live - 1)) with (size live) by lia.
    apply drop_insert_lt. lia. }
  unfold consistent. cbn. rewrite Hsize, Hdrop, length_insert.
  split_and!; try done; try lia.
  - apply NoDup_cons. split; [|done]. intros Hq. by destruct (Hfree _ Hq).
  - intros q Hq. apply elem_of_cons in Hq as [->|Hq].
    + split; [set_solver|by apply Hlive].
    + destruct (Hfree _ Hq). split; [set_solver|done].
  - intros q Hq. apply Hlive. set_solver.
Qed.

Lemma reachable_consistent N ctx live :
  (0 <= N <= 2147483520)%Z -> reachable N ctx live -> consistent N ctx live.
Proof.
  intros HN. induction 1 as [dk dv memory Hlen|ctx live ptr ctx' Hr IH Hlt Hrun
                            |ctx live ptr ctx' Hr IH Hin Hrun].
  - destruct (new_manager_heap N dk dv memory HN Hlen)
      as (Hheap & Hc & Hmax).
    unfold consistent. rewrite size_empty, Hheap. cbn [drop].
    split_and!; try done; try lia;
      [by rewrite length_seqZ | apply NoDup_seqZ | ].
    intros ptr Hptr. apply elem_of_seqZ in Hptr. split; [set_solver|lia].
  - destruct (consistent_Allocate _ _ _ IH Hlt) as (p & c' & _ & Hs & _ & _ & Hcons).
    rewrite Hs in Hrun. by injection Hrun as <- <-.
  - destruct (consistent_Free _ _ _ _ IH Hin) as (c' & _ & Hs & Hcons).
    rewrite Hs in Hrun. by injection Hrun as <-.
Qed.

(** X10: for calls that do not overlap, each one returning before the next
    starts.  In every state reached that way from a new manager by a client
    that allocates only while fewer than max_capacity slots are live and
    frees only live slots, the counter is the number of live slots; an
    allocation (checked or not) then returns a slot in range that is not
    live, and freeing a live slot (checked or not) succeeds. *)
Theorem X10_no_live_slot_is_handed_out N ctx live :
  (0 <= N <= 2147483520)%Z -> reachable N ctx live ->
  heap_counter_ ctx = Z.of_nat (size live) /\
  ((Z.of_nat (size live) < N)%Z ->
   exists ptr ctx',
     Allocate ctx = (Done ptr, ctx') /\ SafeAllocate ctx = (Done ptr, ctx') /\
     (ptr ∉ live) /\ (0 <= ptr < N)%Z) /\
  (forall ptr, ptr ∈ live ->
   exists ctx',
     Free ptr ctx = (Done tt, ctx') /\ SafeFree ptr ctx = (Done tt, ctx')).
Proof.
  intros HN Hr. pose proof (reachable_consistent _ _ _ HN Hr) as Hcons.
  split; [by destruct Hcons as (_ & _ & _ & Hc & _)|]. split.
  - intros Hlt.
    destruct (consistent_Allocate _ _ _ Hcons Hlt) as (p & c' & Ha & Hs & Hn & Hrg & _).
    by exists p, c'.
  - intros ptr Hin.
    destruct (consistent_Free _ _ _ _ Hcons Hin) as (c' & Hf & Hs & _).
    by exists c'.
Qed.

(** X11: an allocation followed by the release of the slot it returned
    puts the context back exactly as it was (heap and counter), when the
    counter points into the heap. *)
Theorem X11_allocate_then_free_restores ctx :
  (0 <= heap_counter_ ctx < Z.of_nat (length (heap_ ctx)))%Z ->
  (heap_counter_ ctx < 2147483647)%Z ->
  exists ptr ctx',
    Allocate ctx = (Done ptr, ctx') /\
    heap_ ctx !! Z.to_nat (heap_counter_ ctx) = Some ptr /\
    Free ptr ctx' = (Done tt, ctx).
Proof.
  intros Hc Hmax.
  destruct (lookup_lt_is_Some_2 (heap_ ctx) (Z.to_nat (heap_counter_ ctx)))
    as [ptr Hptr]; [lia|].
  exists ptr, (set_heap_counter ctx (heap_counter_ ctx + 1)).
  unfold Allocate, Free, atomicAdd, atomicSub, heap_at, heap_store. cbn.
  rewrite (int_of_int64_id (heap_counter_ ctx + 1)) by lia.
  replace (heap_counter_ ctx <? 0)%Z with false by (symmetry; lia).
  rewrite Hptr. split; [done|]. split; [done|].
  rewrite (int_of_int64_id (heap_counter_ ctx + 1 - 1)) by lia.
  replace ((0 <=? heap_counter_ ctx + 1 - 1)
           && (heap_counter_ ctx + 1 - 1 <? Z.of_nat (length (heap_ ctx))))%Z
    with true by (symmetry; apply andb_true_intro; split; lia).
  replace (heap_counter_ ctx + 1 - 1)%Z with (heap_counter_ ctx) by lia.
  rewrite list_insert_id by done. by destruct ctx.
Qed.

(** X12: the heap is a stack: a slot that is released is the one the next
    allocation returns, and the counter is then back where it was. *)
Theorem X12_free_then_allocate_returns_slot ptr ctx :
  (1 <= heap_counter_ ctx <= Z.of_nat (length (heap_ ctx)))%Z ->
  (heap_counter_ ctx < 2147483648)%Z ->
  exists ctx1 ctx2,
    Free ptr ctx = (Done tt, ctx1) /\
    Allocate ctx1 = (Done ptr, ctx2) /\
    heap_counter_ ctx2 = heap_counter_ ctx /\
    heap_ ctx2 = <[Z.to_nat (heap_counter_ ctx - 1) := ptr]> (heap_ ctx).
Proof.
  intros Hc Hmax. eexists _, _.
  unfold Allocate, Free, atomicAdd, atomicSub, heap_at, heap_store. cbn.
  rewrite (int_of_int64_id (heap_counter_ ctx - 1)) by lia.
  replace ((0 <=? heap_counter_ ctx - 1)
           && (heap_counter_ ctx - 1 <? Z.of_nat (length (heap_ ctx))))%Z
    with true by (symmetry; apply andb_true_intro; split; lia).
  split; [done|]. cbn.
  replace (heap_counter_ ctx - 1 <? 0)%Z with false by (symmetry; lia).
  rewrite list_lookup_insert_eq by lia.
  rewrite (int_of_int64_id (heap_counter_ ctx - 1 + 1)) by lia.
  split; [done|]. cbn. split; [lia|done].
Qed.

(** X13: at the two ends of the protocol.  When all max_capacity slots are
    live, SafeAllocate fails its assertion and the unchecked Allocate reads
    past the end of the heap; when no slot is live, SafeFree fails its
    assertion and the unchecked Free writes before the start of the heap.
    In all four cases the counter has already been moved, out of the range
    0..max_capacity. *)
Theorem X13_exhausted_and_empty N ctx live :
  (0 <= N <= 2147483520)%Z -> reachable N ctx live ->
  (Z.of_nat (size live) = N ->
   SafeAllocate ctx = (AssertFailed, set_heap_counter ctx (N + 1)) /\
   Allocate ctx = (OutOfBounds, set_heap_counter ctx (N + 1))) /\
  (size live = 0%nat ->
   forall ptr,
     SafeFree ptr ctx = (AssertFailed, set_heap_counter ctx (-1)) /\
     Free ptr ctx = (OutOfBounds, set_heap_counter ctx (-1))).
Proof.
  intros HN Hr.
  destruct (reachable_consistent _ _ _ HN Hr)
    as (_ & Hmax & Hlen & Hc & _).
  split.
  - intros Hfull. unfold SafeAllocate, Allocate, atomicAdd, heap_at. cbn.
    rewrite Hc, Hfull, Hmax. rewrite (int_of_int64_id (N + 1)) by lia.
    replace (N <? N)%Z with false by (symmetry; lia). cbn.
    replace (N <? 0)%Z with false by (symmetry; lia).
    split; [done|]. rewrite lookup_ge_None_2 by lia. done.
  - intros Hempty ptr. unfold SafeFree, Free, atomicSub, heap_store. cbn.
    rewrite Hc, Hempty. cbn. done.
Qed.

End KvPairFacts.

(** X9 on a manager of five slots over an array that held sevens. *)
Lemma X9_witness :
  (0 <= 5 <= 2147483520)%Z /\ length [7; 7; 7; 7; 7]%Z = Z.to_nat 5 /\
  let ctx := KvPair.InternalKvPairManager_new 5 4 8 [7; 7; 7; 7; 7]%Z in
  KvPair.heap_ ctx = seqZ 0 5 /\ KvPair.heap_counter_ ctx = 0%Z /\
  KvPair.max_capacity_ ctx = 5%Z.
Proof.
  split; [lia|]. split; [reflexivity|].
  apply (X9_new_manager_heap_is_identity 5 4 8 [7; 7; 7; 7; 7]%Z); [lia|reflexivity].
Defined.

(** X10 on a manager of two slots after one allocation. *)
Lemma X10_witness :
  exists ctx,
    (0 <= 2 <= 2147483520)%Z /\
    KvPair.reachable 2 ctx (∅ ∪ {[0%Z]}) /\
    KvPair.heap_counter_ ctx = Z.of_nat (size (∅ ∪ {[0%Z]} : gset Z)) /\
    ((Z.of_nat (size (∅ ∪ {[0%Z]} : gset Z)) < 2)%Z ->
     exists ptr ctx',
       KvPair.Allocate ctx = (KvPair.Done ptr, ctx') /\
       KvPair.SafeAllocate ctx = (KvPair.Done ptr, ctx') /\
       (ptr ∉ (∅ ∪ {[0%Z]} : gset Z)) /\ (0 <= ptr < 2)%Z) /\
    (forall ptr, ptr ∈ (∅ ∪ {[0%Z]} : gset Z) ->
     exists ctx',
       KvPair.Free ptr ctx = (KvPair.Done tt, ctx') /\
       KvPair.SafeFree ptr ctx = (KvPair.Done tt, ctx')).
Proof.
  assert (Hr : KvPair.reachable 2
                 (KvPair.set_heap_counter
                    (KvPair.InternalKvPairManager_new 2 4 8 [9; 9]%Z) 1)
                 (∅ ∪ {[0%Z]})).
  { eapply KvPair.reach_Allocate;
      [apply (KvPair.reach_new 2 4 8 [9; 9]%Z); reflexivity
      | rewrite size_empty; lia | reflexivity]. }
  eexists. split; [lia|]. split; [exact Hr|].
  apply (X10_no_live_slot_is_handed_out 2 _ _ ltac:(lia) Hr).
Defined.

(** X11 on a new manager of three slots. *)
Lemma X11_witness :
  let ctx := KvPair.InternalKvPairManager_new 3 4 8 [9; 9; 9]%Z in
  (0 <= KvPair.heap_counter_ ctx < Z.of_nat (length (KvPair.heap_ ctx)))%Z /\
  (KvPair.heap_counter_ ctx < 2147483647)%Z /\
  exists ptr ctx',
    KvPair.Allocate ctx = (KvPair.Done ptr, ctx') /\
    KvPair.heap_ ctx !! Z.to_nat (KvPair.heap_counter_ ctx) = Some ptr /\
    KvPair.Free ptr ctx' = (KvPair.Done tt, ctx).
Proof.
  intros ctx. split; [by vm_compute|]. split; [by vm_compute|].
  apply X11_allocate_then_free_restores; by vm_compute.
Defined.

(** X12 on a manager of three slots with one slot live. *)
Lemma X12_witness :
  let ctx := {| KvPair.heap_ := [0; 1; 2]%Z; KvPair.heap_counter_ := 1;
                KvPair.dsize_key_ := 4; KvPair.dsize_value_ := 8;
                KvPair.max_capacity_ := 3 |} in
  (1 <= KvPair.heap_counter_ ctx <= Z.of_nat (length (KvPair.heap_ ctx)))%Z /\
  (KvPair.heap_counter_ ctx < 2147483648)%Z /\
  exists ctx1 ctx2,
    KvPair.Free 0 ctx = (KvPair.Done tt, ctx1) /\
    KvPair.Allocate ctx1 = (KvPair.Done 0%Z, ctx2) /\
    KvPair.heap_counter_ ctx2 = KvPair.heap_counter_ ctx /\
    KvPair.heap_ ctx2
    = <[Z.to_nat (KvPair.heap_counter_ ctx - 1) := 0%Z]> (KvPair.heap_ ctx).
Proof.
  intros ctx. split; [by vm_compute|]. split; [by vm_compute|].
  apply X12_free_then_allocate_returns_slot; by vm_compute.
Defined.

(** X13 on a manager of one slot, new and after its only allocation. *)
Lemma X13_witness :
  exists ctx,
    (0 <= 1 <= 2147483520)%Z /\
    KvPair.reachable 1 ctx (∅ ∪ {[0%Z]}) /\
    (Z.of_nat (size (∅ ∪ {[0%Z]} : gset Z)) = 1%Z ->
     KvPair.SafeAllocate ctx
       = (KvPair.AssertFailed, KvPair.set_heap_counter ctx (1 + 1)) /\
     KvPair.Allocate ctx
       = (KvPair.OutOfBounds, KvPair.set_heap_counter ctx (1 + 1))) /\
    (size (∅ ∪ {[0%Z]} : gset Z) = 0%nat ->
     forall ptr,
       KvPair.SafeFree ptr ctx
         = (KvPair.AssertFailed, KvPair.set_heap_counter ctx (-1)) /\
       KvPair.Free ptr ctx
         = (KvPair.OutOfBounds, KvPair.set_heap_counter ctx (-1))).
Proof.
  assert (Hr : KvPair.reachable 1
                 (KvPair.set_heap_counter
                    (KvPair.InternalKvPairManager_new 1 4 8 [9]%Z) 1)
                 (∅ ∪ {[0%Z]})).
  { eapply KvPair.reach_Allocate;
      [apply (KvPair.reach_new 1 4 8 [9]%Z); reflexivity
      | rewrite size_empty; lia | reflexivity]. }
  eexists. split; [lia|]. split; [exact Hr|].
  apply (X13_exhausted_and_empty 1 _ _ ltac:(lia) Hr).
Defined.

(** ** Shapes of nested initializer lists *)

Section tensor_init_facts.

Import tensor_init.

Context {T : Type}.

Lemma length_shape_of n (t : NestedInitializerList T n) : length (shape_of n t) = n.
Proof.
  revert t. induction n as [|n IH]; intros t; [done|]. cbn.
  destruct t as [|first rest]; [by rewrite length_replicate|by rewrite IH].
Qed.

Lemma compare_dims_spec {A} (value : A -> Outcome Z) (u : A -> bool) (v : A -> Z)
    dim l :
  (forall c, value c = if u c then Ok (v c) else Throw ragged) ->
  compare_dims value dim l
  = if forallb (fun c => u c && bool_decide (v c = dim)) l then Ok tt
    else Throw ragged.
Proof.
  intros Hv. induction l as [|c l IH]; [done|]. cbn. rewrite Hv.
  destruct (u c); [|done]. cbn.
  destruct (decide (dim <> v c)) as [Hne|Heq].
  - by rewrite bool_decide_eq_false_2 by congruence.
  - rewrite bool_decide_eq_true_2; [exact IH|].
    destruct (decide (v c = dim)) as [|Hd]; [done|].
    exfalso. apply Heq. congruence.
Qed.

Lemma InitializerShapeImpl_spec n :
  forall D (t : NestedInitializerList T n), (D < n)%nat ->
    InitializerShapeImpl D n t
    = if uniform D n t then Ok (shape_of n t !!! D) else Throw ragged.
Proof.
  induction n as [|n IH]; intros D t HD; [lia|].
  destruct D as [|D]; [done|]. cbn [InitializerShapeImpl uniform].
  destruct t as [|first rest].
  - change (Ok 0%Z = Ok ((0%Z :: replicate n 0%Z) !!! S D)).
    rewrite lookup_total_cons_ne_0 by lia. cbn [Nat.pred].
    by rewrite lookup_total_replicate_2 by lia.
  - rewrite IH by lia. destruct (uniform D n first) eqn:Hu.
    + rewrite (compare_dims_spec _ (uniform D n) (fun c => shape_of n c !!! D))
        by (intros c; apply IH; lia).
      by destruct (forallb _ _).
    + cbn. by rewrite Hu.
Qed.

Lemma in_order_spec {A B} (f : A -> Outcome B) (u : A -> bool) (v : A -> B) l :
  (forall a, In a l -> f a = if u a then Ok (v a) else Throw ragged) ->
  in_order (map f l) = if forallb u l then Ok (map v l) else Throw ragged.
Proof.
  induction l as [|a l IH]; intros Hf; [done|]. cbn.
  rewrite (Hf a) by (by left). destruct (u a); [|done]. cbn.
  rewrite IH by (intros b Hb; apply Hf; by right). by destruct (forallb u l).
Qed.

Lemma lookup_total_seq (l : list Z) :
  map (fun D => l !!! D) (seq 0 (length l)) = l.
Proof.
  apply list_eq. intros i. rewrite list_lookup_fmap.
  destruct (decide (i < length l)%nat) as [Hi|Hi].
  - rewrite lookup_seq_lt by done. cbn.
    by rewrite list_lookup_lookup_total_lt.
  - rewrite lookup_seq_ge by lia. cbn. symmetry. apply lookup_ge_None. lia.
Qed.

Lemma rectangular_uniform n :
  forall t : NestedInitializerList T n,
    rectangular n t = true <-> forall D, (D < n)%nat -> uniform D n t = true.
Proof.
  induction n as [|n IH]; intros t; [split; [intros _ D HD; lia|done]|].
  destruct t as [|first rest].
  - split; [|done]. intros _ D _. by destruct D.
  - cbn [rectangular]. rewrite forallb_forall. split.
    + intros Hr D HD. destruct D as [|D]; [done|]. cbn [uniform].
      apply forallb_forall. intros c Hc. specialize (Hr c Hc).
      apply andb_prop in Hr as [Hrc Hsh]. apply bool_decide_eq_true_1 in Hsh.
      apply andb_true_intro. split; [apply IH; [done|lia]|].
      apply bool_decide_eq_true_2. by rewrite Hsh.
    + intros Hu c Hc. apply andb_true_intro. split.
      * apply IH. intros D HD. specialize (Hu (S D) ltac:(lia)).
        cbn [uniform] in Hu. rewrite forallb_forall in Hu.
        specialize (Hu c Hc). by apply andb_prop in Hu as [Hu _].
      * apply bool_decide_eq_true_2.
        apply (list_eq_same_length _ _ n); [apply length_shape_of..|].
        intros i x y Hi Hx Hy. specialize (Hu (S i) ltac:(lia)).
        cbn [uniform] in Hu. rewrite forallb_forall in Hu.
        specialize (Hu c Hc). apply andb_prop in Hu as [_ Hu].
        apply bool_decide_eq_true_1 in Hu.
        apply list_lookup_total_correct in Hx, Hy. congruence.
Qed.

Lemma InitializerShape_spec n (t : NestedInitializerList T n) :
  InitializerShape n t
  = if rectangular n t then Ok (shape_of n t) else Throw ragged.
Proof.
  unfold InitializerShape.
  rewrite (in_order_spec _ (fun D => uniform D n t) (fun D => shape_of n t !!! D)).
  2:{ intros D HD. apply in_seq in HD. apply InitializerShapeImpl_spec. lia. }
  destruct (rectangular n t) eqn:Hr.
  - replace (forallb _ _) with true.
    + f_equal. rewrite <- (length_shape_of n t) at 1. apply lookup_total_seq.
    + symmetry. apply forallb_forall. intros D HD. apply in_seq in HD.
      apply rectangular_uniform; [done|lia].
  - replace (forallb _ _) with false; [done|].
    symmetry. apply not_true_is_false. intros Hall.
    rewrite forallb_forall in Hall.
    assert (rectangular n t = true); [|congruence].
    apply rectangular_uniform. intros D HD. apply Hall, in_seq. lia.
Qed.

(** X14: InitializerShape accepts exactly the rectangular literals: on one
    it returns the shape read along the first elements, on any other it
    throws the ragged-sequences error, and so does InferShape. *)
Theorem X14_shape_of_rectangular_else_ragged n (t : NestedInitializerList T n) :
  InitializerShape n t
  = (if rectangular n t then Ok (shape_of n t) else Throw ragged) /\
  (rectangular n t = false -> InferShape n t = Throw ragged).
Proof.
  split; [apply InitializerShape_spec|].
  intros Hr. unfold InferShape. by rewrite InitializerShape_spec, Hr.
Qed.

Lemma last_dim_loop_spec shape fuel :
  forall i,
    let k := last_dim_loop fuel shape i in
    (i <= k)%nat /\
    (k + 1 <= Nat.max (i + 1) (length shape))%nat /\
    (forall j, (i <= j < k)%nat -> shape !!! j <> 0%Z) /\
    ((length shape <= i + fuel + 1)%nat -> (k + 1 < length shape)%nat ->
     shape !!! k = 0%Z).
Proof.
  induction fuel as [|fuel IH]; intros i; cbn [last_dim_loop].
  { cbn. split_and!; intros; lia. }
  destruct (bool_decide (i + 1 < length shape)%nat) eqn:Hlen; cbn [andb].
  - apply bool_decide_eq_true_1 in Hlen.
    destruct (bool_decide (shape !!! i <> 0%Z)) eqn:Hnz.
    + apply bool_decide_eq_true_1 in Hnz.
      destruct (IH (i + 1)%nat) as (H1 & H2 & H3 & H4). cbn zeta.
      split_and!; [lia|lia| |intros; apply H4; lia].
      intros j Hj. destruct (decide (j = i)) as [->|]; [done|apply H3; lia].
    + apply bool_decide_eq_false_1 in Hnz. cbn zeta.
      split_and!; [lia|lia|intros; lia|].
      intros _ _. destruct (decide (shape !!! i = 0%Z)); [done|by destruct Hnz].
  - apply bool_decide_eq_false_1 in Hlen. cbn zeta.
    split_and!; [lia|lia|intros; lia|intros; lia].
Qed.

Lemma NumElements_zero (l : list Z) : 0%Z ∈ l -> NumElements l = 0%Z.
Proof.
  induction l as [|x l IH]; [by intros ?%elem_of_nil|].
  intros [<-|Hl]%elem_of_cons; unfold NumElements in *; cbn; [done|].
  rewrite IH by done. lia.
Qed.

Lemma length_flat_map_const {A B} (f : A -> list B) (m : nat) (l : list A) :
  (forall c, In c l -> length (f c) = m) ->
  length (flat_map f l) = (length l * m)%nat.
Proof.
  induction l as [|c l IH]; intros Hf; [done|]. cbn.
  rewrite length_app, (Hf c) by (by left).
  rewrite IH by (intros b Hb; apply Hf; by right). done.
Qed.

Lemma leaves_count n :
  forall t : NestedInitializerList T n,
    rectangular n t = true ->
    Z.of_nat (length (leaves n t)) = NumElements (shape_of n t).
Proof.
  induction n as [|n IH]; intros t Hr; [done|].
  destruct t as [|first rest]; [done|].
  cbn [rectangular] in Hr. rewrite forallb_forall in Hr.
  cbn [leaves shape_of]. unfold NumElements. cbn [foldr].
  fold (NumElements (shape_of n first)).
  rewrite (length_flat_map_const _ (Z.to_nat (NumElements (shape_of n first)))).
  - assert (Hf := Hr first ltac:(by left)).
    apply andb_prop in Hf as [Hf _]. apply IH in Hf.
    rewrite Nat2Z.inj_mul, Z2Nat.id by lia. done.
  - intros c Hc. apply Hr in Hc. apply andb_prop in Hc as [Hc Hsh].
    apply bool_decide_eq_true_1 in Hsh. apply IH in Hc. rewrite <- Hsh. lia.
Qed.

(** X15: for a rectangular literal of depth at least one, InferShape returns
    the shape cut after its first zero dimension (the whole shape when there
    is none); every dimension kept before the last is nonzero, and the
    product of the returned dimensions is the number of scalars written in
    the literal. *)
Theorem X15_inferred_shape_stops_at_first_zero n (t : NestedInitializerList T n) :
  (1 <= n)%nat ->
  rectangular n t = true ->
  exists k,
    (k < n)%nat /\
    InferShape n t = Ok (take (S k) (shape_of n t)) /\
    (forall j, (j < k)%nat -> shape_of n t !!! j <> 0%Z) /\
    ((S k < n)%nat -> shape_of n t !!! k = 0%Z) /\
    NumElements (take (S k) (shape_of n t)) = Z.of_nat (length (leaves n t)).
Proof.
  intros Hn Hr. set (shape := shape_of n t).
  assert (Hlen : length shape = n) by apply length_shape_of.
  destruct (last_dim_loop_spec shape (length shape) 0) as (_ & H2 & H3 & H4).
  set (k := last_dim_loop (length shape) shape 0) in *.
  exists k. split_and!.
  - lia.
  - unfold InferShape. rewrite InitializerShape_spec, Hr. fold shape k.
    rewrite resize_le by lia. by replace (k + 1)%nat with (S k) by lia.
  - intros j Hj. apply H3. lia.
  - intros Hk. apply H4; lia.
  - rewrite leaves_count by done. fold shape.
    destruct (decide (S k = n)) as [Hlast|Hcut].
    + by rewrite take_ge by lia.
    + assert (Hz : shape !!! k = 0%Z) by (apply H4; lia).
      assert (Hk : shape !! k = Some 0%Z).
      { rewrite <- Hz. apply list_lookup_lookup_total_lt. lia. }
      rewrite (NumElements_zero shape) by (by eapply list_elem_of_lookup_2).
      apply NumElements_zero. apply (list_elem_of_lookup_2 _ k).
      by rewrite lookup_take_lt by lia.
Qed.

Lemma fold_NestedCopy_None D (l : list (NestedInitializerList T D)) :
  fold_left (fun acc it =>
               match acc with
               | Some st => NestedCopy D it st
               | None => None
               end) l None = None.
Proof. by induction l. Qed.

Lemma NestedCopy_spec D :
  forall (t : NestedInitializerList T D) pre zs,
    NestedCopy D t (pre ++ zs, length pre)
    = if decide (length (leaves D t) <= length zs)%nat
      then Some (pre ++ leaves D t ++ drop (length (leaves D t)) zs,
                 (length pre + length (leaves D t))%nat)
      else None.
Proof.
  induction D as [|D IH]; intros t pre zs.
  - cbn [NestedCopy leaves fst snd length]. rewrite length_app.
    destruct zs as [|z zs].
    + rewrite decide_False by (cbn; lia). by rewrite decide_False by (cbn; lia).
    + rewrite decide_True by (cbn; lia). rewrite decide_True by (cbn; lia).
      rewrite insert_app_r_alt by done. rewrite Nat.sub_diag. cbn.
      do 2 f_equal. lia.
  - cbn [NestedCopy leaves]. revert pre zs.
    induction t as [|c t IHt]; intros pre zs.
    + cbn. rewrite decide_True by lia. rewrite drop_0. do 2 f_equal. lia.
    + cbn [fold_left flat_map]. rewrite IH, length_app.
      destruct (decide (length (leaves D c) <= length zs)%nat) as [Hc|Hc].
      * replace (pre ++ leaves D c ++ drop (length (leaves D c)) zs)
          with ((pre ++ leaves D c) ++ drop (length (leaves D c)) zs)
          by (by rewrite <- app_assoc).
        replace (length pre + length (leaves D c))%nat
          with (length (pre ++ leaves D c)) by (by rewrite length_app).
        rewrite IHt, length_drop.
        destruct (decide (length (flat_map (leaves D) t)
                          <= length zs - length (leaves D c))%nat) as [Ht|Ht].
        -- rewrite decide_True by lia. rewrite drop_drop, length_app.
           rewrite <- !app_assoc. do 2 f_equal. lia.
        -- by rewrite decide_False by lia.
      * rewrite fold_NestedCopy_None. by rewrite decide_False by lia.
Qed.

(** X16: for a shape that is an element count, ToFlatVector writes the
    scalars of the literal, in the order they are written, at the front of a
    vector of NumElements(shape) default values; when the literal holds more
    scalars than that, NestedCopy writes past the end of the vector. *)
Theorem X16_flat_vector_is_leaves_then_defaults (T0 : T) D shape
    (t : NestedInitializerList T D) :
  in_int64 shape = true ->
  ToFlatVector T0 D shape t
  = if decide (length (leaves D t) <= Z.to_nat (NumElements shape))%nat
    then Some (leaves D t
               ++ replicate (Z.to_nat (NumElements shape) - length (leaves D t)) T0)
    else None.
Proof.
  intros _. unfold ToFlatVector.
  pose proof (NestedCopy_spec D t [] (replicate (Z.to_nat (NumElements shape)) T0))
    as Hcopy.
  cbn [app length] in Hcopy. rewrite length_replicate in Hcopy.
  rewrite Hcopy. clear Hcopy.
  destruct (decide _); [|done]. by rewrite drop_replicate.
Qed.

(** X17: with the shape that InferShape returns for a literal of depth at
    least one (an element count), ToFlatVector stays inside the vector and
    returns exactly the scalars of the literal, NumElements(shape) of them. *)
Theorem X17_inferred_shape_fits (T0 : T) n (t : NestedInitializerList T n) sh :
  (1 <= n)%nat ->
  InferShape n t = Ok sh ->
  in_int64 sh = true ->
  ToFlatVector T0 n sh t = Some (leaves n t) /\
  Z.of_nat (length (leaves n t)) = NumElements sh.
Proof.
  intros Hn Hsh _.
  assert (Hr : rectangular n t = true).
  { destruct (rectangular n t) eqn:Hr; [done|].
    unfold InferShape in Hsh. by rewrite InitializerShape_spec, Hr in Hsh. }
  assert (Hnum : Z.of_nat (length (leaves n t)) = NumElements sh).
  { unfold InferShape in Hsh. rewrite InitializerShape_spec, Hr in Hsh.
    injection Hsh as <-. set (shape := shape_of n t).
    assert (Hlen : length shape = n) by apply length_shape_of.
    destruct (last_dim_loop_spec shape (length shape) 0) as (_ & H2 & _ & H4).
    set (k := last_dim_loop (length shape) shape 0) in *.
    rewrite resize_le by lia. rewrite leaves_count by done. fold shape.
    destruct (decide (k + 1 = n)%nat) as [Hlast|Hcut].
    - by rewrite take_ge by lia.
    - assert (Hz : shape !!! k = 0%Z) by (apply H4; lia).
      assert (Hk : shape !! k = Some 0%Z).
      { rewrite <- Hz. apply list_lookup_lookup_total_lt. lia. }
      rewrite (NumElements_zero shape) by (by eapply list_elem_of_lookup_2).
      symmetry. apply NumElements_zero. apply (list_elem_of_lookup_2 _ k).
      by rewrite lookup_take_lt by lia. }
  split; [|done]. unfold ToFlatVector.
  pose proof (NestedCopy_spec n t [] (replicate (Z.to_nat (NumElements sh)) T0))
    as Hcopy.
  cbn [app length] in Hcopy. rewrite length_replicate in Hcopy.
  rewrite Hcopy. clear Hcopy.
  rewrite decide_True by lia. rewrite drop_replicate.
  replace (Z.to_nat (NumElements sh) - length (leaves n t))%nat with 0%nat by lia.
  cbn. by rewrite app_nil_r.
Qed.

(** X18: a scalar is a literal of depth zero: InferShape gives it the shape
    (0), of no elements, and ToFlatVector with that shape writes the scalar
    past the end of an empty vector. *)
Theorem X18_scalar_gets_shape_zero (T0 : T) (s : NestedInitializerList T 0) :
  InferShape 0 s = Ok [0%Z] /\
  NumElements [0%Z] = 0%Z /\
  ToFlatVector T0 0 [0%Z] s = None.
Proof. done. Qed.

End tensor_init_facts.

Lemma X15_witness :
  (1 <= 3)%nat /\
  tensor_init.rectangular (T := Z) 3 [[]; []] = true /\
  exists k,
    (k < 3)%nat /\
    tensor_init.InferShape (T := Z) 3 [[]; []]
    = Ok (take (S k) (tensor_init.shape_of (T := Z) 3 [[]; []])) /\
    (forall j, (j < k)%nat -> tensor_init.shape_of (T := Z) 3 [[]; []] !!! j <> 0%Z) /\
    ((S k < 3)%nat -> tensor_init.shape_of (T := Z) 3 [[]; []] !!! k = 0%Z) /\
    tensor_init.NumElements (take (S k) (tensor_init.shape_of (T := Z) 3 [[]; []]))
    = Z.of_nat (length (tensor_init.leaves (T := Z) 3 [[]; []])).
Proof.
  split; [lia|]. split; [reflexivity|].
  apply (X15_inferred_shape_stops_at_first_zero (T := Z) 3 [[]; []]);
    [lia|reflexivity].
Defined.

Lemma X16_witness :
  tensor_init.in_int64 [2; 2]%Z = true /\
  tensor_init.ToFlatVector 0%Z 2 [2; 2]%Z [[1; 2]; [3]]%Z
  = if decide (length (tensor_init.leaves (T := Z) 2 [[1; 2]; [3]]%Z)
               <= Z.to_nat (tensor_init.NumElements [2; 2]%Z))%nat
    then Some (tensor_init.leaves (T := Z) 2 [[1; 2]; [3]]%Z
               ++ replicate (Z.to_nat (tensor_init.NumElements [2; 2]%Z)
                             - length (tensor_init.leaves (T := Z) 2 [[1; 2]; [3]]%Z))
                    0%Z)
    else None.
Proof.
  split; [reflexivity|].
  apply (X16_flat_vector_is_leaves_then_defaults (T := Z) 0%Z 2 [2; 2]%Z
           [[1; 2]; [3]]%Z); reflexivity.
Defined.

Lemma X17_witness :
  (1 <= 2)%nat /\
  tensor_init.InferShape (T := Z) 2 [[1; 2; 3]; [4; 5; 6]]%Z = Ok [2; 3]%Z /\
  tensor_init.in_int64 [2; 3]%Z = true /\
  tensor_init.ToFlatVector 0%Z 2 [2; 3]%Z [[1; 2; 3]; [4; 5; 6]]%Z
  = Some (tensor_init.leaves (T := Z) 2 [[1; 2; 3]; [4; 5; 6]]%Z) /\
  Z.of_nat (length (tensor_init.leaves (T := Z) 2 [[1; 2; 3]; [4; 5; 6]]%Z))
  = tensor_init.NumElements [2; 3]%Z.
Proof.
  split; [lia|]. split; [reflexivity|]. split; [reflexivity|].
  apply (X17_inferred_shape_fits (T := Z) 0%Z 2 [[1; 2; 3]; [4; 5; 6]]%Z [2; 3]%Z);
    [lia|reflexivity|reflexivity].
Defined.
